(** * ios_burp_setup: profile builder, profile server, address discovery

    A shallow embedding of [ios_burp_setup.py].  Python strings are
    sequences of Unicode code points, [bytes] objects are sequences of
    octets; both are lists of integers here.  The random source
    ([os.urandom]), the file system and the socket layer are explicit
    inputs of the functions that use them. *)

From Stdlib Require Import ZArith List Bool String Ascii DecimalString Lia.
Import ListNotations.
Local Open Scope Z_scope.

(** ** Python strings *)

(** A [str] is the list of its code points, a [bytes] the list of its
    octets. *)
Definition str := list Z.
Definition bytes := list Z.

(** An ASCII literal of the source, as a [str]. *)
Definition lit (s : string) : str :=
  map (fun a => Z.of_N (N_of_ascii a)) (list_ascii_of_string s).

Definition char_eqb (a b : Z) : bool := Z.eqb a b.

Fixpoint str_eqb (a b : str) : bool :=
  match a, b with
  | [], [] => true
  | x :: a', y :: b' => char_eqb x y && str_eqb a' b'
  | _, _ => false
  end.

(** [a < b] on strings: lexicographic on code points, as Python compares
    [str] objects. *)
Fixpoint str_ltb (a b : str) : bool :=
  match a, b with
  | _, [] => false
  | [], _ :: _ => true
  | x :: a', y :: b' => (x <? y) || ((x =? y) && str_ltb a' b')
  end.

(** [s.startswith(p)]. *)
Fixpoint startswith (p s : list Z) : bool :=
  match p, s with
  | [], _ => true
  | x :: p', y :: s' => (x =? y) && startswith p' s'
  | _ :: _, [] => false
  end.

(** [p in s] for strings: [p] occurs as a substring of [s]. *)
Fixpoint contains (p s : list Z) : bool :=
  startswith p s ||
  match s with
  | [] => false
  | _ :: s' => contains p s'
  end.

(** The code points for which [str.isalnum] holds, as inclusive ranges
    (CPython 3.11, Unicode Character Database 14.0.0): a character is
    alphanumeric when it is alphabetic, decimal, a digit or numeric. *)
Definition alnum_ranges : list (Z * Z) := [
  (48, 57); (65, 90); (97, 122); (170, 170); (178, 179); (181, 181);
  (185, 186); (188, 190); (192, 214); (216, 246); (248, 705); (710, 721);
  (736, 740); (748, 748); (750, 750); (880, 884); (886, 887); (890, 893);
  (895, 895); (902, 902); (904, 906); (908, 908); (910, 929); (931, 1013);
  (1015, 1153); (1162, 1327); (1329, 1366); (1369, 1369); (1376, 1416);
  (1488, 1514); (1519, 1522); (1568, 1610); (1632, 1641); (1646, 1647);
  (1649, 1747); (1749, 1749); (1765, 1766); (1774, 1788); (1791, 1791);
  (1808, 1808); (1810, 1839); (1869, 1957); (1969, 1969); (1984, 2026);
  (2036, 2037); (2042, 2042); (2048, 2069); (2074, 2074); (2084, 2084);
  (2088, 2088); (2112, 2136); (2144, 2154); (2160, 2183); (2185, 2190);
  (2208, 2249); (2308, 2361); (2365, 2365); (2384, 2384); (2392, 2401);
  (2406, 2415); (2417, 2432); (2437, 2444); (2447, 2448); (2451, 2472);
  (2474, 2480); (2482, 2482); (2486, 2489); (2493, 2493); (2510, 2510);
  (2524, 2525); (2527, 2529); (2534, 2545); (2548, 2553); (2556, 2556);
  (2565, 2570); (2575, 2576); (2579, 2600); (2602, 2608); (2610, 2611);
  (2613, 2614); (2616, 2617); (2649, 2652); (2654, 2654); (2662, 2671);
  (2674, 2676); (2693, 2701); (2703, 2705); (2707, 2728); (2730, 2736);
  (2738, 2739); (2741, 2745); (2749, 2749); (2768, 2768); (2784, 2785);
  (2790, 2799); (2809, 2809); (2821, 2828); (2831, 2832); (2835, 2856);
  (2858, 2864); (2866, 2867); (2869, 2873); (2877, 2877); (2908, 2909);
  (2911, 2913); (2918, 2927); (2929, 2935); (2947, 2947); (2949, 2954);
  (2958, 2960); (2962, 2965); (2969, 2970); (2972, 2972); (2974, 2975);
  (2979, 2980); (2984, 2986); (2990, 3001); (3024, 3024); (3046, 3058);
  (3077, 3084); (3086, 3088); (3090, 3112); (3114, 3129); (3133, 3133);
  (3160, 3162); (3165, 3165); (3168, 3169); (3174, 3183); (3192, 3198);
  (3200, 3200); (3205, 3212); (3214, 3216); (3218, 3240); (3242, 3251);
  (3253, 3257); (3261, 3261); (3293, 3294); (3296, 3297); (3302, 3311);
  (3313, 3314); (3332, 3340); (3342, 3344); (3346, 3386); (3389, 3389);
  (3406, 3406); (3412, 3414); (3416, 3425); (3430, 3448); (3450, 3455);
  (3461, 3478); (3482, 3505); (3507, 3515); (3517, 3517); (3520, 3526);
  (3558, 3567); (3585, 3632); (3634, 3635); (3648, 3654); (3664, 3673);
  (3713, 3714); (3716, 3716); (3718, 3722); (3724, 3747); (3749, 3749);
  (3751, 3760); (3762, 3763); (3773, 3773); (3776, 3780); (3782, 3782);
  (3792, 3801); (3804, 3807); (3840, 3840); (3872, 3891); (3904, 3911);
  (3913, 3948); (3976, 3980); (4096, 4138); (4159, 4169); (4176, 4181);
  (4186, 4189); (4193, 4193); (4197, 4198); (4206, 4208); (4213, 4225);
  (4238, 4238); (4240, 4249); (4256, 4293); (4295, 4295); (4301, 4301);
  (4304, 4346); (4348, 4680); (4682, 4685); (4688, 4694); (4696, 4696);
  (4698, 4701); (4704, 4744); (4746, 4749); (4752, 4784); (4786, 4789);
  (4792, 4798); (4800, 4800); (4802, 4805); (4808, 4822); (4824, 4880);
  (4882, 4885); (4888, 4954); (4969, 4988); (4992, 5007); (5024, 5109);
  (5112, 5117); (5121, 5740); (5743, 5759); (5761, 5786); (5792, 5866);
  (5870, 5880); (5888, 5905); (5919, 5937); (5952, 5969); (5984, 5996);
  (5998, 6000); (6016, 6067); (6103, 6103); (6108, 6108); (6112, 6121);
  (6128, 6137); (6160, 6169); (6176, 6264); (6272, 6276); (6279, 6312);
  (6314, 6314); (6320, 6389); (6400, 6430); (6470, 6509); (6512, 6516);
  (6528, 6571); (6576, 6601); (6608, 6618); (6656, 6678); (6688, 6740);
  (6784, 6793); (6800, 6809); (6823, 6823); (6917, 6963); (6981, 6988);
  (6992, 7001); (7043, 7072); (7086, 7141); (7168, 7203); (7232, 7241);
  (7245, 7293); (7296, 7304); (7312, 7354); (7357, 7359); (7401, 7404);
  (7406, 7411); (7413, 7414); (7418, 7418); (7424, 7615); (7680, 7957);
  (7960, 7965); (7968, 8005); (8008, 8013); (8016, 8023); (8025, 8025);
  (8027, 8027); (8029, 8029); (8031, 8061); (8064, 8116); (8118, 8124);
  (8126, 8126); (8130, 8132); (8134, 8140); (8144, 8147); (8150, 8155);
  (8160, 8172); (8178, 8180); (8182, 8188); (8304, 8305); (8308, 8313);
  (8319, 8329); (8336, 8348); (8450, 8450); (8455, 8455); (8458, 8467);
  (8469, 8469); (8473, 8477); (8484, 8484); (8486, 8486); (8488, 8488);
  (8490, 8493); (8495, 8505); (8508, 8511); (8517, 8521); (8526, 8526);
  (8528, 8585); (9312, 9371); (9450, 9471); (10102, 10131); (11264, 11492);
  (11499, 11502); (11506, 11507); (11517, 11517); (11520, 11557);
  (11559, 11559); (11565, 11565); (11568, 11623); (11631, 11631);
  (11648, 11670); (11680, 11686); (11688, 11694); (11696, 11702);
  (11704, 11710); (11712, 11718); (11720, 11726); (11728, 11734);
  (11736, 11742); (11823, 11823); (12293, 12295); (12321, 12329);
  (12337, 12341); (12344, 12348); (12353, 12438); (12445, 12447);
  (12449, 12538); (12540, 12543); (12549, 12591); (12593, 12686);
  (12690, 12693); (12704, 12735); (12784, 12799); (12832, 12841);
  (12872, 12879); (12881, 12895); (12928, 12937); (12977, 12991);
  (13312, 19903); (19968, 42124); (42192, 42237); (42240, 42508);
  (42512, 42539); (42560, 42606); (42623, 42653); (42656, 42735);
  (42775, 42783); (42786, 42888); (42891, 42954); (42960, 42961);
  (42963, 42963); (42965, 42969); (42994, 43009); (43011, 43013);
  (43015, 43018); (43020, 43042); (43056, 43061); (43072, 43123);
  (43138, 43187); (43216, 43225); (43250, 43255); (43259, 43259);
  (43261, 43262); (43264, 43301); (43312, 43334); (43360, 43388);
  (43396, 43442); (43471, 43481); (43488, 43492); (43494, 43518);
  (43520, 43560); (43584, 43586); (43588, 43595); (43600, 43609);
  (43616, 43638); (43642, 43642); (43646, 43695); (43697, 43697);
  (43701, 43702); (43705, 43709); (43712, 43712); (43714, 43714);
  (43739, 43741); (43744, 43754); (43762, 43764); (43777, 43782);
  (43785, 43790); (43793, 43798); (43808, 43814); (43816, 43822);
  (43824, 43866); (43868, 43881); (43888, 44002); (44016, 44025);
  (44032, 55203); (55216, 55238); (55243, 55291); (63744, 64109);
  (64112, 64217); (64256, 64262); (64275, 64279); (64285, 64285);
  (64287, 64296); (64298, 64310); (64312, 64316); (64318, 64318);
  (64320, 64321); (64323, 64324); (64326, 64433); (64467, 64829);
  (64848, 64911); (64914, 64967); (65008, 65019); (65136, 65140);
  (65142, 65276); (65296, 65305); (65313, 65338); (65345, 65370);
  (65382, 65470); (65474, 65479); (65482, 65487); (65490, 65495);
  (65498, 65500); (65536, 65547); (65549, 65574); (65576, 65594);
  (65596, 65597); (65599, 65613); (65616, 65629); (65664, 65786);
  (65799, 65843); (65856, 65912); (65930, 65931); (66176, 66204);
  (66208, 66256); (66273, 66299); (66304, 66339); (66349, 66378);
  (66384, 66421); (66432, 66461); (66464, 66499); (66504, 66511);
  (66513, 66517); (66560, 66717); (66720, 66729); (66736, 66771);
  (66776, 66811); (66816, 66855); (66864, 66915); (66928, 66938);
  (66940, 66954); (66956, 66962); (66964, 66965); (66967, 66977);
  (66979, 66993); (66995, 67001); (67003, 67004); (67072, 67382);
  (67392, 67413); (67424, 67431); (67456, 67461); (67463, 67504);
  (67506, 67514); (67584, 67589); (67592, 67592); (67594, 67637);
  (67639, 67640); (67644, 67644); (67647, 67669); (67672, 67702);
  (67705, 67742); (67751, 67759); (67808, 67826); (67828, 67829);
  (67835, 67867); (67872, 67897); (67968, 68023); (68028, 68047);
  (68050, 68096); (68112, 68115); (68117, 68119); (68121, 68149);
  (68160, 68168); (68192, 68222); (68224, 68255); (68288, 68295);
  (68297, 68324); (68331, 68335); (68352, 68405); (68416, 68437);
  (68440, 68466); (68472, 68497); (68521, 68527); (68608, 68680);
  (68736, 68786); (68800, 68850); (68858, 68899); (68912, 68921);
  (69216, 69246); (69248, 69289); (69296, 69297); (69376, 69415);
  (69424, 69445); (69457, 69460); (69488, 69505); (69552, 69579);
  (69600, 69622); (69635, 69687); (69714, 69743); (69745, 69746);
  (69749, 69749); (69763, 69807); (69840, 69864); (69872, 69881);
  (69891, 69926); (69942, 69951); (69956, 69956); (69959, 69959);
  (69968, 70002); (70006, 70006); (70019, 70066); (70081, 70084);
  (70096, 70106); (70108, 70108); (70113, 70132); (70144, 70161);
  (70163, 70187); (70272, 70278); (70280, 70280); (70282, 70285);
  (70287, 70301); (70303, 70312); (70320, 70366); (70384, 70393);
  (70405, 70412); (70415, 70416); (70419, 70440); (70442, 70448);
  (70450, 70451); (70453, 70457); (70461, 70461); (70480, 70480);
  (70493, 70497); (70656, 70708); (70727, 70730); (70736, 70745);
  (70751, 70753); (70784, 70831); (70852, 70853); (70855, 70855);
  (70864, 70873); (71040, 71086); (71128, 71131); (71168, 71215);
  (71236, 71236); (71248, 71257); (71296, 71338); (71352, 71352);
  (71360, 71369); (71424, 71450); (71472, 71483); (71488, 71494);
  (71680, 71723); (71840, 71922); (71935, 71942); (71945, 71945);
  (71948, 71955); (71957, 71958); (71960, 71983); (71999, 71999);
  (72001, 72001); (72016, 72025); (72096, 72103); (72106, 72144);
  (72161, 72161); (72163, 72163); (72192, 72192); (72203, 72242);
  (72250, 72250); (72272, 72272); (72284, 72329); (72349, 72349);
  (72368, 72440); (72704, 72712); (72714, 72750); (72768, 72768);
  (72784, 72812); (72818, 72847); (72960, 72966); (72968, 72969);
  (72971, 73008); (73030, 73030); (73040, 73049); (73056, 73061);
  (73063, 73064); (73066, 73097); (73112, 73112); (73120, 73129);
  (73440, 73458); (73648, 73648); (73664, 73684); (73728, 74649);
  (74752, 74862); (74880, 75075); (77712, 77808); (77824, 78894);
  (82944, 83526); (92160, 92728); (92736, 92766); (92768, 92777);
  (92784, 92862); (92864, 92873); (92880, 92909); (92928, 92975);
  (92992, 92995); (93008, 93017); (93019, 93025); (93027, 93047);
  (93053, 93071); (93760, 93846); (93952, 94026); (94032, 94032);
  (94099, 94111); (94176, 94177); (94179, 94179); (94208, 100343);
  (100352, 101589); (101632, 101640); (110576, 110579); (110581, 110587);
  (110589, 110590); (110592, 110882); (110928, 110930); (110948, 110951);
  (110960, 111355); (113664, 113770); (113776, 113788); (113792, 113800);
  (113808, 113817); (119520, 119539); (119648, 119672); (119808, 119892);
  (119894, 119964); (119966, 119967); (119970, 119970); (119973, 119974);
  (119977, 119980); (119982, 119993); (119995, 119995); (119997, 120003);
  (120005, 120069); (120071, 120074); (120077, 120084); (120086, 120092);
  (120094, 120121); (120123, 120126); (120128, 120132); (120134, 120134);
  (120138, 120144); (120146, 120485); (120488, 120512); (120514, 120538);
  (120540, 120570); (120572, 120596); (120598, 120628); (120630, 120654);
  (120656, 120686); (120688, 120712); (120714, 120744); (120746, 120770);
  (120772, 120779); (120782, 120831); (122624, 122654); (123136, 123180);
  (123191, 123197); (123200, 123209); (123214, 123214); (123536, 123565);
  (123584, 123627); (123632, 123641); (124896, 124902); (124904, 124907);
  (124909, 124910); (124912, 124926); (124928, 125124); (125127, 125135);
  (125184, 125251); (125259, 125259); (125264, 125273); (126065, 126123);
  (126125, 126127); (126129, 126132); (126209, 126253); (126255, 126269);
  (126464, 126467); (126469, 126495); (126497, 126498); (126500, 126500);
  (126503, 126503); (126505, 126514); (126516, 126519); (126521, 126521);
  (126523, 126523); (126530, 126530); (126535, 126535); (126537, 126537);
  (126539, 126539); (126541, 126543); (126545, 126546); (126548, 126548);
  (126551, 126551); (126553, 126553); (126555, 126555); (126557, 126557);
  (126559, 126559); (126561, 126562); (126564, 126564); (126567, 126570);
  (126572, 126578); (126580, 126583); (126585, 126588); (126590, 126590);
  (126592, 126601); (126603, 126619); (126625, 126627); (126629, 126633);
  (126635, 126651); (127232, 127244); (130032, 130041); (131072, 173791);
  (173824, 177976); (177984, 178205); (178208, 183969); (183984, 191456);
  (194560, 195101); (196608, 201546)
].

Definition in_range (c : Z) (r : Z * Z) : bool :=
  (fst r <=? c) && (c <=? snd r).

(** [ch.isalnum()] on a one-character string. *)
Definition isalnum (ch : Z) : bool := existsb (in_range ch) alnum_ranges.

(** [s.lstrip(chars)] and [s.rstrip(chars)] for a one-character [chars]. *)
Fixpoint lstrip (c : Z) (s : str) : str :=
  match s with
  | [] => []
  | x :: s' => if char_eqb x c then lstrip c s' else s
  end.

Fixpoint rstrip (c : Z) (s : str) : str :=
  match s with
  | [] => []
  | x :: s' =>
      match rstrip c s' with
      | [] => if char_eqb x c then [] else [x]
      | t => x :: t
      end
  end.

(** [s.strip(chars)]: both ends. *)
Definition strip (c : Z) (s : str) : str := rstrip c (lstrip c s).

(** ** The program's constants *)

Definition PROXY_PORT : Z := 8082.
Definition SERVER_PORT : Z := 8000.
Definition PROFILE_FILENAME : str := lit "burp-wifi-proxy.mobileconfig".

Definition hyphen : Z := 45.
Definition dot : Z := 46.

(** ** Identifier sanitization *)

(** [ch.isalnum() or ch in ("-", ".")]. *)
Definition keep_char (ch : Z) : bool :=
  isalnum ch || (char_eqb ch hyphen || char_eqb ch dot).

Definition _sanitize_identifier (value : str) : str :=
  strip dot (filter keep_char value).

(** [x or d] on strings: the empty string is false. *)
Definition str_or (x d : str) : str :=
  match x with
  | [] => d
  | _ => x
  end.

(** [sanitized_ssid] of [build_profile]. *)
Definition sanitized_ssid (ssid : str) : str :=
  str_or (_sanitize_identifier ssid) (lit "wifi").

(** ** Random identifiers (uuid.py) *)

(** One lower-case hexadecimal digit. *)
Definition hex_char (d : Z) : Z := if d <? 10 then 48 + d else 87 + d.

(** ['%0kx' % n] for [0 <= n < 16^k]: exactly [k] digits. *)
Fixpoint hex_fixed (k : nat) (n : Z) : str :=
  match k with
  | O => []
  | S k' => hex_fixed k' (n / 16) ++ [hex_char (n mod 16)]
  end.

(** [s[a:b]] for [0 <= a <= b]. *)
Definition slice (a b : nat) (s : str) : str := firstn (b - a) (skipn a s).

(** [uuid.uuid4()], that is [UUID(bytes=os.urandom(16), version=4)].
    [rand] is the integer [int.from_bytes] reads from the sixteen octets
    drawn from [os.urandom], so [0 <= rand < 2^128]; the result is the
    [int] attribute of the new [UUID]. *)
Definition uuid4 (rand : Z) : Z :=
  let int := rand in
  let int := Z.land int (Z.lnot (Z.shiftl 0xc000 48)) in
  let int := Z.lor int (Z.shiftl 0x8000 48) in
  let int := Z.land int (Z.lnot (Z.shiftl 0xf000 64)) in
  Z.lor int (Z.shiftl 4 76).

(** [str(u)] for a [UUID] with [u.int = int]. *)
Definition uuid_str (int : Z) : str :=
  let hex := hex_fixed 32 int in
  slice 0 8 hex ++ [hyphen] ++ slice 8 12 hex ++ [hyphen] ++
  slice 12 16 hex ++ [hyphen] ++ slice 16 20 hex ++ [hyphen] ++
  skipn 20 hex.

(** ** Exceptions *)

Inductive exn : Type :=
| ValueError
| UnicodeEncodeError
| OverflowError
| OSError.

Inductive result (A : Type) : Type :=
| Ok (a : A)
| Raise (e : exn).
Arguments Ok {A} a.
Arguments Raise {A} e.

Definition bind {A B} (c : result A) (k : A -> result B) : result B :=
  match c with
  | Ok a => k a
  | Raise e => Raise e
  end.

Notation "x <- c ;; k" := (bind c (fun x => k))
  (at level 61, c at next level, right associativity).

(** ** UTF-8 *)

(** The octets of one code point; surrogates and values outside
    [0 .. 0x10FFFF] have none. *)
Definition utf8_char (c : Z) : option bytes :=
  if c <? 0 then None
  else if c <? 0x80 then Some [c]
  else if c <? 0x800 then Some [0xC0 + c / 64; 0x80 + c mod 64]
  else if (0xD800 <=? c) && (c <=? 0xDFFF) then None
  else if c <? 0x10000 then
    Some [0xE0 + c / 4096; 0x80 + (c / 64) mod 64; 0x80 + c mod 64]
  else if c <? 0x110000 then
    Some [0xF0 + c / 262144; 0x80 + (c / 4096) mod 64;
          0x80 + (c / 64) mod 64; 0x80 + c mod 64]
  else None.

(** [s.encode('utf-8')]. *)
Fixpoint encode_utf8 (s : str) : result bytes :=
  match s with
  | [] => Ok []
  | c :: s' =>
      match utf8_char c with
      | None => Raise UnicodeEncodeError
      | Some b => r <- encode_utf8 s' ;; Ok (b ++ r)
      end
  end.

Definition is_cont (b : Z) : bool := (0x80 <=? b) && (b <=? 0xBF).

(** Strict UTF-8 decoding: no overlong forms, no surrogates, nothing
    above 0x10FFFF. *)
Fixpoint decode_utf8 (b : bytes) : option str :=
  match b with
  | [] => Some []
  | b0 :: r0 =>
      if (0 <=? b0) && (b0 <? 0x80) then option_map (cons b0) (decode_utf8 r0)
      else
        match r0 with
        | [] => None
        | b1 :: r1 =>
            if (0xC2 <=? b0) && (b0 <=? 0xDF) then
              if is_cont b1
              then option_map (cons ((b0 - 0xC0) * 64 + (b1 - 0x80)))
                              (decode_utf8 r1)
              else None
            else
              match r1 with
              | [] => None
              | b2 :: r2 =>
                  if (0xE0 <=? b0) && (b0 <=? 0xEF) then
                    let c := (b0 - 0xE0) * 4096 + (b1 - 0x80) * 64
                             + (b2 - 0x80) in
                    if is_cont b1 && is_cont b2 && (0x800 <=? c)
                       && negb ((0xD800 <=? c) && (c <=? 0xDFFF))
                    then option_map (cons c) (decode_utf8 r2)
                    else None
                  else
                    match r2 with
                    | [] => None
                    | b3 :: r3 =>
                        if (0xF0 <=? b0) && (b0 <=? 0xF4) then
                          let c := (b0 - 0xF0) * 262144 + (b1 - 0x80) * 4096
                                   + (b2 - 0x80) * 64 + (b3 - 0x80) in
                          if is_cont b1 && is_cont b2 && is_cont b3
                             && (0x10000 <=? c) && (c <? 0x110000)
                          then option_map (cons c) (decode_utf8 r3)
                          else None
                        else None
                    end
              end
        end
  end.

(** ** Property lists (plistlib), XML format *)

(** The values [build_profile] hands to [plistlib]: strings, booleans,
    integers, lists, and dictionaries with string keys.  A dictionary is
    the list of its items in insertion order. *)
#[warnings="-register-all"]
Inductive plist : Type :=
| PStr (s : str)
| PBool (b : bool)
| PInt (n : Z)
| PList (items : list plist)
| PDict (items : list (str * plist)).

(** [d.get(key)]. *)
Fixpoint dict_get {A} (key : str) (d : list (str * A)) : option A :=
  match d with
  | [] => None
  | (k, v) :: d' => if str_eqb k key then Some v else dict_get key d'
  end.

(** [d[key] = value]: an existing key keeps its place. *)
Fixpoint dict_set {A} (key : str) (value : A) (d : list (str * A))
  : list (str * A) :=
  match d with
  | [] => [(key, value)]
  | (k, v) :: d' =>
      if str_eqb k key then (k, value) :: d'
      else (k, v) :: dict_set key value d'
  end.

(** [sorted(d.items())]: by key; the keys of a dictionary are distinct,
    so the values are never compared. *)
Fixpoint insert_item {A} (kv : str * A) (l : list (str * A))
  : list (str * A) :=
  match l with
  | [] => [kv]
  | x :: l' =>
      if str_ltb (fst x) (fst kv) then x :: insert_item kv l' else kv :: l
  end.

Definition sorted_items {A} (d : list (str * A)) : list (str * A) :=
  fold_right insert_item [] d.

Definition quote : Z := 34.
Definition LF : Z := 10.
Definition CR : Z := 13.
Definition TAB : Z := 9.

Definition PLISTHEADER : bytes :=
  lit "<?xml version=" ++ [quote] ++ lit "1.0" ++ [quote] ++
  lit " encoding=" ++ [quote] ++ lit "UTF-8" ++ [quote] ++ lit "?>" ++ [LF] ++
  lit "<!DOCTYPE plist PUBLIC " ++ [quote] ++
  lit "-//Apple//DTD PLIST 1.0//EN" ++ [quote] ++ lit " " ++ [quote] ++
  lit "http://www.apple.com/DTDs/PropertyList-1.0.dtd" ++ [quote] ++
  lit ">" ++ [LF].

(** [_controlCharPat]: the C0 controls other than tab, LF and CR. *)
Definition control_char (c : Z) : bool :=
  ((0 <=? c) && (c <=? 8)) || (c =? 0x0b) || (c =? 0x0c)
  || ((0x0e <=? c) && (c <=? 0x1f)).

(** [text.replace(old, new)] for a one-character [old]. *)
Definition replace1 (old : Z) (new : str) (text : str) : str :=
  flat_map (fun c => if c =? old then new else [c]) text.

(** [text.replace("\r\n", "\n")]. *)
Fixpoint replace_crlf (text : str) : str :=
  match text with
  | [] => []
  | c :: t =>
      match t with
      | d :: t' =>
          if (c =? CR) && (d =? LF) then LF :: replace_crlf t'
          else c :: replace_crlf t
      | [] => [c]
      end
  end.

(** The five replacements of [_escape], in its order. *)
Definition escape_text (text : str) : str :=
  let text := replace_crlf text in
  let text := replace1 CR [LF] text in
  let text := replace1 38 (lit "&amp;") text in
  let text := replace1 60 (lit "&lt;") text in
  replace1 62 (lit "&gt;") text.

Definition _escape (text : str) : result str :=
  if existsb control_char text then Raise ValueError
  else Ok (escape_text text).

(** ['%d' % n]. *)
Definition int_str (n : Z) : str :=
  lit (DecimalString.NilZero.string_of_int (Z.to_int n)).

(** [_DumbXMLWriter.writeln] at indent level [level], as the octets it
    appends to the file. *)
Definition writeln (level : nat) (line : str) : result bytes :=
  match line with
  | [] => Ok [LF]
  | _ => b <- encode_utf8 line ;; Ok (repeat TAB level ++ b ++ [LF])
  end.

(** [_DumbXMLWriter.simple_element]. *)
Definition simple_element (level : nat) (element : str) (value : option str)
  : result bytes :=
  match value with
  | Some v =>
      v' <- _escape v ;;
      writeln level (lit "<" ++ element ++ lit ">" ++ v' ++
                     lit "</" ++ element ++ lit ">")
  | None => writeln level (lit "<" ++ element ++ lit "/>")
  end.

(** [begin_element] and [end_element]; the caller moves the indent
    level. *)
Definition begin_element (level : nat) (element : str) : result bytes :=
  writeln level (lit "<" ++ element ++ lit ">").

Definition end_element (level : nat) (element : str) : result bytes :=
  writeln level (lit "</" ++ element ++ lit ">").

(** A value still to be written: its writer, waiting for the level. *)
Definition pending := nat -> result bytes.

(** The loop of [write_dict] over the sorted items. *)
Fixpoint write_items (level : nat) (items : list (str * pending))
  : result bytes :=
  match items with
  | [] => Ok []
  | (key, write) :: rest =>
      k <- simple_element level (lit "key") (Some key) ;;
      v <- write level ;;
      r <- write_items level rest ;;
      Ok (k ++ v ++ r)
  end.

Definition write_dict (level : nat) (d : list (str * pending))
  : result bytes :=
  match d with
  | [] => simple_element level (lit "dict") None
  | _ =>
      b <- begin_element level (lit "dict") ;;
      m <- write_items (S level) (sorted_items d) ;;
      e <- end_element level (lit "dict") ;;
      Ok (b ++ m ++ e)
  end.

Fixpoint write_each (level : nat) (array : list pending) : result bytes :=
  match array with
  | [] => Ok []
  | write :: rest =>
      v <- write level ;;
      r <- write_each level rest ;;
      Ok (v ++ r)
  end.

Definition write_array (level : nat) (array : list pending) : result bytes :=
  match array with
  | [] => simple_element level (lit "array") None
  | _ =>
      b <- begin_element level (lit "array") ;;
      m <- write_each (S level) array ;;
      e <- end_element level (lit "array") ;;
      Ok (b ++ m ++ e)
  end.

(** [_PlistWriter.write_value]. *)
Fixpoint write_value (value : plist) (level : nat) {struct value}
  : result bytes :=
  match value with
  | PStr s => simple_element level (lit "string") (Some s)
  | PBool true => simple_element level (lit "true") None
  | PBool false => simple_element level (lit "false") None
  | PInt n =>
      if (- 2 ^ 63 <=? n) && (n <? 2 ^ 64)
      then simple_element level (lit "integer") (Some (int_str n))
      else Raise OverflowError
  | PDict d =>
      write_dict level (map (fun kv => (fst kv, write_value (snd kv))) d)
  | PList a => write_array level (map write_value a)
  end.

(** [plistlib.dumps(value, fmt=plistlib.FMT_XML)]. *)
Definition dumps (value : plist) : result bytes :=
  o <- writeln 0 (lit "<plist version=" ++ [quote] ++ lit "1.0" ++ [quote]
                  ++ lit ">") ;;
  v <- write_value value 0 ;;
  c <- writeln 0 (lit "</plist>") ;;
  Ok (PLISTHEADER ++ o ++ v ++ c).

(** ** The profile builder *)

(** The dictionary [payload] of [build_profile]. *)
Definition profile_payload (profile_uuid wifi_uuid ssid proxy_ip : str)
  : plist :=
  let sanitized_ssid := sanitized_ssid ssid in
  PDict [
    (lit "PayloadContent", PList [
      PDict [
        (lit "AutoJoin", PBool true);
        (lit "EncryptionType", PStr (lit "Any"));
        (lit "HIDDEN_NETWORK", PBool false);
        (lit "PayloadDescription",
           PStr (lit "Configures Wi-Fi proxy settings"));
        (lit "PayloadDisplayName", PStr (ssid ++ lit " Wi-Fi"));
        (lit "PayloadIdentifier",
           PStr (lit "com.example.wifi." ++ sanitized_ssid));
        (lit "PayloadType", PStr (lit "com.apple.wifi.managed"));
        (lit "PayloadUUID", PStr wifi_uuid);
        (lit "PayloadVersion", PInt 1);
        (lit "ProxyType", PStr (lit "Manual"));
        (lit "ProxyServer", PStr proxy_ip);
        (lit "ProxyServerPort", PInt PROXY_PORT);
        (lit "SSID_STR", PStr ssid)
      ]
    ]);
    (lit "PayloadDescription",
       PStr (lit "Installs Wi-Fi proxy settings for Burp Suite"));
    (lit "PayloadDisplayName", PStr (lit "Burp Suite Wi-Fi Proxy"));
    (lit "PayloadIdentifier",
       PStr (lit "com.example.burp-proxy." ++ sanitized_ssid));
    (lit "PayloadOrganization", PStr (lit "Burp Proxy Setup"));
    (lit "PayloadType", PStr (lit "Configuration"));
    (lit "PayloadUUID", PStr profile_uuid);
    (lit "PayloadVersion", PInt 1)
  ].

(** [build_profile(ssid, proxy_ip)].  [rand1] and [rand2] are the two
    draws from [os.urandom] behind the two calls of [uuid.uuid4], in the
    order of the calls. *)
Definition build_profile (rand1 rand2 : Z) (ssid proxy_ip : str)
  : result bytes :=
  let profile_uuid := uuid_str (uuid4 rand1) in
  let wifi_uuid := uuid_str (uuid4 rand2) in
  dumps (profile_payload profile_uuid wifi_uuid ssid proxy_ip).

(** ** Reading a property list back (plistlib over expat)

    [loads] follows [plistlib.loads] on the XML dialect that [dumps]
    writes: the XML declaration and the DOCTYPE line, elements without
    attributes other than on the root, character data with the predefined
    entities.  A result of [None] stands for an exception, or for a
    document outside this dialect. *)

(** The [Char] production of XML 1.0, which expat enforces. *)
Definition xml_char (c : Z) : bool :=
  (c =? TAB) || (c =? LF) || (c =? CR)
  || ((0x20 <=? c) && (c <=? 0xD7FF))
  || ((0xE000 <=? c) && (c <=? 0xFFFD))
  || ((0x10000 <=? c) && (c <=? 0x10FFFF)).

(** What expat reports to its handlers. *)
Inductive event : Type :=
| StartElement (name : str)
| EndElement (name : str)
| CharacterData (data : str).

Inductive lex_mode : Type :=
| InText (acc : str)
| InEntity (acc : str) (ent : str)
| InTag (tag : str).

(** The events so far, latest first, and where the scanner is. *)
Record lexer : Type := mkLexer { events : list event; mode : lex_mode }.

Definition entity (ent : str) : option Z :=
  if str_eqb ent (lit "amp") then Some 38
  else if str_eqb ent (lit "lt") then Some 60
  else if str_eqb ent (lit "gt") then Some 62
  else if str_eqb ent (lit "quot") then Some 34
  else if str_eqb ent (lit "apos") then Some 39
  else None.

(** The element name of a start tag: up to the first blank. *)
Fixpoint tag_name (tag : str) : str :=
  match tag with
  | [] => []
  | c :: t => if c =? 32 then [] else c :: tag_name t
  end.

(** The events of the markup between [<] and [>]. *)
Definition tag_events (tag : str) : option (list event) :=
  match tag with
  | [] => None
  | c :: t =>
      if (c =? 63) || (c =? 33) then
        (* [<?xml ...?>] and [<!DOCTYPE ...>] without internal subset *)
        if existsb (fun x => x =? 91) t then None else Some []
      else if c =? 47 then
        match t with
        | [] => None
        | _ => Some [EndElement t]
        end
      else
        match rev tag with
        | 47 :: n =>
            match n with
            | [] => None
            | _ => Some [EndElement (rev n); StartElement (rev n)]
            end
        | _ => Some [StartElement (tag_name tag)]
        end
  end.

Definition lex_step (st : lexer) (c : Z) : option lexer :=
  match mode st with
  | InText acc =>
      if c =? 60 then
        Some (mkLexer (CharacterData acc :: events st) (InTag []))
      else if c =? 38 then Some (mkLexer (events st) (InEntity acc []))
      else if (c =? 62) || (c =? CR) then None
      else Some (mkLexer (events st) (InText (acc ++ [c])))
  | InEntity acc ent =>
      if c =? 59 then
        match entity ent with
        | Some x => Some (mkLexer (events st) (InText (acc ++ [x])))
        | None => None
        end
      else Some (mkLexer (events st) (InEntity acc (ent ++ [c])))
  | InTag tag =>
      if c =? 62 then
        match tag_events tag with
        | Some evs => Some (mkLexer (evs ++ events st) (InText []))
        | None => None
        end
      else if c =? 60 then None
      else Some (mkLexer (events st) (InTag (tag ++ [c])))
  end.

Fixpoint lex (st : lexer) (text : str) : option lexer :=
  match text with
  | [] => Some st
  | c :: text' =>
      match lex_step st c with
      | Some st' => lex st' text'
      | None => None
      end
  end.

(** The events of a whole document, in order. *)
Definition scan (text : str) : option (list event) :=
  if forallb xml_char text then
    match lex (mkLexer [] (InText [])) text with
    | Some (mkLexer evs (InText acc)) => Some (rev (CharacterData acc :: evs))
    | _ => None
    end
  else None.

Definition blank (c : Z) : bool :=
  (c =? 32) || (c =? TAB) || (c =? LF) || (c =? CR).

(** Well-formedness as expat checks it while it reports: tags nest and
    match, there is one root element, and outside it only blanks occur,
    which are not reported.  [open] lists the open elements, innermost
    first; [seen] tells whether the root element has started. *)
Fixpoint deliver (open : list str) (seen : bool) (evs : list event)
  : option (list event) :=
  match evs with
  | [] => if seen then match open with [] => Some [] | _ => None end
          else None
  | StartElement n :: rest =>
      match open, seen with
      | [], true => None
      | _, _ => option_map (cons (StartElement n)) (deliver (n :: open) true rest)
      end
  | EndElement n :: rest =>
      match open with
      | m :: open' =>
          if str_eqb m n
          then option_map (cons (EndElement n)) (deliver open' seen rest)
          else None
      | [] => None
      end
  | CharacterData d :: rest =>
      match open with
      | [] => if forallb blank d then deliver open seen rest else None
      | _ => option_map (cons (CharacterData d)) (deliver open seen rest)
      end
  end.

(** [_PlistParser].  The source keeps on its stack references to the
    containers under construction, each already linked into its parent by
    [add_object]; here a stack entry holds the items gathered so far
    together with the place [add_object] chose for the container, and the
    container is put there when it is popped. *)
Inductive place : Type :=
| AtRoot
| AtKey (key : str)
| AtEnd.

Inductive frame : Type :=
| DictFrame (at_ : place) (items : list (str * plist))
| ListFrame (at_ : place) (items : list plist).

Record parser : Type := mkParser {
  stack : list frame;
  current_key : option str;
  root : option plist;
  data : str
}.

(** Truth value of [self.current_key]: [None] and the empty string are
    false. *)
Definition truthy (k : option str) : bool :=
  match k with
  | Some (_ :: _) => true
  | _ => false
  end.

(** The branch [add_object] takes, with its type checks. *)
Definition choose_place (p : parser) : option (place * parser) :=
  match current_key p with
  | Some k =>
      match stack p with
      | DictFrame _ _ :: _ =>
          Some (AtKey k, mkParser (stack p) None (root p) (data p))
      | _ => None
      end
  | None =>
      match stack p with
      | [] => Some (AtRoot, p)
      | ListFrame _ _ :: _ => Some (AtEnd, p)
      | DictFrame _ _ :: _ => None
      end
  end.

Definition put (w : place) (value : plist) (p : parser) : option parser :=
  match w with
  | AtRoot => Some (mkParser (stack p) (current_key p) (Some value) (data p))
  | AtKey k =>
      match stack p with
      | DictFrame w' items :: rest =>
          Some (mkParser (DictFrame w' (dict_set k value items) :: rest)
                         (current_key p) (root p) (data p))
      | _ => None
      end
  | AtEnd =>
      match stack p with
      | ListFrame w' items :: rest =>
          Some (mkParser (ListFrame w' (items ++ [value]) :: rest)
                         (current_key p) (root p) (data p))
      | _ => None
      end
  end.

Definition add_object (value : plist) (p : parser) : option parser :=
  match choose_place p with
  | Some (w, p') => put w value p'
  | None => None
  end.

Definition push (f : frame) (p : parser) : parser :=
  mkParser (f :: stack p) (current_key p) (root p) (data p).

(** [self.stack.pop()], the popped container going to its place. *)
Definition pop (p : parser) : option parser :=
  match stack p with
  | DictFrame w items :: rest =>
      put w (PDict items) (mkParser rest (current_key p) (root p) (data p))
  | ListFrame w items :: rest =>
      put w (PList items) (mkParser rest (current_key p) (root p) (data p))
  | [] => None
  end.

(** [self.get_data()]: the data, and the parser with its data reset. *)
Definition get_data (p : parser) : str * parser :=
  (data p, mkParser (stack p) (current_key p) (root p) []).

Definition digit_value (c : Z) : option Z :=
  if (48 <=? c) && (c <=? 57) then Some (c - 48) else None.

Fixpoint digits_value (acc : Z) (s : str) : option Z :=
  match s with
  | [] => Some acc
  | c :: s' =>
      match digit_value c with
      | Some d => digits_value (acc * 10 + d) s'
      | None => None
      end
  end.

(** [int(raw)] for an optional sign and decimal digits. *)
Definition int_of_str (raw : str) : option Z :=
  match raw with
  | [] => None
  | 45 :: (_ :: _) as ds => option_map Z.opp (digits_value 0 ds)
  | 43 :: (_ :: _) as ds => digits_value 0 ds
  | _ => digits_value 0 raw
  end.

Definition begin_dict (p : parser) : option parser :=
  match choose_place p with
  | Some (w, p') => Some (push (DictFrame w []) p')
  | None => None
  end.

Definition end_dict (p : parser) : option parser :=
  if truthy (current_key p) then None else pop p.

Definition end_key (p : parser) : option parser :=
  match stack p with
  | DictFrame _ _ :: _ =>
      if truthy (current_key p) then None
      else
        let (d, p') := get_data p in
        Some (mkParser (stack p') (Some d) (root p') (data p'))
  | _ => None
  end.

Definition begin_array (p : parser) : option parser :=
  match choose_place p with
  | Some (w, p') => Some (push (ListFrame w []) p')
  | None => None
  end.

Definition end_array (p : parser) : option parser := pop p.

Definition end_integer (p : parser) : option parser :=
  let (raw, p') := get_data p in
  if startswith (lit "0x") raw || startswith (lit "0X") raw then None
  else
    match int_of_str raw with
    | Some n => add_object (PInt n) p'
    | None => None
    end.

Definition end_string (p : parser) : option parser :=
  let (d, p') := get_data p in add_object (PStr d) p'.

(** [handle_begin_element]: the data is reset, then [begin_<element>]
    runs when there is one. *)
Definition handle_begin_element (element : str) (p : parser)
  : option parser :=
  let p := mkParser (stack p) (current_key p) (root p) [] in
  if str_eqb element (lit "dict") then begin_dict p
  else if str_eqb element (lit "array") then begin_array p
  else Some p.

(** [handle_end_element]; [real], [data] and [date] are not modelled. *)
Definition handle_end_element (element : str) (p : parser) : option parser :=
  if str_eqb element (lit "dict") then end_dict p
  else if str_eqb element (lit "key") then end_key p
  else if str_eqb element (lit "array") then end_array p
  else if str_eqb element (lit "true") then add_object (PBool true) p
  else if str_eqb element (lit "false") then add_object (PBool false) p
  else if str_eqb element (lit "integer") then end_integer p
  else if str_eqb element (lit "string") then end_string p
  else if str_eqb element (lit "real") || str_eqb element (lit "data")
          || str_eqb element (lit "date") then None
  else Some p.

Definition handle_data (d : str) (p : parser) : parser :=
  mkParser (stack p) (current_key p) (root p) (data p ++ d).

Definition handle (p : parser) (e : event) : option parser :=
  match e with
  | StartElement n => handle_begin_element n p
  | EndElement n => handle_end_element n p
  | CharacterData d => Some (handle_data d p)
  end.

Fixpoint handle_all (p : parser) (evs : list event) : option parser :=
  match evs with
  | [] => Some p
  | e :: rest =>
      match handle p e with
      | Some p' => handle_all p' rest
      | None => None
      end
  end.

(** [_is_fmt_xml], without the byte-order-mark variants. *)
Definition _is_fmt_xml (header : bytes) : bool :=
  startswith (lit "<?xml") header || startswith (lit "<plist") header.

(** [plistlib.loads(value)]. *)
Definition loads (value : bytes) : option plist :=
  if _is_fmt_xml (firstn 32 value) then
    match decode_utf8 value with
    | Some text =>
        match scan text with
        | Some evs =>
            match deliver [] false evs with
            | Some evs' =>
                match handle_all (mkParser [] None None []) evs' with
                | Some p => root p
                | None => None
                end
            | None => None
            end
        | None => None
        end
    | None => None
    end
  else None.

(** ** The profile server *)

(** A [pathlib.Path]: the directory and the final component. *)
Record Path : Type := mkPath { parent : str; name : str }.

(** [directory / file] for a [file] without separator. *)
Definition joinpath (directory file : str) : Path := mkPath directory file.

(** What a request sees of its surroundings.  [Path.exists] returns a
    truth value or raises: it answers [False] for a missing file and
    re-raises every other [OSError] of [stat], such as a directory that
    may not be searched.  [Path.read_bytes] returns the content or
    raises.  [version_string()] and [date_time_string()] return the
    product tokens and a date, which are ASCII text.  [wfile] is
    unbuffered: each [write] is one [sendall] on the socket, which
    returns when all is sent or raises; [sendall n] tells how the write
    number [n] of the reply ends.  Each log line is one write to
    standard error; [stderr_write n] tells how the line number [n]
    ends. *)
Record world : Type := mkWorld {
  path_exists : Path -> result bool;
  read_bytes : Path -> result bytes;
  version_string : string;
  date_time_string : string;
  sendall : nat -> result unit;
  stderr_write : nat -> result unit
}.

(** The reply under construction: the status line and the headers in
    the order buffered, what was written to [wfile] after them, and the
    number of writes made so far to the socket and to standard error.
    When the handler raises, the reply is left where it stands and the
    exception is the result. *)
Record response : Type := mkResponse {
  status : option (Z * str);
  headers : list (str * str);
  body : bytes;
  writes : nat;
  logged : nat
}.

Definition no_response : response := mkResponse None [] [] 0 0.

(** [BaseHTTPRequestHandler.responses], as far as the handler uses it. *)
Definition responses (code : Z) : option (str * str) :=
  if code =? 200 then Some (lit "OK", lit "Request fulfilled, document follows")
  else if code =? 404
  then Some (lit "Not Found", lit "Nothing matches the given URI")
  else None.

(** What [parse_request] makes of the target of the request line before
    it stores it in [self.path]: a run of slashes at the start is
    collapsed to one. *)
Definition request_path (target : str) : str :=
  if startswith (lit "//") target then lit "/" ++ lstrip 47 target
  else target.

(** [s.encode('latin-1', 'strict')]. *)
Definition latin1 (s : str) : bool :=
  forallb (fun c => (0 <=? c) && (c <? 256)) s.

Definition encode_latin1 (s : str) : result bytes :=
  if latin1 s then Ok s else Raise UnicodeEncodeError.

(** [log_message]: one line on standard error. *)
Definition log_message (w : world) (r : response) : result response :=
  _ <- stderr_write w (logged r) ;;
  Ok (mkResponse (status r) (headers r) (body r) (writes r) (S (logged r))).

(** [send_response_only]: the status line is buffered, unless the
    request is an HTTP/0.9 one, which gets neither status line nor
    headers.  [protocol_version] is [HTTP/1.0] for this handler. *)
Definition send_response_only (request_version : str) (code : Z)
  (message : option str) (r : response) : result response :=
  if negb (str_eqb request_version (lit "HTTP/0.9")) then
    let message :=
      match message with
      | Some m => m
      | None => match responses code with Some (short, _) => short | None => [] end
      end in
    _ <- encode_latin1 (lit "HTTP/1.0" ++ lit " " ++ int_str code ++ lit " "
                        ++ message ++ [CR; LF]) ;;
    Ok (mkResponse (Some (code, message)) (headers r) (body r)
                   (writes r) (logged r))
  else Ok r.

(** [send_header]: the header is buffered, under the same condition.
    The flag [close_connection], which a [Connection] header also sets,
    is not part of the reply; it is true for every request of this
    handler, whose [protocol_version] is [HTTP/1.0]. *)
Definition send_header (request_version keyword value : str) (r : response)
  : result response :=
  if negb (str_eqb request_version (lit "HTTP/0.9")) then
    _ <- encode_latin1 (keyword ++ lit ": " ++ value ++ [CR; LF]) ;;
    Ok (mkResponse (status r) (headers r ++ [(keyword, value)]) (body r)
                   (writes r) (logged r))
  else Ok r.

(** [send_response]: the request is logged, then the status line and
    the [Server] and [Date] headers are buffered. *)
Definition send_response (w : world) (request_version : str) (code : Z)
  (message : option str) (r : response) : result response :=
  r <- log_message w r ;;
  r <- send_response_only request_version code message r ;;
  r <- send_header request_version (lit "Server") (lit (version_string w)) r ;;
  send_header request_version (lit "Date") (lit (date_time_string w)) r.

(** [wfile.write(b)]. *)
Definition wfile_write (w : world) (b : bytes) (r : response)
  : result response :=
  _ <- sendall w (writes r) ;;
  Ok (mkResponse (status r) (headers r) (body r ++ b)
                 (S (writes r)) (logged r)).

(** [end_headers]: the buffer, closed by an empty line, goes to the
    socket in one write.  For an HTTP/0.9 request nothing was buffered
    and nothing is written. *)
Definition end_headers (w : world) (request_version : str) (r : response)
  : result response :=
  if negb (str_eqb request_version (lit "HTTP/0.9")) then
    _ <- sendall w (writes r) ;;
    Ok (mkResponse (status r) (headers r) (body r) (S (writes r)) (logged r))
  else Ok r.

(** [html.escape(s, quote=False)]. *)
Definition html_escape (s : str) : str :=
  replace1 62 (lit "&gt;") (replace1 60 (lit "&lt;")
    (replace1 38 (lit "&amp;") s)).

(** [DEFAULT_ERROR_MESSAGE % {code, message, explain}]. *)
Definition error_message_format (code : Z) (message explain : str) : str :=
  lit "<!DOCTYPE HTML>" ++ [LF] ++
  lit "<html lang=" ++ [quote] ++ lit "en" ++ [quote] ++ lit ">" ++ [LF] ++
  lit "    <head>" ++ [LF] ++
  lit "        <meta charset=" ++ [quote] ++ lit "utf-8" ++ [quote] ++
  lit ">" ++ [LF] ++
  lit "        <title>Error response</title>" ++ [LF] ++
  lit "    </head>" ++ [LF] ++
  lit "    <body>" ++ [LF] ++
  lit "        <h1>Error response</h1>" ++ [LF] ++
  lit "        <p>Error code: " ++ int_str code ++ lit "</p>" ++ [LF] ++
  lit "        <p>Message: " ++ message ++ lit ".</p>" ++ [LF] ++
  lit "        <p>Error code explanation: " ++ int_str code ++ lit " - " ++
  explain ++ lit ".</p>" ++ [LF] ++
  lit "    </body>" ++ [LF] ++
  lit "</html>" ++ [LF].

(** [content.encode('UTF-8', 'replace')]: what cannot be encoded becomes
    a question mark. *)
Definition encode_utf8_replace (s : str) : bytes :=
  flat_map (fun c => match utf8_char c with Some b => b | None => [63] end) s.

(** [send_error(code, message)] for a [GET] request: the error is
    logged, then the reply is sent as by [send_response], with the page
    that names the message when the code is one that carries a body. *)
Definition send_error (w : world) (request_version : str) (code : Z)
  (message : str) (r : response) : result response :=
  let explain :=
    match responses code with Some (_, long) => long | None => lit "???" end in
  r <- log_message w r ;;
  r <- send_response w request_version code (Some message) r ;;
  r <- send_header request_version (lit "Connection") (lit "close") r ;;
  if (200 <=? code) && negb ((code =? 204) || (code =? 205) || (code =? 304))
  then
    let content :=
      error_message_format code (html_escape message) (html_escape explain) in
    let page := encode_utf8_replace content in
    r <- send_header request_version (lit "Content-Type")
                     (lit "text/html;charset=utf-8") r ;;
    r <- send_header request_version (lit "Content-Length")
                     (int_str (Z.of_nat (List.length page))) r ;;
    r <- end_headers w request_version r ;;
    match page with
    | [] => Ok r
    | _ :: _ => wfile_write w page r
    end
  else end_headers w request_version r.

(** The page of the route [/]. *)
Definition INDEX_PAGE : str :=
  [LF] ++
  lit "                <!doctype html>" ++ [LF] ++
  lit "                <html lang=" ++ [quote] ++ lit "en" ++ [quote] ++ lit ">" ++ [LF] ++
  lit "                  <head>" ++ [LF] ++
  lit "                    <meta charset=" ++ [quote] ++ lit "utf-8" ++ [quote] ++ lit ">" ++ [LF] ++
  lit "                    <title>Burp Suite Wi-Fi Proxy</title>" ++ [LF] ++
  lit "                    <style>" ++ [LF] ++
  lit "                      body { font-family: -apple-system, BlinkMacSystemFont, sans-serif; text-align: center; padding: 3rem; }" ++ [LF] ++
  lit "                      a.button { background: #0070f3; color: #fff; padding: 0.75rem 1.5rem; border-radius: 8px; text-decoration: none; }" ++ [LF] ++
  lit "                    </style>" ++ [LF] ++
  lit "                  </head>" ++ [LF] ++
  lit "                  <body>" ++ [LF] ++
  lit "                    <h1>Install Wi-Fi Proxy Profile</h1>" ++ [LF] ++
  lit "                    <p>Tap the button below on your iOS device to install the profile.</p>" ++ [LF] ++
  lit "                    <p><a class=" ++ [quote] ++ lit "button" ++ [quote] ++ lit " href=" ++ [quote] ++ lit "/download" ++ [quote] ++ lit ">Download</a></p>" ++ [LF] ++
  lit "                  </body>" ++ [LF] ++
  lit "                </html>" ++ [LF] ++
  lit "                ".

(** [ProfileHandler.do_GET] for a request that [parse_request] accepted
    with the method [GET]: [request_version] and [path] are the
    attributes of these names that it has set, [path] from the target by
    [request_path].  A request line of two words, [GET] and a target,
    has the version [HTTP/0.9]. *)
Definition do_GET (w : world) (profile_path : Path)
  (request_version path : str) : result response :=
  if str_eqb path (lit "/") || str_eqb path [] then
    r <- send_response w request_version 200 None no_response ;;
    r <- send_header request_version (lit "Content-Type")
                     (lit "text/html; charset=utf-8") r ;;
    r <- end_headers w request_version r ;;
    page <- encode_utf8 INDEX_PAGE ;;
    wfile_write w page r
  else if str_eqb path (lit "/download") then
    present <- path_exists w profile_path ;;
    if negb present then
      send_error w request_version 404 (lit "Profile not found") no_response
    else
      r <- send_response w request_version 200 None no_response ;;
      r <- send_header request_version (lit "Content-Type")
                       (lit "application/x-apple-aspen-config") r ;;
      r <- send_header request_version (lit "Content-Disposition")
                       (lit "attachment; filename=" ++ name profile_path) r ;;
      r <- end_headers w request_version r ;;
      content <- read_bytes w profile_path ;;
      wfile_write w content r
  else send_error w request_version 404 (lit "Not found") no_response.

(** The path [main] serves: [Path.cwd() / PROFILE_FILENAME]. *)
Definition served_path (cwd : str) : Path := joinpath cwd PROFILE_FILENAME.

(** [msg.get(keyword)] on the headers sent. *)
Definition header (keyword : str) (r : response) : option str :=
  dict_get keyword (headers r).

(** The socket takes every write and standard error every line. *)
Definition delivers (w : world) : Prop :=
  (forall n, sendall w n = Ok tt) /\ (forall n, stderr_write w n = Ok tt).


Definition profile_sent (w : world) (profile_path : Path)
  (request_version : str) (content : bytes) : response :=
  if str_eqb request_version (lit "HTTP/0.9")
  then mkResponse None [] content 1 1
  else mkResponse (Some (200, lit "OK"))
         [(lit "Server", lit (version_string w));
          (lit "Date", lit (date_time_string w));
          (lit "Content-Type", lit "application/x-apple-aspen-config");
          (lit "Content-Disposition",
           lit "attachment; filename=" ++ name profile_path)]
         content 2 1.

Definition error_page (message : str) : bytes :=
  encode_utf8_replace
    (error_message_format 404 (html_escape message)
       (html_escape (lit "Nothing matches the given URI"))).

Definition error_sent (w : world) (request_version message : str)
  : response :=
  if str_eqb request_version (lit "HTTP/0.9")
  then mkResponse None [] (error_page message) 1 2
  else mkResponse (Some (404, message))
         [(lit "Server", lit (version_string w));
          (lit "Date", lit (date_time_string w));
          (lit "Connection", lit "close");
          (lit "Content-Type", lit "text/html;charset=utf-8");
          (lit "Content-Length",
           int_str (Z.of_nat (List.length (error_page message))))]
         (error_page message) 2 2.

(** What the specification asks of the reply to a [GET] for
    [/download]: when the file exists, status 200, the profile content
    type, the attachment header with the fixed name and the bytes of the
    file; when it is missing, status 404 and a page with the reason. *)
Definition download_reply (w : world) (profile_path : Path)
  (request_version : str) : Prop :=
  (path_exists w profile_path = Ok true ->
   exists r,
     do_GET w profile_path request_version (lit "/download") = Ok r /\
     status r = Some (200, lit "OK") /\
     header (lit "Content-Type") r
       = Some (lit "application/x-apple-aspen-config") /\
     header (lit "Content-Disposition") r
       = Some (lit "attachment; filename=burp-wifi-proxy.mobileconfig") /\
     read_bytes w profile_path = Ok (body r)) /\
  (path_exists w profile_path = Ok false ->
   exists r,
     do_GET w profile_path request_version (lit "/download") = Ok r /\
     status r = Some (404, lit "Profile not found") /\
     contains (lit "Message: Profile not found.") (body r) = true).

(** ** Local address discovery *)

(** The socket layer as [get_local_ip] meets it.  Each call either
    returns or raises [OSError] (the [socket] module reports every
    failure as [OSError] or a subclass of it); [errno] tells which. *)
Inductive outcome (A : Type) : Type :=
| Returns (a : A)
| Fails (errno : Z).
Arguments Returns {A} a.
Arguments Fails {A} errno.

Record network : Type := mkNetwork {
  socket_socket : outcome unit;
  sock_connect : outcome unit;
  sock_getsockname : outcome (str * Z);
  sock_close : outcome unit
}.

(** [get_local_ip()].  Leaving the [with] block closes the socket, on
    the normal path and on the exceptional one; an [OSError] from any of
    the calls ends in the [except] clause, which keeps [ip_address] as it
    is at that moment. *)
Definition get_local_ip (net : network) : str :=
  let ip_address := lit "127.0.0.1" in
  match socket_socket net with
  | Fails _ => ip_address
  | Returns _ =>
      match sock_connect net with
      | Fails _ => let _ := sock_close net in ip_address
      | Returns _ =>
          match sock_getsockname net with
          | Fails _ => let _ := sock_close net in ip_address
          | Returns sockname =>
              let ip_address := fst sockname in
              match sock_close net with
              | Fails _ => ip_address
              | Returns _ => ip_address
              end
          end
      end
  end.

(** ** Vocabulary of the properties *)

Definition ascii_alnum (c : Z) : bool :=
  ((48 <=? c) && (c <=? 57)) || ((65 <=? c) && (c <=? 90))
  || ((97 <=? c) && (c <=? 122)).

(** Membership in [[A-Za-z0-9.-]]. *)
Definition ascii_ident_char (c : Z) : bool :=
  ascii_alnum c || (c =? dot) || (c =? hyphen).

(** A letter or number beyond ASCII, in the sense of [str.isalnum]. *)
Definition unicode_alnum (c : Z) : bool := (128 <=? c) && isalnum c.

Fixpoint last_char (s : str) : option Z :=
  match s with
  | [] => None
  | [c] => Some c
  | _ :: s' => last_char s'
  end.

(** Neither the first nor the last character is a dot. *)
Definition edge_dot_free (s : str) : Prop :=
  hd_error s <> Some dot /\ last_char s <> Some dot.

(** The identifier the specification asks for. *)
Definition ascii_identifier (s : str) : Prop :=
  s <> [] /\ forallb ascii_ident_char s = true /\ edge_dot_free s.

(** The bits of a draw that [uuid4] keeps: all but the two variant bits
    and the four version bits, which it overwrites. *)
Definition random_bits (rand : Z) : Z :=
  Z.land rand (Z.lnot (Z.lor (Z.shiftl 0xc000 48) (Z.shiftl 0xf000 64))).

(** A draw of sixteen octets, read as an integer. *)
Definition draw (rand : Z) : Prop := 0 <= rand < 2 ^ 128.

(** A hexadecimal digit or a hyphen. *)
Definition uuid_char (c : Z) : bool :=
  ((48 <=? c) && (c <=? 57)) || ((97 <=? c) && (c <=? 102)) || (c =? hyphen).

(** A character [encode('utf-8')] accepts. *)
Definition encodable (c : Z) : bool :=
  match utf8_char c with
  | Some _ => true
  | None => false
  end.

(** A string the XML writer accepts: no character of [_controlCharPat]
    and no surrogate. *)
Definition writable_char (c : Z) : bool := negb (control_char c) && encodable c.
Definition writable (s : str) : bool := forallb writable_char s.

(** A string that keeps its characters through [dumps] and [loads]: made
    of XML characters, and free of carriage returns, which the writer
    turns into line feeds. *)
Definition verbatim_char (c : Z) : bool := xml_char c && negb (c =? CR).
Definition verbatim (s : str) : bool := forallb verbatim_char s.

(** What the writer makes of the line ends of a string. *)
Definition unix_newlines (s : str) : str := replace1 CR [LF] (replace_crlf s).

(** Every range of the table is one of the three ASCII ranges or lies
    beyond ASCII. *)
Definition ascii_or_beyond (r : Z * Z) : bool :=
  ((fst r =? 48) && (snd r =? 57)) || ((fst r =? 65) && (snd r =? 90))
  || ((fst r =? 97) && (snd r =? 122)) || (128 <=? fst r).

(** The value of a hexadecimal digit, and of a string of them. *)
Definition hex_val (c : Z) : Z := if c <? 58 then c - 48 else c - 87.

Definition unhex (s : str) : Z :=
  fold_left (fun acc c => acc * 16 + hex_val c) s 0.

(** ** The XML writer, line by line *)

(** The elements the writer uses. *)
Inductive tag : Type := TDict | TArray | TKey | TString | TInteger | TTrue | TFalse.

Definition tag_str (t : tag) : str :=
  match t with
  | TDict => lit "dict"
  | TArray => lit "array"
  | TKey => lit "key"
  | TString => lit "string"
  | TInteger => lit "integer"
  | TTrue => lit "true"
  | TFalse => lit "false"
  end.

(** The lines the writer produces. *)
Inductive line : Type :=
| Open (t : tag)
| Close (t : tag)
| Empty (t : tag)
| Simple (t : tag) (text : str).

Definition line_text (l : line) : str :=
  match l with
  | Open t => lit "<" ++ tag_str t ++ lit ">"
  | Close t => lit "</" ++ tag_str t ++ lit ">"
  | Empty t => lit "<" ++ tag_str t ++ lit "/>"
  | Simple t v =>
      lit "<" ++ tag_str t ++ lit ">" ++ escape_text v ++
      lit "</" ++ tag_str t ++ lit ">"
  end.

(** A line with its indent level, as text. *)
Definition line_str (l : nat * line) : str :=
  repeat TAB (fst l) ++ line_text (snd l) ++ [LF].

Definition utf8_bytes (s : str) : bytes :=
  flat_map (fun c => match utf8_char c with Some b => b | None => [] end) s.

Definition lines_of := nat -> list (nat * line).

Definition item_lines (level : nat) (items : list (str * lines_of))
  : list (nat * line) :=
  flat_map (fun kv => (level, Simple TKey (fst kv)) :: snd kv level) items.

Definition dict_lines (level : nat) (d : list (str * lines_of))
  : list (nat * line) :=
  match d with
  | [] => [(level, Empty TDict)]
  | _ => (level, Open TDict) :: item_lines (S level) (sorted_items d)
         ++ [(level, Close TDict)]
  end.

Definition array_lines (level : nat) (a : list lines_of)
  : list (nat * line) :=
  match a with
  | [] => [(level, Empty TArray)]
  | _ => (level, Open TArray) :: flat_map (fun f => f (S level)) a
         ++ [(level, Close TArray)]
  end.

(** The lines of a value, following [write_value]. *)
Fixpoint xml_lines (value : plist) (level : nat) {struct value}
  : list (nat * line) :=
  match value with
  | PStr s => [(level, Simple TString s)]
  | PBool true => [(level, Empty TTrue)]
  | PBool false => [(level, Empty TFalse)]
  | PInt n => [(level, Simple TInteger (int_str n))]
  | PDict d => dict_lines level (map (fun kv => (fst kv, xml_lines (snd kv))) d)
  | PList a => array_lines level (map xml_lines a)
  end.

Fixpoint writable_plist (value : plist) : bool :=
  match value with
  | PStr s => writable s
  | PBool _ => true
  | PInt n => (- 2 ^ 63 <=? n) && (n <? 2 ^ 64) && writable (int_str n)
  | PDict d => forallb (fun kv => writable (fst kv) && writable_plist (snd kv)) d
  | PList a => forallb writable_plist a
  end.

Section PlistInduction.
Variable P : plist -> Prop.
Hypothesis Hstr : forall s, P (PStr s).
Hypothesis Hbool : forall b, P (PBool b).
Hypothesis Hint : forall n, P (PInt n).
Hypothesis Hlist : forall a, Forall P a -> P (PList a).
Hypothesis Hdict : forall d, Forall (fun kv => P (snd kv)) d -> P (PDict d).

Fixpoint plist_nested_ind (v : plist) : P v :=
  match v with
  | PStr s => Hstr s
  | PBool b => Hbool b
  | PInt n => Hint n
  | PList a =>
      Hlist a ((fix go (l : list plist) : Forall P l :=
                  match l with
                  | [] => Forall_nil _
                  | x :: l' => Forall_cons x (plist_nested_ind x) (go l')
                  end) a)
  | PDict d =>
      Hdict d ((fix go (l : list (str * plist))
                  : Forall (fun kv => P (snd kv)) l :=
                  match l with
                  | [] => Forall_nil _
                  | x :: l' => Forall_cons x (plist_nested_ind (snd x)) (go l')
                  end) d)
  end.
End PlistInduction.

(** The octets of a line. *)
Definition line_bytes (l : nat * line) : bytes :=
  repeat TAB (fst l) ++ utf8_bytes (line_text (snd l)) ++ [LF].

(** A value all of whose strings are made of XML characters. *)
Fixpoint xml_plist (value : plist) : bool :=
  match value with
  | PStr s => forallb xml_char s
  | PBool _ => true
  | PInt n => forallb xml_char (int_str n)
  | PDict d =>
      forallb (fun kv => forallb xml_char (fst kv) && xml_plist (snd kv)) d
  | PList a => forallb xml_plist a
  end.

(** ** The events of the written lines *)

(** One character, escaped. *)
Definition escape_char (c : Z) : str :=
  if c =? 38 then lit "&amp;"
  else if c =? 60 then lit "&lt;"
  else if c =? 62 then lit "&gt;"
  else [c].

(** What the scanner reports for a line, when [acc] is the character
    data pending before it. *)
Definition line_events (acc : str) (l : nat * line) : list event :=
  CharacterData (acc ++ repeat TAB (fst l)) ::
  match snd l with
  | Open t => [StartElement (tag_str t)]
  | Close t => [EndElement (tag_str t)]
  | Empty t => [StartElement (tag_str t); EndElement (tag_str t)]
  | Simple t v =>
      [StartElement (tag_str t); CharacterData (unix_newlines v);
       EndElement (tag_str t)]
  end.

Fixpoint lines_events (acc : str) (ls : list (nat * line)) : list event :=
  match ls with
  | [] => []
  | l :: ls' => line_events acc l ++ lines_events [LF] ls'
  end.

(** The text of a line is made of XML characters. *)
Definition xml_line (l : nat * line) : bool :=
  match snd l with
  | Simple _ v => forallb xml_char v
  | _ => true
  end.

Definition plist_open : str :=
  lit "<plist version=" ++ [quote] ++ lit "1.0" ++ [quote] ++ lit ">".

(** The whole document, as text. *)
Definition document (ls : list (nat * line)) : str :=
  PLISTHEADER ++ plist_open ++ [LF] ++ flat_map line_str ls ++
  lit "</plist>" ++ [LF].

(** The events of the whole document. *)
Definition document_events (ls : list (nat * line)) : list event :=
  [CharacterData []; CharacterData [LF]; CharacterData [LF];
   StartElement (lit "plist")] ++
  lines_events [LF] ls ++
  [CharacterData [LF]; EndElement (lit "plist"); CharacterData [LF]].

(** [_PlistParser.parse] on the events of a document. *)
Definition parse_events (evs : list event) : option plist :=
  match deliver [] false evs with
  | Some evs' =>
      match handle_all (mkParser [] None None []) evs' with
      | Some p => root p
      | None => None
      end
  | None => None
  end.

(** The profile as [loads] reads it back from the document that
    [build_profile] returns: the items in the order of their keys, the
    line ends of the strings as [_escape] leaves them. *)
Definition read_back (profile_uuid wifi_uuid ssid proxy_ip : str) : plist :=
  let sanitized_ssid := sanitized_ssid ssid in
  PDict [
    (lit "PayloadContent", PList [
      PDict [
        (lit "AutoJoin", PBool true);
        (lit "EncryptionType", PStr (lit "Any"));
        (lit "HIDDEN_NETWORK", PBool false);
        (lit "PayloadDescription",
           PStr (lit "Configures Wi-Fi proxy settings"));
        (lit "PayloadDisplayName",
           PStr (unix_newlines (ssid ++ lit " Wi-Fi")));
        (lit "PayloadIdentifier",
           PStr (unix_newlines (lit "com.example.wifi." ++ sanitized_ssid)));
        (lit "PayloadType", PStr (lit "com.apple.wifi.managed"));
        (lit "PayloadUUID", PStr (unix_newlines wifi_uuid));
        (lit "PayloadVersion", PInt 1);
        (lit "ProxyServer", PStr (unix_newlines proxy_ip));
        (lit "ProxyServerPort", PInt PROXY_PORT);
        (lit "ProxyType", PStr (lit "Manual"));
        (lit "SSID_STR", PStr (unix_newlines ssid))
      ]
    ]);
    (lit "PayloadDescription",
       PStr (lit "Installs Wi-Fi proxy settings for Burp Suite"));
    (lit "PayloadDisplayName", PStr (lit "Burp Suite Wi-Fi Proxy"));
    (lit "PayloadIdentifier",
       PStr (unix_newlines (lit "com.example.burp-proxy." ++ sanitized_ssid)));
    (lit "PayloadOrganization", PStr (lit "Burp Proxy Setup"));
    (lit "PayloadType", PStr (lit "Configuration"));
    (lit "PayloadUUID", PStr (unix_newlines profile_uuid));
    (lit "PayloadVersion", PInt 1)
  ].

(** The Wi-Fi payload of the document [b] carries the network name, the
    proxy host and the fixed proxy port: [b] reads back as a dictionary
    whose [PayloadContent] is a list of one dictionary with these three
    fields. *)
Definition payload_carries (b : bytes) (ssid proxy_ip : str) : Prop :=
  exists d wifi,
    loads b = Some (PDict d) /\
    dict_get (lit "PayloadContent") d = Some (PList [PDict wifi]) /\
    dict_get (lit "SSID_STR") wifi = Some (PStr ssid) /\
    dict_get (lit "ProxyServer") wifi = Some (PStr proxy_ip) /\
    dict_get (lit "ProxyServerPort") wifi = Some (PInt 8082).

(** The items of the outer dictionary of a profile, in the order of the
    source, which is also the order of their keys. *)
Definition outer_items (profile_uuid identifier : str) (payloads : list plist)
  : list (str * plist) :=
  [ (lit "PayloadContent", PList payloads);
    (lit "PayloadDescription",
       PStr (lit "Installs Wi-Fi proxy settings for Burp Suite"));
    (lit "PayloadDisplayName", PStr (lit "Burp Suite Wi-Fi Proxy"));
    (lit "PayloadIdentifier", PStr (lit "com.example.burp-proxy." ++ identifier));
    (lit "PayloadOrganization", PStr (lit "Burp Proxy Setup"));
    (lit "PayloadType", PStr (lit "Configuration"));
    (lit "PayloadUUID", PStr profile_uuid);
    (lit "PayloadVersion", PInt 1) ].

(** A profile without its [PayloadUUID] entries, at every level. *)
Fixpoint without_uuids (value : plist) : plist :=
  match value with
  | PList a => PList (map without_uuids a)
  | PDict d =>
      PDict (filter (fun kv => negb (str_eqb (fst kv) (lit "PayloadUUID")))
                    (map (fun kv => (fst kv, without_uuids (snd kv))) d))
  | _ => value
  end.

(** The [PayloadUUID] of a profile and the one of its single payload. *)
Definition uuid_fields (value : plist) : option (str * str) :=
  match value with
  | PDict d =>
      match dict_get (lit "PayloadUUID") d,
            dict_get (lit "PayloadContent") d with
      | Some (PStr u), Some (PList [PDict wifi]) =>
          match dict_get (lit "PayloadUUID") wifi with
          | Some (PStr w) => Some (u, w)
          | _ => None
          end
      | _, _ => None
      end
  | _ => None
  end.

(** A pending value and its lines agree, under the same writable key. *)
Definition agree (w : str * pending) (l : str * lines_of) : Prop :=
  fst w = fst l /\ writable (fst w) = true /\
  forall level, snd w level = Ok (flat_map line_bytes (snd l level)).

(** An item whose key and whose lines are made of XML characters. *)
Definition xml_item (kv : str * lines_of) : Prop :=
  forallb xml_char (fst kv) = true /\
  forall level, forallb xml_line (snd kv level) = true.

(** ** Further vocabulary *)

(** A string of dots only. *)
Definition all_dots (s : str) : bool := forallb (fun c => c =? dot) s.


Definition is_ascii (c : Z) : bool := c <? 128.

(** A lower-case hexadecimal digit. *)
Definition hex_digit (c : Z) : bool :=
  ((48 <=? c) && (c <=? 57)) || ((97 <=? c) && (c <=? 102)).

(** The canonical text of a version-4 identifier of the RFC 4122
    variant: [xxxxxxxx-xxxx-4xxx-yxxx-xxxxxxxxxxxx] with hexadecimal
    digits [x] and [y] one of [8], [9], [a], [b]. *)
Definition uuid4_text (s : str) : Prop :=
  exists a b c y d e,
    s = a ++ [hyphen] ++ b ++ [hyphen] ++ [52] ++ c ++ [hyphen] ++
        [y] ++ d ++ [hyphen] ++ e /\
    List.length a = 8%nat /\ List.length b = 4%nat /\
    List.length c = 3%nat /\ List.length d = 3%nat /\
    List.length e = 12%nat /\
    forallb hex_digit (a ++ b ++ c ++ d ++ e) = true /\
    (y = 56 \/ y = 57 \/ y = 97 \/ y = 98).

(** The exception the XML writer raises on a string, if any: the
    control characters are looked for first, by [_escape]; the encoding
    comes after. *)
Definition string_error (s : str) : option exn :=
  if existsb control_char s then Some ValueError
  else if forallb encodable s then None
  else Some UnicodeEncodeError.

Definition line_error (l : nat * line) : option exn :=
  match snd l with
  | Simple _ v => string_error v
  | _ => None
  end.

(** The exception of the first line that has one. *)
Fixpoint first_error (ls : list (nat * line)) : option exn :=
  match ls with
  | [] => None
  | l :: ls' =>
      match line_error l with
      | Some e => Some e
      | None => first_error ls'
      end
  end.

(** What writing the lines in turn gives. *)
Definition written (ls : list (nat * line)) : result bytes :=
  match first_error ls with
  | Some e => Raise e
  | None => Ok (flat_map line_bytes ls)
  end.

(** The integers of a value are in the range the writer accepts. *)
Fixpoint ints_fit (value : plist) : bool :=
  match value with
  | PInt n => (- 2 ^ 63 <=? n) && (n <? 2 ^ 64)
  | PList a => forallb ints_fit a
  | PDict d => forallb (fun kv => ints_fit (snd kv)) d
  | _ => true
  end.

(** A pending value writes what its lines say, success or exception. *)
Definition agree_written (w : str * pending) (l : str * lines_of) : Prop :=
  fst w = fst l /\ forall level, snd w level = written (snd l level).

Fixpoint first_some (l : list (option exn)) : option exn :=
  match l with
  | [] => None
  | Some e :: _ => Some e
  | None :: l' => first_some l'
  end.

(** A range of XML characters from U+0020 on. *)
Definition range_xml (r : Z * Z) : bool :=
  (0x20 <=? fst r) &&
  ((snd r <=? 0xD7FF) || ((0xE000 <=? fst r) && (snd r <=? 0xFFFD))
   || ((0x10000 <=? fst r) && (snd r <=? 0x10FFFF))).

(** The profile document for the two identifiers, the name and the
    host, when the writer raises nothing. *)
Definition profile_bytes (profile_uuid wifi_uuid ssid proxy_ip : str) : bytes :=
  utf8_bytes
    (document (xml_lines (profile_payload profile_uuid wifi_uuid ssid proxy_ip) 0)).

(** ** The file system and the start of the program *)

Definition path_eqb (p q : Path) : bool :=
  str_eqb (parent p) (parent q) && str_eqb (name p) (name q).

(** The content reached under each path; which paths lead to the same
    file, through symbolic or hard links; whether a path can be opened
    for writing and written in full; and, when it cannot, how many
    octets reach the file before the write raises, if the file is
    opened at all. *)
Record filesystem : Type := mkFilesystem {
  files : Path -> option bytes;
  same_file : Path -> Path -> bool;
  can_write : Path -> bool;
  torn : Path -> option nat
}.

(** The file under [path] holds [data_]: so does every path that leads
    to the same file. *)
Definition holding (path : Path) (data_ : bytes) (fs : filesystem)
  : filesystem :=
  mkFilesystem
    (fun q => if path_eqb q path || same_file fs q path then Some data_
              else files fs q)
    (same_file fs) (can_write fs) (torn fs).

(** [path.write_bytes(data)]: the file is opened with mode ['wb'], which
    follows links and creates the file or empties it, then written.
    When [open] raises nothing changes; when the write raises, the file
    keeps what reached it.  The failure is an [OSError]. *)
Definition write_bytes (path : Path) (data_ : bytes) (fs : filesystem)
  : filesystem * result unit :=
  if can_write fs path then (holding path data_ fs, Ok tt)
  else
    match torn fs path with
    | Some k => (holding path (firstn k data_) fs, Raise OSError)
    | None => (fs, Raise OSError)
    end.

(** [write_profile(profile_data, output_path)]. *)
Definition write_profile (profile_data : bytes) (output_path : Path)
  (fs : filesystem) : filesystem * result unit :=
  write_bytes output_path profile_data fs.


(** [str(path)] for an absolute path. *)
Definition path_str (p : Path) : str :=
  if str_eqb (parent p) (lit "/") then lit "/" ++ name p
  else parent p ++ lit "/" ++ name p.

(** Where [main] stands when it starts the server: the path it serves
    and the lines it has printed. *)
Record started : Type := mkStarted { served : Path; stdout : list str }.

Section Main.
(** The lines [print_qr] prints for a URL ([qrcode] is not part of the
    program). *)
Variable print_qr : str -> list str.

(** [main()] from the parsed argument [args.ssid] up to the call of
    [run_server]: the file system it leaves, and either the exception
    that ended it or where it stands.  Standard output is taken to
    accept every string. *)
Definition main (ssid : str) (net : network) (rand1 rand2 : Z) (cwd : str)
  (fs : filesystem) : filesystem * result started :=
  let ip_address := get_local_ip net in
  match build_profile rand1 rand2 ssid ip_address with
  | Raise e => (fs, Raise e)
  | Ok profile_data =>
      let profile_path := joinpath cwd PROFILE_FILENAME in
      match write_profile profile_data profile_path fs with
      | (fs', Raise e) => (fs', Raise e)
      | (fs', Ok _) =>
          let url := lit "http://" ++ ip_address ++ lit ":"
                     ++ int_str SERVER_PORT ++ lit "/" in
          (fs', Ok (mkStarted profile_path
                      ([lit "Profile written to " ++ path_str profile_path;
                        lit "Serving profile at " ++ url;
                        lit "Scan this QR code on your iOS device:"]
                       ++ print_qr url)))
      end
  end.
End Main.

(** * Identifier sanitization *)

Section Strip.
Variable c : Z.

Lemma lstrip_head (s : str) : hd_error (lstrip c s) <> Some c.
Proof.
  induction s as [|x s IH]; simpl; [discriminate|].
  unfold char_eqb. destruct (Z.eqb_spec x c) as [->|Hne]; [exact IH|].
  simpl. intros [=]. contradiction.
Qed.

Lemma rstrip_head (s : str) :
  hd_error s <> Some c -> hd_error (rstrip c s) = hd_error s.
Proof.
  destruct s as [|x s]; simpl; [reflexivity|]. intros Hx.
  destruct (rstrip c s); [|reflexivity].
  unfold char_eqb. destruct (Z.eqb_spec x c) as [->|_]; [|reflexivity].
  now elim Hx.
Qed.

Lemma rstrip_last (s : str) : last_char (rstrip c s) <> Some c.
Proof.
  induction s as [|x s IH]; simpl; [discriminate|].
  destruct (rstrip c s) as [|y t] eqn:E.
  - unfold char_eqb. destruct (Z.eqb_spec x c); simpl; [discriminate|].
    intros [=]. contradiction.
  - exact IH.
Qed.

Lemma lstrip_fixed (s : str) : hd_error s <> Some c -> lstrip c s = s.
Proof.
  destruct s as [|x s]; simpl; [reflexivity|]. intros Hx.
  unfold char_eqb. destruct (Z.eqb_spec x c) as [->|_]; [|reflexivity].
  now elim Hx.
Qed.

Lemma rstrip_idem (s : str) : rstrip c (rstrip c s) = rstrip c s.
Proof.
  induction s as [|x s IH]; simpl; [reflexivity|].
  destruct (rstrip c s) as [|y t] eqn:E.
  - unfold char_eqb. destruct (Z.eqb_spec x c) as [->|Hne]; simpl;
      [reflexivity|].
    unfold char_eqb. now destruct (Z.eqb_spec x c).
  - change (rstrip c (x :: y :: t)) with
      (match rstrip c (y :: t) with
       | [] => if char_eqb x c then [] else [x]
       | t' => x :: t'
       end).
    now rewrite IH.
Qed.

Lemma strip_idem (s : str) : strip c (strip c s) = strip c s.
Proof.
  unfold strip.
  rewrite (lstrip_fixed (rstrip c (lstrip c s))).
  - apply rstrip_idem.
  - rewrite rstrip_head; apply lstrip_head.
Qed.

Lemma strip_edges (s : str) :
  hd_error (strip c s) <> Some c /\ last_char (strip c s) <> Some c.
Proof.
  unfold strip. split; [|apply rstrip_last].
  rewrite rstrip_head; apply lstrip_head.
Qed.

Variable P : Z -> bool.

Lemma lstrip_forallb (s : str) :
  forallb P s = true -> forallb P (lstrip c s) = true.
Proof.
  induction s as [|x s IH]; simpl; [trivial|].
  intros H. apply andb_true_iff in H as [Hx Hs].
  destruct (char_eqb x c); [auto|]. simpl. now rewrite Hx, Hs.
Qed.

Lemma rstrip_forallb (s : str) :
  forallb P s = true -> forallb P (rstrip c s) = true.
Proof.
  induction s as [|x s IH]; simpl; [trivial|].
  intros H. apply andb_true_iff in H as [Hx Hs]. specialize (IH Hs).
  destruct (rstrip c s) as [|y t].
  - destruct (char_eqb x c); simpl; [reflexivity|]. now rewrite Hx.
  - change (forallb P (x :: y :: t)) with (P x && forallb P (y :: t)).
    now rewrite Hx, IH.
Qed.

Lemma strip_forallb (s : str) :
  forallb P s = true -> forallb P (strip c s) = true.
Proof. intros H. now apply rstrip_forallb, lstrip_forallb. Qed.
End Strip.

Lemma forallb_filter (P : Z -> bool) (s : str) :
  forallb P (filter P s) = true.
Proof.
  induction s as [|x s IH]; simpl; [reflexivity|].
  destruct (P x) eqn:E; simpl; [now rewrite E|exact IH].
Qed.

Lemma filter_fixed (P : Z -> bool) (s : str) :
  forallb P s = true -> filter P s = s.
Proof.
  induction s as [|x s IH]; simpl; [reflexivity|].
  intros H. apply andb_true_iff in H as [-> Hs]. now rewrite IH.
Qed.

Lemma forallb_impl (P Q : Z -> bool) (s : str) :
  (forall c, P c = true -> Q c = true) ->
  forallb P s = true -> forallb Q s = true.
Proof.
  intros HPQ. induction s as [|x s IH]; simpl; [trivial|].
  intros H. apply andb_true_iff in H as [Hx Hs].
  now rewrite (HPQ _ Hx), IH.
Qed.

Lemma sanitize_chars (s : str) :
  forallb keep_char (_sanitize_identifier s) = true.
Proof. apply strip_forallb, forallb_filter. Qed.

Lemma alnum_ranges_ascii : forallb ascii_or_beyond alnum_ranges = true.
Proof. vm_compute. reflexivity. Qed.

Lemma isalnum_split (c : Z) :
  isalnum c = true -> ascii_alnum c = true \/ 128 <= c.
Proof.
  unfold isalnum. intros H. apply existsb_exists in H as [r [Hin Hr]].
  pose proof alnum_ranges_ascii as Ht.
  rewrite forallb_forall in Ht. specialize (Ht r Hin).
  unfold ascii_or_beyond, in_range in *. unfold ascii_alnum.
  destruct r as [lo hi]; simpl in *.
  rewrite !orb_true_iff, !andb_true_iff in *. lia.
Qed.

Lemma keep_char_kinds (c : Z) :
  keep_char c = true -> (ascii_ident_char c || unicode_alnum c) = true.
Proof.
  unfold keep_char, ascii_ident_char, unicode_alnum, char_eqb.
  intros H. apply orb_true_iff in H as [H|H].
  - destruct (isalnum_split c H) as [Ha|Hb].
    + now rewrite Ha.
    + rewrite H. apply Z.leb_le in Hb. rewrite Hb. apply orb_true_r.
  - apply orb_true_iff in H as [H|H]; rewrite H;
      rewrite ?orb_true_r; reflexivity.
Qed.

(** C1, as amended.  For every input string the identifier of
    [build_profile] is non-empty, has neither a leading nor a trailing
    dot, and each of its characters is in [[A-Za-z0-9.-]] or is a letter
    or number beyond ASCII that [str.isalnum] accepts. *)
Theorem sanitized_identifier_shape (s : str) :
  sanitized_ssid s <> [] /\
  forallb (fun c => ascii_ident_char c || unicode_alnum c)
          (sanitized_ssid s) = true /\
  edge_dot_free (sanitized_ssid s).
Proof.
  unfold sanitized_ssid, str_or.
  destruct (_sanitize_identifier s) as [|x t] eqn:E.
  - repeat split; try discriminate; vm_compute; reflexivity.
  - rewrite <- E. repeat split.
    + rewrite E. discriminate.
    + apply forallb_impl with (P := keep_char);
        [apply keep_char_kinds | apply sanitize_chars].
    + apply strip_edges.
    + apply strip_edges.
Qed.

(** C1 fails as stated: the identifier derived from the one-character
    name U+00E9 (e with acute accent) is that character, which is not in
    [[A-Za-z0-9.-]]. *)
Lemma sanitized_identifier_not_ascii :
  ~ ascii_identifier (sanitized_ssid [233]).
Proof.
  intros (_ & H & _). vm_compute in H. discriminate.
Qed.

(** C10.  Sanitizing is idempotent. *)
Theorem sanitize_idempotent (s : str) :
  _sanitize_identifier (_sanitize_identifier s) = _sanitize_identifier s.
Proof.
  unfold _sanitize_identifier at 1.
  rewrite filter_fixed by apply sanitize_chars.
  apply strip_idem.
Qed.

(** * Local address discovery *)

(** C8.  [get_local_ip] is total: whatever the socket layer does it
    returns a string, the loopback address or the host the socket
    reports; and the loopback address as soon as creating the socket,
    associating it or reading its name fails. *)
Theorem get_local_ip_fallback (net : network) :
  (exists ip,
      get_local_ip net = ip /\
      (ip = lit "127.0.0.1" \/
       exists port, sock_getsockname net = Returns (ip, port))) /\
  ((exists e, socket_socket net = Fails e) \/
   (exists e, sock_connect net = Fails e) \/
   (exists e, sock_getsockname net = Fails e) ->
   get_local_ip net = lit "127.0.0.1").
Proof.
  split.
  - eexists. split; [reflexivity|]. unfold get_local_ip.
    destruct (socket_socket net); [|now left].
    destruct (sock_connect net); [|now left].
    destruct (sock_getsockname net) as [[host port]|]; [|now left].
    right. exists port. now destruct (sock_close net).
  - unfold get_local_ip.
    intros [[e H]|[[e H]|[e H]]]; rewrite H.
    + reflexivity.
    + now destruct (socket_socket net).
    + now destruct (socket_socket net), (sock_connect net).
Qed.

(** A network without route: the association fails with [ENETUNREACH]. *)
Lemma get_local_ip_fallback_witness :
  get_local_ip (mkNetwork (Returns tt) (Fails 101)
                          (Returns (lit "0.0.0.0", 0)) (Returns tt))
  = lit "127.0.0.1".
Proof.
  apply (get_local_ip_fallback
           (mkNetwork (Returns tt) (Fails 101)
                      (Returns (lit "0.0.0.0", 0)) (Returns tt))).
  right. left. exists 101. reflexivity.
Defined.

(** * Random identifiers *)

Lemma hex_val_char (d : Z) : 0 <= d < 16 -> hex_val (hex_char d) = d.
Proof.
  intros H. unfold hex_val, hex_char.
  destruct (Z.ltb_spec d 10).
  - destruct (Z.ltb_spec (48 + d) 58); lia.
  - destruct (Z.ltb_spec (87 + d) 58); lia.
Qed.

Lemma unhex_hex_fixed (k : nat) (n : Z) :
  unhex (hex_fixed k n) = n mod 16 ^ Z.of_nat k.
Proof.
  revert n. induction k as [|k IH]; intros n.
  - simpl. now rewrite Z.mod_1_r.
  - cbn [hex_fixed]. unfold unhex in *. rewrite fold_left_app. cbn [fold_left].
    rewrite IH, hex_val_char by (apply Z.mod_pos_bound; lia).
    rewrite Nat2Z.inj_succ, Z.pow_succ_r by lia.
    rewrite (Z.rem_mul_r n 16 (16 ^ Z.of_nat k)) by lia. lia.
Qed.

Lemma hex_fixed_length (k : nat) (n : Z) : List.length (hex_fixed k n) = k.
Proof.
  revert n. induction k as [|k IH]; intros n; simpl; [reflexivity|].
  rewrite length_app, IH. simpl. lia.
Qed.

Lemma hex_char_uuid (d : Z) : 0 <= d < 16 -> uuid_char (hex_char d) = true.
Proof.
  intros H. unfold uuid_char, hex_char, hyphen.
  destruct (Z.ltb_spec d 10);
    rewrite ?orb_true_iff, ?andb_true_iff, ?Z.leb_le, ?Z.eqb_eq; lia.
Qed.

Lemma hex_fixed_chars (k : nat) (n : Z) :
  forallb uuid_char (hex_fixed k n) = true.
Proof.
  revert n. induction k as [|k IH]; intros n; simpl; [reflexivity|].
  rewrite forallb_app, IH. simpl.
  rewrite hex_char_uuid by (apply Z.mod_pos_bound; lia). reflexivity.
Qed.

Lemma hex_fixed_no_hyphen (k : nat) (n : Z) :
  filter (fun c => negb (c =? hyphen)) (hex_fixed k n) = hex_fixed k n.
Proof.
  revert n. induction k as [|k IH]; intros n; simpl; [reflexivity|].
  rewrite filter_app, IH. simpl.
  assert (H : 0 <= n mod 16 < 16) by (apply Z.mod_pos_bound; lia).
  unfold hex_char, hyphen.
  destruct (Z.ltb_spec (n mod 16) 10).
  - destruct (Z.eqb_spec (48 + n mod 16) 45); [lia|reflexivity].
  - destruct (Z.eqb_spec (87 + n mod 16) 45); [lia|reflexivity].
Qed.

Lemma forallb_firstn (P : Z -> bool) (k : nat) (s : str) :
  forallb P s = true -> forallb P (firstn k s) = true.
Proof.
  revert s. induction k as [|k IH]; intros [|x s]; simpl; trivial.
  intros H. apply andb_true_iff in H as [-> Hs]. now apply IH.
Qed.

Lemma forallb_skipn (P : Z -> bool) (k : nat) (s : str) :
  forallb P s = true -> forallb P (skipn k s) = true.
Proof.
  revert s. induction k as [|k IH]; intros [|x s]; simpl; trivial.
  intros H. apply andb_true_iff in H as [_ Hs]. now apply IH.
Qed.

Lemma uuid_str_chars (n : Z) : forallb uuid_char (uuid_str n) = true.
Proof.
  unfold uuid_str, slice.
  pose proof (hex_fixed_chars 32 n) as H.
  rewrite !forallb_app.
  rewrite !forallb_firstn, !forallb_skipn by (try apply forallb_skipn; exact H).
  reflexivity.
Qed.

Lemma filter_fixed_sub (P : Z -> bool) (s : str) :
  filter P s = s -> forallb P s = true.
Proof. intros <-. apply forallb_filter. Qed.

Lemma slices_join (h : str) :
  firstn 8 (skipn 0 h) ++ firstn 4 (skipn 8 h) ++ firstn 4 (skipn 12 h) ++
  firstn 4 (skipn 16 h) ++ skipn 20 h = h.
Proof.
  replace (skipn 20 h) with (skipn 4 (skipn 16 h))
    by (rewrite skipn_skipn; reflexivity).
  rewrite firstn_skipn.
  replace (skipn 16 h) with (skipn 4 (skipn 12 h))
    by (rewrite skipn_skipn; reflexivity).
  rewrite firstn_skipn.
  replace (skipn 12 h) with (skipn 4 (skipn 8 h))
    by (rewrite skipn_skipn; reflexivity).
  rewrite firstn_skipn. cbn [skipn]. apply firstn_skipn.
Qed.

(** Dropping the hyphens of [str(u)] gives the thirty-two digits back. *)
Lemma uuid_str_digits (n : Z) :
  filter (fun c => negb (c =? hyphen)) (uuid_str n) = hex_fixed 32 n.
Proof.
  unfold uuid_str, slice.
  pose proof (filter_fixed_sub _ _ (hex_fixed_no_hyphen 32 n)) as H.
  set (h := hex_fixed 32 n) in *.
  rewrite !filter_app.
  change (filter (fun c => negb (c =? hyphen)) [hyphen]) with (@nil Z).
  rewrite !filter_fixed
    by (try apply forallb_firstn; try apply forallb_skipn; exact H).
  cbn [app Nat.sub]. apply slices_join.
Qed.

Lemma uuid_str_inj (x y : Z) :
  draw x -> draw y -> uuid_str x = uuid_str y -> x = y.
Proof.
  unfold draw. intros Hx Hy H.
  apply (f_equal (filter (fun c => negb (c =? hyphen)))) in H.
  rewrite !uuid_str_digits in H. apply (f_equal unhex) in H.
  rewrite !unhex_hex_fixed in H.
  change (16 ^ Z.of_nat 32) with (2 ^ 128) in H.
  now rewrite !Z.mod_small in H.
Qed.

Lemma draw_land_ones (x : Z) : draw x -> Z.land x (Z.ones 128) = x.
Proof.
  unfold draw. intros H. rewrite Z.land_ones by lia. now apply Z.mod_small.
Qed.

Lemma uuid4_draw (rand : Z) : draw rand -> draw (uuid4 rand).
Proof.
  intros H. pose proof (draw_land_ones rand H) as Hl.
  assert (Hu : Z.land (uuid4 rand) (Z.ones 128) = uuid4 rand).
  { unfold uuid4. rewrite <- Hl.
    replace (Z.shiftl 0x8000 48)
      with (Z.land (Z.shiftl 0x8000 48) (Z.ones 128)) by reflexivity.
    replace (Z.shiftl 4 76)
      with (Z.land (Z.shiftl 4 76) (Z.ones 128)) by reflexivity.
    apply Z.bits_inj'. intros n Hn.
    rewrite ?Z.land_spec, ?Z.lor_spec, ?Z.land_spec, ?Z.lnot_spec by assumption.
    repeat rewrite ?Z.land_spec, ?Z.lor_spec, ?Z.lnot_spec by assumption.
    destruct (Z.testbit rand n), (Z.testbit (Z.ones 128) n),
      (Z.testbit (Z.shiftl 49152 48) n), (Z.testbit (Z.shiftl 32768 48) n),
      (Z.testbit (Z.shiftl 61440 64) n), (Z.testbit (Z.shiftl 4 76) n);
      reflexivity. }
  unfold draw. rewrite <- Hu, Z.land_ones by lia.
  apply Z.mod_pos_bound. lia.
Qed.

Lemma uuid4_random_bits (rand : Z) :
  random_bits (uuid4 rand) = random_bits rand.
Proof.
  unfold random_bits, uuid4.
  replace (Z.shiftl 0x8000 48)
    with (Z.land (Z.shiftl 0x8000 48) (Z.shiftl 0xc000 48)) by reflexivity.
  replace (Z.shiftl 4 76)
    with (Z.land (Z.shiftl 4 76) (Z.shiftl 0xf000 64)) by reflexivity.
  apply Z.bits_inj'. intros n Hn.
  repeat rewrite ?Z.land_spec, ?Z.lor_spec, ?Z.lnot_spec by assumption.
  destruct (Z.testbit rand n),
    (Z.testbit (Z.shiftl 49152 48) n), (Z.testbit (Z.shiftl 32768 48) n),
    (Z.testbit (Z.shiftl 61440 64) n), (Z.testbit (Z.shiftl 4 76) n);
    reflexivity.
Qed.

(** Two draws that differ in a bit [uuid4] keeps give different
    identifiers. *)
Lemma fresh_uuid (a b : Z) :
  draw a -> draw b -> random_bits a <> random_bits b ->
  uuid_str (uuid4 a) <> uuid_str (uuid4 b).
Proof.
  intros Ha Hb Hne H.
  apply uuid_str_inj in H; try now apply uuid4_draw.
  apply Hne. now rewrite <- (uuid4_random_bits a), H, uuid4_random_bits.
Qed.

(** * The XML writer, line by line *)

(** ** What the replacements of [_escape] preserve *)

Section Preserved.
Variable P : Z -> bool.

Lemma replace1_forallb (old : Z) (new s : str) :
  forallb P new = true -> forallb P s = true ->
  forallb P (replace1 old new s) = true.
Proof.
  intros Hn. unfold replace1.
  induction s as [|x s IH]; simpl; [trivial|].
  intros H. apply andb_true_iff in H as [Hx Hs].
  rewrite forallb_app, (IH Hs), andb_true_r.
  destruct (x =? old); [exact Hn|]. simpl. now rewrite Hx.
Qed.

Lemma replace_crlf_forallb (s : str) :
  P LF = true -> forallb P s = true -> forallb P (replace_crlf s) = true.
Proof.
  intros HLF.
  enough (H : forall x, (forallb P s = true -> forallb P (replace_crlf s) = true)
            /\ (forallb P (x :: s) = true ->
                forallb P (replace_crlf (x :: s)) = true)) by apply (H 0).
  induction s as [|d t IH]; intros x.
  - split; [trivial|]. simpl. trivial.
  - destruct (IH d) as [IH1 IH2]. split; [exact IH2|].
    intros H. cbn [replace_crlf].
    apply andb_true_iff in H as [Hx Ht].
    destruct ((x =? CR) && (d =? LF)).
    + cbn [forallb]. rewrite HLF. apply IH1.
      now apply andb_true_iff in Ht as [_ Ht].
    + cbn [forallb]. rewrite Hx. now apply IH2.
Qed.

Hypothesis basic : forallb P (lit "&amp;&lt;&gt;") = true /\ P LF = true.

Lemma escape_text_forallb (s : str) :
  forallb P s = true -> forallb P (escape_text s) = true.
Proof.
  destruct basic as [Hb HLF]. intros H. unfold escape_text.
  cbn in Hb. rewrite !andb_true_iff in Hb.
  repeat apply replace1_forallb; try apply replace_crlf_forallb; trivial;
    cbn; rewrite ?HLF; intuition (repeat match goal with
                                    | H : P _ = true |- _ => rewrite H
                                    end; reflexivity).
Qed.
End Preserved.

(** ** The writer succeeds on writable values *)

Lemma utf8_bytes_app (a b : str) :
  utf8_bytes (a ++ b) = utf8_bytes a ++ utf8_bytes b.
Proof. apply flat_map_app. Qed.

Lemma encode_utf8_ok (s : str) :
  forallb encodable s = true -> encode_utf8 s = Ok (utf8_bytes s).
Proof.
  induction s as [|c s IH]; simpl; [reflexivity|].
  intros H. apply andb_true_iff in H as [Hc Hs].
  unfold encodable in Hc. destruct (utf8_char c); [|discriminate].
  now rewrite (IH Hs).
Qed.

Lemma writeln_ok (level : nat) (c : Z) (rest : str) :
  forallb encodable (c :: rest) = true ->
  writeln level (c :: rest)
  = Ok (repeat TAB level ++ utf8_bytes (c :: rest) ++ [LF]).
Proof. intros H. unfold writeln. now rewrite encode_utf8_ok. Qed.

Lemma tag_str_encodable (t : tag) : forallb encodable (tag_str t) = true.
Proof. destruct t; reflexivity. Qed.

Lemma writable_encodable (s : str) :
  writable s = true -> forallb encodable s = true.
Proof.
  apply forallb_impl. intros c H. unfold writable_char in H.
  now apply andb_true_iff in H.
Qed.

Lemma writable_no_control (s : str) :
  writable s = true -> existsb control_char s = false.
Proof.
  unfold writable. induction s as [|c s IH]; simpl; [reflexivity|].
  intros H. apply andb_true_iff in H as [Hc Hs].
  unfold writable_char in Hc. apply andb_true_iff in Hc as [Hc _].
  apply negb_true_iff in Hc. now rewrite Hc, IH.
Qed.

Lemma simple_element_value (level : nat) (t : tag) (v : str) :
  writable v = true ->
  simple_element level (tag_str t) (Some v) = Ok (line_bytes (level, Simple t v)).
Proof.
  intros H. unfold simple_element, _escape.
  rewrite writable_no_control by assumption. cbn [bind].
  change (lit "<" ++ tag_str t ++ lit ">" ++ escape_text v ++
          lit "</" ++ tag_str t ++ lit ">")
    with (60 :: (tag_str t ++ lit ">" ++ escape_text v ++
                 lit "</" ++ tag_str t ++ lit ">")).
  rewrite writeln_ok; [reflexivity|].
  cbn [forallb]. rewrite !forallb_app, tag_str_encodable.
  rewrite (escape_text_forallb encodable) by
    (try apply writable_encodable; auto).
  reflexivity.
Qed.

Lemma simple_element_empty (level : nat) (t : tag) :
  simple_element level (tag_str t) None = Ok (line_bytes (level, Empty t)).
Proof.
  unfold simple_element.
  change (lit "<" ++ tag_str t ++ lit "/>") with (60 :: (tag_str t ++ lit "/>")).
  rewrite writeln_ok; [reflexivity|].
  cbn [forallb]. now rewrite !forallb_app, tag_str_encodable.
Qed.

Lemma begin_element_ok (level : nat) (t : tag) :
  begin_element level (tag_str t) = Ok (line_bytes (level, Open t)).
Proof.
  unfold begin_element.
  change (lit "<" ++ tag_str t ++ lit ">") with (60 :: (tag_str t ++ lit ">")).
  rewrite writeln_ok; [reflexivity|].
  cbn [forallb]. now rewrite !forallb_app, tag_str_encodable.
Qed.

Lemma end_element_ok (level : nat) (t : tag) :
  end_element level (tag_str t) = Ok (line_bytes (level, Close t)).
Proof.
  unfold end_element.
  change (lit "</" ++ tag_str t ++ lit ">")
    with (60 :: 47 :: (tag_str t ++ lit ">")).
  rewrite writeln_ok; [reflexivity|].
  cbn [forallb]. now rewrite !forallb_app, tag_str_encodable.
Qed.

Lemma insert_item_agree w l ws ls :
  agree w l -> Forall2 agree ws ls ->
  Forall2 agree (insert_item w ws) (insert_item l ls).
Proof.
  intros Hwl H. induction H as [|w' l' ws ls Hh Ht IH]; simpl.
  - constructor; [assumption|constructor].
  - pose proof Hwl as (Hk & _). pose proof Hh as (Hk' & _).
    rewrite <- Hk, <- Hk'.
    destruct (str_ltb (fst w') (fst w)).
    + constructor; [exact Hh|exact IH].
    + constructor; [exact Hwl|]. constructor; assumption.
Qed.

Lemma sorted_items_agree ws ls :
  Forall2 agree ws ls -> Forall2 agree (sorted_items ws) (sorted_items ls).
Proof.
  induction 1 as [|w l ws ls Hh Ht IH]; simpl; [constructor|].
  now apply insert_item_agree.
Qed.

Lemma write_items_lines (level : nat) ws ls :
  Forall2 agree ws ls ->
  write_items level ws = Ok (flat_map line_bytes (item_lines level ls)).
Proof.
  induction 1 as [|[k w] [k' l] ws ls (Hk & Hw & Hv) Ht IH];
    cbn [write_items]; [reflexivity|].
  cbn [fst snd] in Hk, Hw, Hv. subst k'.
  change (lit "key") with (tag_str TKey).
  rewrite (simple_element_value level TKey k Hw). cbn [bind].
  rewrite Hv, IH. cbn [bind].
  unfold item_lines. cbn [flat_map fst snd].
  rewrite flat_map_app. cbn [flat_map]. now rewrite <- app_assoc.
Qed.

Lemma write_each_lines (level : nat) (ws : list pending) (ls : list lines_of) :
  Forall2 (fun w l => forall lv, w lv = Ok (flat_map line_bytes (l lv))) ws ls ->
  write_each level ws
  = Ok (flat_map line_bytes (flat_map (fun f => f level) ls)).
Proof.
  induction 1 as [|w l ws ls Hh Ht IH]; simpl; [reflexivity|].
  rewrite Hh, IH. cbn [bind]. now rewrite flat_map_app.
Qed.

(** On a writable value the writer raises nothing and writes the lines
    of [xml_lines]. *)
Lemma write_value_lines (v : plist) :
  writable_plist v = true ->
  forall level, write_value v level = Ok (flat_map line_bytes (xml_lines v level)).
Proof.
  induction v as [s|b|n|a IH|d IH] using plist_nested_ind; intros Hw level.
  - cbn [write_value xml_lines flat_map]. rewrite app_nil_r.
    apply (simple_element_value level TString). exact Hw.
  - cbn [write_value xml_lines]. destruct b; cbn [flat_map]; rewrite app_nil_r.
    + apply (simple_element_empty level TTrue).
    + apply (simple_element_empty level TFalse).
  - cbn [write_value xml_lines flat_map]. rewrite app_nil_r.
    cbn [writable_plist] in Hw. apply andb_true_iff in Hw as [Hr Hs].
    rewrite Hr. apply (simple_element_value level TInteger). exact Hs.
  - cbn [write_value xml_lines]. cbn [writable_plist] in Hw.
    assert (H2 : Forall2 (fun w l => forall lv,
                            w lv = Ok (flat_map line_bytes (l lv)))
                         (map write_value a) (map xml_lines a)).
    { induction IH as [|x a Hx Ha IHa]; cbn [map]; [constructor|].
      cbn [forallb] in Hw. apply andb_true_iff in Hw as [Hwx Hwa].
      constructor; [now apply Hx|now apply IHa]. }
    destruct a as [|x a].
    + cbn [map write_array array_lines flat_map]. rewrite app_nil_r.
      apply (simple_element_empty level TArray).
    + unfold write_array, array_lines. cbn [map] in H2 |- *.
      change (lit "array") with (tag_str TArray).
      rewrite (begin_element_ok level TArray), (end_element_ok level TArray).
      rewrite (write_each_lines (S level) _ _ H2). cbn [bind map].
      cbn [flat_map]. rewrite !flat_map_app. cbn [flat_map].
      now rewrite app_nil_r.
  - cbn [write_value xml_lines]. cbn [writable_plist] in Hw.
    assert (H2 : Forall2 agree
                   (map (fun kv => (fst kv, write_value (snd kv))) d)
                   (map (fun kv => (fst kv, xml_lines (snd kv))) d)).
    { induction IH as [|x d Hx Hd IHd]; cbn [map]; [constructor|].
      cbn [forallb] in Hw. apply andb_true_iff in Hw as [Hwx Hwd].
      apply andb_true_iff in Hwx as [Hk Hv].
      constructor; [|now apply IHd].
      split; [reflexivity|]. split; [exact Hk|]. now apply Hx. }
    destruct d as [|x d].
    + cbn [map write_dict dict_lines flat_map]. rewrite app_nil_r.
      apply (simple_element_empty level TDict).
    + unfold write_dict, dict_lines. cbn [map] in H2 |- *.
      change (lit "dict") with (tag_str TDict).
      rewrite (begin_element_ok level TDict), (end_element_ok level TDict).
      rewrite (write_items_lines (S level) _ _ (sorted_items_agree _ _ H2)).
      cbn [bind map flat_map]. rewrite !flat_map_app. cbn [flat_map].
      now rewrite app_nil_r.
Qed.

(** * UTF-8: decoding what was encoded *)

Ltac bool_lia :=
  unfold is_cont;
  rewrite ?negb_true_iff, ?negb_false_iff;
  rewrite ?andb_true_iff, ?andb_false_iff, ?orb_true_iff, ?orb_false_iff;
  rewrite ?Z.leb_le, ?Z.ltb_lt, ?Z.leb_gt, ?Z.ltb_ge, ?Z.eqb_eq, ?Z.eqb_neq;
  Z.div_mod_to_equations; lia.

Ltac settle_if :=
  match goal with
  | |- context [if ?b then _ else _] =>
      let H := fresh in
      first [ assert (H : b = true) by bool_lia
            | assert (H : b = false) by bool_lia ];
      rewrite H; clear H; cbv iota
  end.

Ltac unfold_decode :=
  cbn [app]; cbn -[Z.add Z.sub Z.mul Z.leb Z.ltb Z.div Z.modulo is_cont].

Ltac take_bytes b :=
  let E := fresh in
  intros E;
  apply (f_equal (fun o => match o with Some x => x | None => b end)) in E;
  cbv beta iota in E; subst b.

Lemma decode_char (c : Z) (b rest : bytes) :
  utf8_char c = Some b ->
  decode_utf8 (b ++ rest) = option_map (cons c) (decode_utf8 rest).
Proof.
  unfold utf8_char.
  destruct (Z.ltb_spec c 0); [discriminate|].
  destruct (Z.ltb_spec c 0x80).
  { take_bytes b. unfold_decode. now settle_if. }
  destruct (Z.ltb_spec c 0x800).
  { take_bytes b. unfold_decode. repeat settle_if.
    do 2 f_equal. Z.div_mod_to_equations; lia. }
  destruct ((0xD800 <=? c) && (c <=? 0xDFFF)) eqn:Hs; [discriminate|].
  apply andb_false_iff in Hs. rewrite Z.leb_gt, Z.leb_gt in Hs.
  destruct (Z.ltb_spec c 0x10000).
  { take_bytes b. unfold_decode. repeat settle_if.
    do 2 f_equal. Z.div_mod_to_equations; lia. }
  destruct (Z.ltb_spec c 0x110000); [|discriminate].
  take_bytes b. unfold_decode. repeat settle_if.
  do 2 f_equal. Z.div_mod_to_equations; lia.
Qed.

Lemma decode_utf8_bytes (s : str) :
  forallb encodable s = true -> decode_utf8 (utf8_bytes s) = Some s.
Proof.
  induction s as [|c s IH]; [reflexivity|].
  cbn [forallb]. intros H. apply andb_true_iff in H as [Hc Hs].
  unfold utf8_bytes. cbn [flat_map]. fold (utf8_bytes s).
  unfold encodable in Hc. destruct (utf8_char c) as [b|] eqn:E; [|discriminate].
  now rewrite (decode_char c b _ E), (IH Hs).
Qed.

(** * Scanning the written lines *)

Lemma lex_app (a b : str) (st : lexer) :
  lex st (a ++ b)
  = match lex st a with Some st' => lex st' b | None => None end.
Proof.
  revert st. induction a as [|c a IH]; intros st; cbn [app lex]; [reflexivity|].
  destruct (lex_step st c); [apply IH|reflexivity].
Qed.

Lemma lex_tabs (n : nat) (evs : list event) (acc : str) :
  lex (mkLexer evs (InText acc)) (repeat TAB n)
  = Some (mkLexer evs (InText (acc ++ repeat TAB n))).
Proof.
  revert acc. induction n as [|n IH]; intros acc; cbn [repeat lex].
  - now rewrite app_nil_r.
  - change (lex_step (mkLexer evs (InText acc)) TAB)
      with (Some (mkLexer evs (InText (acc ++ [TAB])))).
    cbv iota. rewrite IH, <- app_assoc. reflexivity.
Qed.

Lemma escape_flat_map (t : str) :
  replace1 62 (lit "&gt;") (replace1 60 (lit "&lt;")
    (replace1 38 (lit "&amp;") t)) = flat_map escape_char t.
Proof.
  unfold replace1. induction t as [|c t IH]; [reflexivity|].
  cbn [flat_map]. rewrite !flat_map_app, IH. f_equal.
  unfold escape_char.
  destruct (Z.eqb_spec c 38) as [->|H38]; [reflexivity|].
  cbn [flat_map app].
  destruct (Z.eqb_spec c 60) as [->|H60]; [reflexivity|].
  cbn [flat_map app].
  destruct (Z.eqb_spec c 62) as [->|H62]; reflexivity.
Qed.

Lemma lex_escape_char (c : Z) (evs : list event) (acc : str) :
  (c =? CR) = false ->
  lex (mkLexer evs (InText acc)) (escape_char c)
  = Some (mkLexer evs (InText (acc ++ [c]))).
Proof.
  intros Hcr. unfold escape_char.
  destruct (Z.eqb_spec c 38) as [->|H38]; [reflexivity|].
  destruct (Z.eqb_spec c 60) as [->|H60]; [reflexivity|].
  destruct (Z.eqb_spec c 62) as [->|H62]; [reflexivity|].
  cbn [lex]. unfold lex_step. cbn [mode events].
  apply Z.eqb_neq in H38, H60, H62. now rewrite H38, H60, H62, Hcr.
Qed.

Lemma lex_escaped (t : str) (evs : list event) (acc : str) :
  forallb (fun c => negb (c =? CR)) t = true ->
  lex (mkLexer evs (InText acc)) (flat_map escape_char t)
  = Some (mkLexer evs (InText (acc ++ t))).
Proof.
  revert acc. induction t as [|c t IH]; intros acc H; cbn [flat_map].
  - now rewrite app_nil_r.
  - cbn [forallb] in H. apply andb_true_iff in H as [Hc Ht].
    apply negb_true_iff in Hc.
    rewrite lex_app, lex_escape_char, IH, <- app_assoc by assumption.
    reflexivity.
Qed.

Lemma replace1_cr_free (s : str) :
  forallb (fun c => negb (c =? CR)) (replace1 CR [LF] s) = true.
Proof.
  unfold replace1. induction s as [|c s IH]; [reflexivity|].
  cbn [flat_map]. rewrite forallb_app, IH, andb_true_r.
  destruct (Z.eqb_spec c CR) as [->|H]; [reflexivity|].
  cbn [forallb]. apply Z.eqb_neq in H. now rewrite H.
Qed.

Lemma lex_escape_text (v : str) (evs : list event) (acc : str) :
  lex (mkLexer evs (InText acc)) (escape_text v)
  = Some (mkLexer evs (InText (acc ++ unix_newlines v))).
Proof.
  unfold escape_text. rewrite escape_flat_map.
  apply lex_escaped, replace1_cr_free.
Qed.

Lemma lex_open (t : tag) (evs : list event) (acc : str) :
  lex (mkLexer evs (InText acc)) (lit "<" ++ tag_str t ++ lit ">")
  = Some (mkLexer (StartElement (tag_str t) :: CharacterData acc :: evs)
                  (InText [])).
Proof. destruct t; reflexivity. Qed.

Lemma lex_close (t : tag) (evs : list event) (acc : str) :
  lex (mkLexer evs (InText acc)) (lit "</" ++ tag_str t ++ lit ">")
  = Some (mkLexer (EndElement (tag_str t) :: CharacterData acc :: evs)
                  (InText [])).
Proof. destruct t; reflexivity. Qed.

Lemma lex_empty (t : tag) (evs : list event) (acc : str) :
  lex (mkLexer evs (InText acc)) (lit "<" ++ tag_str t ++ lit "/>")
  = Some (mkLexer (EndElement (tag_str t) :: StartElement (tag_str t)
                   :: CharacterData acc :: evs) (InText [])).
Proof. destruct t; reflexivity. Qed.

Lemma lex_newline (evs : list event) :
  lex (mkLexer evs (InText [])) [LF] = Some (mkLexer evs (InText [LF])).
Proof. reflexivity. Qed.

Lemma lex_line (l : nat * line) (evs : list event) (acc : str) :
  lex (mkLexer evs (InText acc)) (line_str l)
  = Some (mkLexer (rev (line_events acc l) ++ evs) (InText [LF])).
Proof.
  destruct l as [level l]. unfold line_str, line_events. cbn [fst snd].
  rewrite lex_app, lex_tabs.
  destruct l as [t|t|t|t v]; cbn [line_text].
  - rewrite lex_app, lex_open. reflexivity.
  - rewrite lex_app, lex_close. reflexivity.
  - rewrite lex_app, lex_empty. reflexivity.
  - rewrite !app_assoc.
    rewrite lex_app.
    rewrite <- !app_assoc.
    rewrite (app_assoc (lit "<")), (app_assoc (lit "<" ++ tag_str t)).
    rewrite lex_app. rewrite <- app_assoc, lex_open.
    rewrite lex_app, lex_escape_text. cbn [app].
    change (lit "</" ++ tag_str t ++ lit ">")
      with (lit "<" ++ (47 :: tag_str t ++ lit ">")).
    destruct t; reflexivity.
Qed.

Lemma lex_lines (ls : list (nat * line)) (evs : list event) :
  lex (mkLexer evs (InText [LF])) (flat_map line_str ls)
  = Some (mkLexer (rev (lines_events [LF] ls) ++ evs) (InText [LF])).
Proof.
  revert evs. induction ls as [|l ls IH]; intros evs; [reflexivity|].
  cbn [flat_map lines_events].
  rewrite lex_app, lex_line, IH, rev_app_distr, <- app_assoc. reflexivity.
Qed.

(** * Reading back what [dumps] wrote *)

Lemma xml_char_encodable (c : Z) : xml_char c = true -> encodable c = true.
Proof.
  unfold xml_char, encodable, utf8_char, TAB, LF, CR. intros H.
  rewrite !orb_true_iff, !andb_true_iff, !Z.eqb_eq, !Z.leb_le in H.
  destruct (Z.ltb_spec c 0); [lia|].
  destruct (Z.ltb_spec c 0x80); [reflexivity|].
  destruct (Z.ltb_spec c 0x800); [reflexivity|].
  destruct (Z.leb_spec 0xD800 c), (Z.leb_spec c 0xDFFF); cbn [andb]; try lia;
    (destruct (Z.ltb_spec c 0x10000); [reflexivity|]);
    (destruct (Z.ltb_spec c 0x110000); [reflexivity|lia]).
Qed.

Lemma tag_str_xml (t : tag) : forallb xml_char (tag_str t) = true.
Proof. destruct t; reflexivity. Qed.

Lemma repeat_forallb (P : Z -> bool) (c : Z) (n : nat) :
  P c = true -> forallb P (repeat c n) = true.
Proof. intros H. induction n; simpl; [reflexivity|]. now rewrite H. Qed.

Lemma line_str_xml (l : nat * line) :
  xml_line l = true -> forallb xml_char (line_str l) = true.
Proof.
  destruct l as [level l]. unfold xml_line, line_str. cbn [fst snd].
  intros H. rewrite !forallb_app, repeat_forallb by reflexivity.
  destruct l as [t|t|t|t v]; cbn [line_text];
    rewrite ?forallb_app, ?tag_str_xml; try reflexivity.
  rewrite (escape_text_forallb xml_char) by auto. reflexivity.
Qed.

Lemma lines_xml (ls : list (nat * line)) :
  forallb xml_line ls = true ->
  forallb xml_char (flat_map line_str ls) = true.
Proof.
  induction ls as [|l ls IH]; [reflexivity|]. cbn [forallb flat_map].
  intros H. apply andb_true_iff in H as [Hl Hs].
  now rewrite forallb_app, line_str_xml, IH.
Qed.

Lemma document_xml (ls : list (nat * line)) :
  forallb xml_line ls = true -> forallb xml_char (document ls) = true.
Proof.
  intros H. unfold document.
  rewrite !forallb_app, lines_xml by assumption. reflexivity.
Qed.

Lemma lex_prolog :
  lex (mkLexer [] (InText [])) (PLISTHEADER ++ plist_open ++ [LF])
  = Some (mkLexer [StartElement (lit "plist"); CharacterData [LF];
                   CharacterData [LF]; CharacterData []] (InText [LF])).
Proof. vm_compute. reflexivity. Qed.

Lemma scan_document (ls : list (nat * line)) :
  forallb xml_line ls = true -> scan (document ls) = Some (document_events ls).
Proof.
  intros H. unfold scan. rewrite document_xml by assumption.
  unfold document.
  rewrite (app_assoc PLISTHEADER), (app_assoc (PLISTHEADER ++ plist_open)).
  rewrite <- (app_assoc PLISTHEADER).
  rewrite lex_app, lex_prolog, lex_app, lex_lines.
  change (lex ?st (lit "</plist>" ++ [LF]))
    with (Some (mkLexer (EndElement (lit "plist") :: CharacterData [LF]
                         :: events st) (InText [LF]))).
  cbn [events]. unfold document_events.
  cbn [rev]. rewrite !rev_app_distr, rev_involutive. cbn [rev app].
  now rewrite <- !app_assoc.
Qed.

Lemma utf8_bytes_ascii_tabs (n : nat) : utf8_bytes (repeat TAB n) = repeat TAB n.
Proof. induction n; simpl; [reflexivity|]. now f_equal. Qed.

Lemma utf8_bytes_lines (ls : list (nat * line)) :
  utf8_bytes (flat_map line_str ls) = flat_map line_bytes ls.
Proof.
  induction ls as [|l ls IH]; [reflexivity|]. cbn [flat_map].
  rewrite utf8_bytes_app, IH. f_equal.
  unfold line_str, line_bytes.
  now rewrite !utf8_bytes_app, utf8_bytes_ascii_tabs.
Qed.

(** On a writable value [dumps] returns the document of its lines. *)
Lemma dumps_document (v : plist) :
  writable_plist v = true ->
  dumps v = Ok (utf8_bytes (document (xml_lines v 0))).
Proof.
  intros H. unfold dumps. rewrite (write_value_lines v H).
  change (writeln 0 (lit "<plist version=" ++ [quote] ++ lit "1.0" ++ [quote]
                     ++ lit ">"))
    with (Ok (utf8_bytes (plist_open ++ [LF]))).
  change (writeln 0 (lit "</plist>")) with (Ok (utf8_bytes (lit "</plist>" ++ [LF]))).
  cbn [bind]. unfold document.
  rewrite !utf8_bytes_app, utf8_bytes_lines.
  change (utf8_bytes PLISTHEADER) with PLISTHEADER.
  now rewrite <- !app_assoc.
Qed.

(** A document of XML lines is read back as the parser makes of its
    events. *)
Lemma loads_document (ls : list (nat * line)) :
  forallb xml_line ls = true ->
  loads (utf8_bytes (document ls)) = parse_events (document_events ls).
Proof.
  intros H. unfold loads.
  assert (Hh : _is_fmt_xml (firstn 32 (utf8_bytes (document ls))) = true).
  { unfold document. rewrite utf8_bytes_app.
    change (utf8_bytes PLISTHEADER) with PLISTHEADER.
    generalize (utf8_bytes (plist_open ++ [LF] ++ flat_map line_str ls
                            ++ lit "</plist>" ++ [LF])).
    intros rest. reflexivity. }
  rewrite Hh, decode_utf8_bytes, scan_document; [reflexivity|assumption|].
  apply forallb_impl with (P := xml_char);
    [apply xml_char_encodable|now apply document_xml].
Qed.

Lemma parse_profile (profile_uuid wifi_uuid ssid proxy_ip : str) :
  parse_events (document_events
    (xml_lines (profile_payload profile_uuid wifi_uuid ssid proxy_ip) 0))
  = Some (read_back profile_uuid wifi_uuid ssid proxy_ip).
Proof.
  unfold profile_payload, read_back.
  generalize (sanitized_ssid ssid). intros sid. reflexivity.
Qed.

(** * The profile builder *)

Lemma forallb_filter_sub (P Q : Z -> bool) (s : str) :
  forallb P s = true -> forallb P (filter Q s) = true.
Proof.
  induction s as [|x s IH]; simpl; [trivial|].
  intros H. apply andb_true_iff in H as [Hx Hs].
  destruct (Q x); simpl; [now rewrite Hx, IH|now apply IH].
Qed.

(** A property of all characters of the name, and of [wifi], holds of
    the identifier. *)
Lemma sanitized_forallb (P : Z -> bool) (ssid : str) :
  forallb P (lit "wifi") = true -> forallb P ssid = true ->
  forallb P (sanitized_ssid ssid) = true.
Proof.
  intros Hw H. unfold sanitized_ssid, str_or.
  destruct (_sanitize_identifier ssid) eqn:E; [exact Hw|].
  rewrite <- E. now apply strip_forallb, forallb_filter_sub.
Qed.

Lemma xml_char_writable (c : Z) : xml_char c = true -> writable_char c = true.
Proof.
  intros H. unfold writable_char. rewrite (xml_char_encodable c H), andb_true_r.
  unfold xml_char, control_char, TAB, LF, CR in *. bool_lia.
Qed.

Lemma uuid_char_xml (c : Z) : uuid_char c = true -> xml_char c = true.
Proof. unfold uuid_char, xml_char, hyphen, TAB, LF, CR. bool_lia. Qed.

Lemma uuid_str_xml (n : Z) : forallb xml_char (uuid_str n) = true.
Proof.
  apply forallb_impl with (P := uuid_char);
    [apply uuid_char_xml|apply uuid_str_chars].
Qed.

Lemma xml_writable (s : str) : forallb xml_char s = true -> writable s = true.
Proof. apply forallb_impl, xml_char_writable. Qed.

Ltac leaves :=
  rewrite ?andb_true_iff; repeat split;
  try reflexivity;
  unfold writable; rewrite ?forallb_app, ?andb_true_iff; repeat split;
  solve [assumption | reflexivity].

Lemma payload_writable (u1 u2 ssid ip : str) :
  writable u1 = true -> writable u2 = true ->
  writable ssid = true -> writable ip = true ->
  writable_plist (profile_payload u1 u2 ssid ip) = true.
Proof.
  intros H1 H2 Hs Hi.
  pose proof (sanitized_forallb writable_char ssid eq_refl Hs) as Hid.
  unfold profile_payload. generalize dependent (sanitized_ssid ssid).
  intros sid Hid. unfold writable in *.
  cbn [writable_plist forallb fst snd]. leaves.
Qed.

Lemma insert_item_Forall {A} (Q : str * A -> Prop) kv l :
  Q kv -> Forall Q l -> Forall Q (insert_item kv l).
Proof.
  intros Hkv H. induction H as [|x l Hx Hl IH]; simpl.
  - now constructor.
  - destruct (str_ltb (fst x) (fst kv)); constructor; auto.
Qed.

Lemma sorted_items_Forall {A} (Q : str * A -> Prop) l :
  Forall Q l -> Forall Q (sorted_items l).
Proof.
  induction 1 as [|x l Hx Hl IH]; simpl; [constructor|].
  now apply insert_item_Forall.
Qed.

Lemma item_lines_xml (level : nat) (items : list (str * lines_of)) :
  Forall xml_item items -> forallb xml_line (item_lines level items) = true.
Proof.
  unfold item_lines.
  induction 1 as [|[k f] l [Hk Hf] Hl IH]; [reflexivity|].
  cbn [fst snd] in Hk, Hf. cbn [flat_map fst snd app forallb].
  rewrite forallb_app, Hf, IH.
  unfold xml_line at 1. cbn [snd]. now rewrite Hk.
Qed.

Lemma xml_lines_xml (v : plist) :
  xml_plist v = true ->
  forall level, forallb xml_line (xml_lines v level) = true.
Proof.
  induction v as [s|b|n|a IH|d IH] using plist_nested_ind; intros Hx level.
  - cbn [xml_lines forallb]. unfold xml_line. cbn [snd].
    cbn [xml_plist] in Hx. now rewrite Hx.
  - destruct b; reflexivity.
  - cbn [xml_lines forallb]. unfold xml_line. cbn [snd].
    cbn [xml_plist] in Hx. now rewrite Hx.
  - cbn [xml_lines]. cbn [xml_plist] in Hx.
    assert (H : forallb xml_line
                  (flat_map (fun f => f (S level)) (map xml_lines a)) = true).
    { induction IH as [|x a Hxa Ha IHa]; [reflexivity|].
      cbn [forallb] in Hx. apply andb_true_iff in Hx as [Hx1 Hx2].
      cbn [map flat_map]. rewrite forallb_app, (Hxa Hx1), (IHa Hx2).
      reflexivity. }
    destruct a as [|x a]; [reflexivity|].
    unfold array_lines. cbn [map] in H |- *.
    cbn [forallb]. rewrite forallb_app, H. reflexivity.
  - cbn [xml_lines]. cbn [xml_plist] in Hx.
    assert (H : Forall xml_item
                  (map (fun kv => (fst kv, xml_lines (snd kv))) d)).
    { induction IH as [|x d Hxd Hd IHd]; cbn [map]; [constructor|].
      cbn [forallb] in Hx. apply andb_true_iff in Hx as [Hx1 Hx2].
      apply andb_true_iff in Hx1 as [Hk Hv].
      constructor; [|now apply IHd]. split; [exact Hk|]. now apply Hxd. }
    destruct d as [|x d]; [reflexivity|].
    unfold dict_lines. cbn [map] in H |- *.
    cbn [forallb]. rewrite forallb_app.
    rewrite (item_lines_xml (S level) _ (sorted_items_Forall _ _ H)).
    reflexivity.
Qed.

Lemma payload_xml (u1 u2 ssid ip : str) :
  forallb xml_char u1 = true -> forallb xml_char u2 = true ->
  forallb xml_char ssid = true -> forallb xml_char ip = true ->
  xml_plist (profile_payload u1 u2 ssid ip) = true.
Proof.
  intros H1 H2 Hs Hi.
  pose proof (sanitized_forallb xml_char ssid eq_refl Hs) as Hid.
  unfold profile_payload. generalize dependent (sanitized_ssid ssid).
  intros sid Hid.
  cbn [xml_plist forallb fst snd]. leaves.
Qed.

(** What [build_profile] returns for names and hosts made of XML
    characters, and what [loads] makes of it. *)
Lemma build_profile_read_back (rand1 rand2 : Z) (ssid proxy_ip : str) :
  forallb xml_char ssid = true -> forallb xml_char proxy_ip = true ->
  exists b,
    build_profile rand1 rand2 ssid proxy_ip = Ok b /\
    loads b = Some (read_back (uuid_str (uuid4 rand1)) (uuid_str (uuid4 rand2))
                              ssid proxy_ip).
Proof.
  intros Hs Hi. unfold build_profile.
  pose proof (uuid_str_xml (uuid4 rand1)) as H1.
  pose proof (uuid_str_xml (uuid4 rand2)) as H2.
  eexists. split.
  - apply dumps_document, payload_writable; now apply xml_writable.
  - rewrite loads_document by
      (apply xml_lines_xml, payload_xml; assumption).
    apply parse_profile.
Qed.

(** C2, as amended.  For every pair of strings free of the control
    characters U+0000 to U+001F other than tab, line feed and carriage
    return, and free of surrogates, [build_profile] returns bytes,
    whatever the random draws. *)
Theorem build_profile_returns (rand1 rand2 : Z) (ssid proxy_ip : str) :
  writable ssid = true -> writable proxy_ip = true ->
  exists b, build_profile rand1 rand2 ssid proxy_ip = Ok b.
Proof.
  intros Hs Hi. unfold build_profile. eexists.
  apply dumps_document, payload_writable; try assumption;
    apply xml_writable, uuid_str_xml.
Qed.

Lemma build_profile_returns_witness :
  writable (lit "Office 5G") = true /\ writable (lit "192.168.1.20") = true /\
  exists b, build_profile 7 11 (lit "Office 5G") (lit "192.168.1.20") = Ok b.
Proof.
  split; [reflexivity|]. split; [reflexivity|].
  apply (build_profile_returns 7 11 (lit "Office 5G") (lit "192.168.1.20"));
    reflexivity.
Defined.

(** C2 fails as stated: for the one-character name U+0001 the writer of
    [plistlib] raises [ValueError]. *)
Lemma build_profile_raises :
  build_profile 0 0 [1] (lit "10.0.0.5") = Raise ValueError.
Proof. vm_compute. reflexivity. Qed.

Lemma replace_crlf_fixed (s : str) :
  forallb (fun c => negb (c =? CR)) s = true -> replace_crlf s = s.
Proof.
  induction s as [|c s IH]; [reflexivity|].
  cbn [forallb]. intros H. apply andb_true_iff in H as [Hc Hs].
  apply negb_true_iff in Hc. cbn [replace_crlf]. rewrite Hc. cbn [andb].
  destruct s; [reflexivity|]. now rewrite (IH Hs).
Qed.

Lemma unix_newlines_fixed (s : str) :
  forallb (fun c => negb (c =? CR)) s = true -> unix_newlines s = s.
Proof.
  intros H. unfold unix_newlines. rewrite (replace_crlf_fixed s H).
  unfold replace1. induction s as [|c s IH]; [reflexivity|].
  cbn [forallb] in H. apply andb_true_iff in H as [Hc Hs].
  apply negb_true_iff in Hc. cbn [flat_map]. rewrite Hc. cbn [app].
  now rewrite (IH Hs).
Qed.

Lemma verbatim_xml (s : str) : verbatim s = true -> forallb xml_char s = true.
Proof.
  apply forallb_impl. intros c H. unfold verbatim_char in H.
  now apply andb_true_iff in H.
Qed.

Lemma verbatim_cr_free (s : str) :
  verbatim s = true -> forallb (fun c => negb (c =? CR)) s = true.
Proof.
  apply forallb_impl. intros c H. unfold verbatim_char in H.
  now apply andb_true_iff in H.
Qed.

(** C3, as amended.  For every name and host made of XML characters
    other than the carriage return, the document [build_profile] returns
    reads back with exactly one payload, whose [SSID_STR] is the name as
    given, whose [ProxyServer] is the host and whose [ProxyServerPort] is
    8082. *)
Theorem payload_fields_verbatim (rand1 rand2 : Z) (ssid proxy_ip : str) :
  verbatim ssid = true -> verbatim proxy_ip = true ->
  exists b,
    build_profile rand1 rand2 ssid proxy_ip = Ok b /\
    payload_carries b ssid proxy_ip.
Proof.
  intros Hs Hi.
  destruct (build_profile_read_back rand1 rand2 ssid proxy_ip)
    as (b & Hb & Hl); try now apply verbatim_xml.
  exists b. split; [exact Hb|].
  unfold payload_carries, read_back in *.
  do 2 eexists. split; [exact Hl|].
  split; [reflexivity|].
  rewrite (unix_newlines_fixed ssid), (unix_newlines_fixed proxy_ip)
    by now apply verbatim_cr_free.
  repeat split.
Qed.

Lemma payload_fields_verbatim_witness :
  verbatim (lit "Office 5G") = true /\ verbatim (lit "192.168.1.20") = true /\
  exists b,
    build_profile 7 11 (lit "Office 5G") (lit "192.168.1.20") = Ok b /\
    payload_carries b (lit "Office 5G") (lit "192.168.1.20").
Proof.
  split; [reflexivity|]. split; [reflexivity|].
  apply (payload_fields_verbatim 7 11 (lit "Office 5G") (lit "192.168.1.20"));
    reflexivity.
Defined.

(** C3 fails as stated: for the name [a], carriage return, [b] the
    document is returned, but its [SSID_STR] holds a line feed where the
    name has the carriage return. *)
Lemma payload_fields_not_verbatim :
  ~ (exists b,
        build_profile 0 0 [97; 13; 98] (lit "10.0.0.5") = Ok b /\
        payload_carries b [97; 13; 98] (lit "10.0.0.5")).
Proof.
  intros (b & Hb & d & wifi & Hl & Hc & Hs & _).
  destruct (build_profile_read_back 0 0 [97; 13; 98] (lit "10.0.0.5"))
    as (b' & Hb' & Hl'); try reflexivity.
  rewrite Hb in Hb'. injection Hb' as <-.
  rewrite Hl in Hl'. unfold read_back in Hl'. injection Hl' as ->.
  cbn [dict_get] in Hc.
  change (str_eqb (lit "PayloadContent") (lit "PayloadContent")) with true in Hc.
  cbv iota in Hc. injection Hc as <-.
  vm_compute in Hs. discriminate Hs.
Qed.

(** C4.  The bytes of [build_profile("TestNet", "10.0.0.5")] read back
    as a dictionary whose [PayloadType] is [Configuration] and whose
    [PayloadContent] has exactly one entry, of [PayloadType]
    [com.apple.wifi.managed]. *)
Theorem testnet_round_trip (rand1 rand2 : Z) :
  exists b d wifi,
    build_profile rand1 rand2 (lit "TestNet") (lit "10.0.0.5") = Ok b /\
    loads b = Some (PDict d) /\
    dict_get (lit "PayloadType") d = Some (PStr (lit "Configuration")) /\
    dict_get (lit "PayloadContent") d = Some (PList [PDict wifi]) /\
    dict_get (lit "PayloadType") wifi
      = Some (PStr (lit "com.apple.wifi.managed")).
Proof.
  destruct (build_profile_read_back rand1 rand2 (lit "TestNet") (lit "10.0.0.5"))
    as (b & Hb & Hl); try reflexivity.
  exists b. unfold read_back in Hl.
  do 2 eexists. split; [exact Hb|]. split; [exact Hl|].
  repeat split.
Qed.

Lemma startswith_app (p r : list Z) : startswith p (p ++ r) = true.
Proof.
  induction p as [|x p IH]; [reflexivity|].
  cbn [app startswith]. now rewrite Z.eqb_refl, IH.
Qed.

Lemma dumps_header (v : plist) (b : bytes) :
  dumps v = Ok b -> startswith PLISTHEADER b = true.
Proof.
  unfold dumps.
  destruct (writeln 0 _), (write_value v 0), (writeln 0 _); cbn [bind];
    try discriminate.
  intros E.
  apply (f_equal (fun r => match r with Ok x => x | Raise _ => b end)) in E.
  cbv beta iota in E. subst b. apply startswith_app.
Qed.

Lemma keep_char_not_cr (c : Z) : keep_char c = true -> negb (c =? CR) = true.
Proof.
  intros H. destruct (Z.eqb_spec c CR) as [->|_]; [|reflexivity].
  vm_compute in H. discriminate H.
Qed.

Lemma sanitized_cr_free (ssid : str) :
  forallb (fun c => negb (c =? CR)) (sanitized_ssid ssid) = true.
Proof.
  unfold sanitized_ssid, str_or.
  destruct (_sanitize_identifier ssid) eqn:E; [reflexivity|].
  rewrite <- E. apply forallb_impl with (P := keep_char);
    [apply keep_char_not_cr|apply sanitize_chars].
Qed.

Lemma uuid_str_cr_free (n : Z) :
  forallb (fun c => negb (c =? CR)) (uuid_str n) = true.
Proof.
  apply forallb_impl with (P := uuid_char); [|apply uuid_str_chars].
  intros c H. unfold uuid_char, hyphen, CR in *. bool_lia.
Qed.

Lemma identifier_newlines (prefix : str) (ssid : str) :
  forallb (fun c => negb (c =? CR)) prefix = true ->
  unix_newlines (prefix ++ sanitized_ssid ssid) = prefix ++ sanitized_ssid ssid.
Proof.
  intros H. apply unix_newlines_fixed.
  now rewrite forallb_app, H, sanitized_cr_free.
Qed.

(** C6.  A document that [build_profile] returns starts with the XML
    property-list header and is the serialization of a dictionary with
    the eight profile keys: a list of one payload dictionary, the
    description, the display name, the identifier made of the fixed
    prefix and the sanitized name, the organization, the type
    [Configuration], the profile identifier and the version 1.  When
    the name and the host are made of XML characters it reads back as
    such a dictionary. *)
Theorem profile_document (rand1 rand2 : Z) (ssid proxy_ip : str) (b : bytes) :
  build_profile rand1 rand2 ssid proxy_ip = Ok b ->
  startswith PLISTHEADER b = true /\
  (exists wifi,
      dumps (PDict (outer_items (uuid_str (uuid4 rand1)) (sanitized_ssid ssid)
                                [PDict wifi])) = Ok b) /\
  (forallb xml_char ssid = true -> forallb xml_char proxy_ip = true ->
   exists wifi,
     loads b = Some (PDict (outer_items (uuid_str (uuid4 rand1))
                                        (sanitized_ssid ssid) [PDict wifi]))).
Proof.
  intros Hb. split; [exact (dumps_header _ _ Hb)|]. split.
  - eexists. exact Hb.
  - intros Hs Hi.
    destruct (build_profile_read_back rand1 rand2 ssid proxy_ip Hs Hi)
      as (b' & Hb' & Hl).
    rewrite Hb in Hb'.
    apply (f_equal (fun r => match r with Ok x => x | Raise _ => b end)) in Hb'.
    cbv beta iota in Hb'. subst b'.
    unfold read_back in Hl.
    rewrite (identifier_newlines (lit "com.example.burp-proxy.")) in Hl
      by reflexivity.
    rewrite (unix_newlines_fixed (uuid_str (uuid4 rand1))) in Hl
      by apply uuid_str_cr_free.
    eexists. exact Hl.
Qed.

Lemma profile_document_witness :
  exists b,
    build_profile 7 11 (lit "Office 5G") (lit "192.168.1.20") = Ok b /\
    startswith PLISTHEADER b = true /\
    exists wifi,
      loads b = Some (PDict (outer_items (uuid_str (uuid4 7))
                                         (lit "Office5G") [PDict wifi])).
Proof.
  destruct (build_profile_read_back 7 11 (lit "Office 5G") (lit "192.168.1.20")
              eq_refl eq_refl) as (b & Hb & _).
  exists b. split; [exact Hb|].
  destruct (profile_document 7 11 (lit "Office 5G") (lit "192.168.1.20") b Hb)
    as (Hh & _ & Hl).
  split; [exact Hh|]. exact (Hl eq_refl eq_refl).
Defined.

(** C9.  The two [PayloadIdentifier] strings of a profile differ
    whatever the name: both end in the sanitized name, and the
    namespaces before it part at the thirteenth character.  This holds
    of the dictionary that [build_profile] serializes, for every name
    and host, and of the document it returns as read back, for a name
    and a host made of XML characters. *)
Theorem payload_identifiers_differ (rand1 rand2 : Z) (ssid proxy_ip : str) :
  lit "com.example.burp-proxy." ++ sanitized_ssid ssid
    <> lit "com.example.wifi." ++ sanitized_ssid ssid /\
  (exists content wifi,
      profile_payload (uuid_str (uuid4 rand1)) (uuid_str (uuid4 rand2))
                      ssid proxy_ip = PDict content /\
      build_profile rand1 rand2 ssid proxy_ip = dumps (PDict content) /\
      dict_get (lit "PayloadContent") content = Some (PList [PDict wifi]) /\
      dict_get (lit "PayloadIdentifier") content
        = Some (PStr (lit "com.example.burp-proxy." ++ sanitized_ssid ssid)) /\
      dict_get (lit "PayloadIdentifier") wifi
        = Some (PStr (lit "com.example.wifi." ++ sanitized_ssid ssid))) /\
  (forallb xml_char ssid = true -> forallb xml_char proxy_ip = true ->
   exists b d wifi,
     build_profile rand1 rand2 ssid proxy_ip = Ok b /\
     loads b = Some (PDict d) /\
     dict_get (lit "PayloadContent") d = Some (PList [PDict wifi]) /\
     dict_get (lit "PayloadIdentifier") d
       = Some (PStr (lit "com.example.burp-proxy." ++ sanitized_ssid ssid)) /\
     dict_get (lit "PayloadIdentifier") wifi
       = Some (PStr (lit "com.example.wifi." ++ sanitized_ssid ssid))).
Proof.
  split; [simpl; intros H; discriminate H|]. split.
  - unfold build_profile, profile_payload.
    do 2 eexists. split; [reflexivity|]. split; [reflexivity|].
    split; [reflexivity|]. split; reflexivity.
  - intros Hs Hi.
    destruct (build_profile_read_back rand1 rand2 ssid proxy_ip Hs Hi)
      as (b & Hb & Hl).
    unfold read_back in Hl.
    rewrite (identifier_newlines (lit "com.example.burp-proxy.")) in Hl
      by reflexivity.
    rewrite (identifier_newlines (lit "com.example.wifi.")) in Hl
      by reflexivity.
    exists b. do 2 eexists. split; [exact Hb|]. split; [exact Hl|].
    split; [reflexivity|]. split; reflexivity.
Qed.

Lemma payload_identifiers_differ_witness :
  exists b d wifi,
    build_profile 7 11 (lit "Office 5G") (lit "192.168.1.20") = Ok b /\
    loads b = Some (PDict d) /\
    dict_get (lit "PayloadContent") d = Some (PList [PDict wifi]) /\
    dict_get (lit "PayloadIdentifier") d
      = Some (PStr (lit "com.example.burp-proxy.Office5G")) /\
    dict_get (lit "PayloadIdentifier") wifi
      = Some (PStr (lit "com.example.wifi.Office5G")).
Proof.
  exact (proj2 (proj2 (payload_identifiers_differ 7 11 (lit "Office 5G")
                         (lit "192.168.1.20"))) eq_refl eq_refl).
Defined.

Lemma without_uuids_payload (u1 u2 v1 v2 ssid ip : str) :
  without_uuids (profile_payload u1 u2 ssid ip)
  = without_uuids (profile_payload v1 v2 ssid ip).
Proof.
  unfold profile_payload. generalize (sanitized_ssid ssid). intros sid.
  reflexivity.
Qed.

Lemma without_uuids_read_back (u1 u2 v1 v2 ssid ip : str) :
  without_uuids (read_back u1 u2 ssid ip)
  = without_uuids (read_back v1 v2 ssid ip).
Proof.
  unfold read_back. generalize (sanitized_ssid ssid). intros sid.
  reflexivity.
Qed.

Lemma uuid_fields_read_back (u w ssid ip : str) :
  uuid_fields (read_back u w ssid ip)
  = Some (unix_newlines u, unix_newlines w).
Proof.
  unfold read_back. generalize (sanitized_ssid ssid). intros sid.
  reflexivity.
Qed.

(** C5.  Two calls with the same name and host, whose draws from the
    random source differ in a bit that [uuid4] keeps, build two profiles
    whose [PayloadUUID] differ, at the level of the profile and at the
    level of the payload, and which agree on everything else; so do the
    two documents as read back, when name and host are made of XML
    characters. *)
Theorem fresh_identifiers (a1 a2 b1 b2 : Z) (ssid proxy_ip : str) :
  draw a1 -> draw a2 -> draw b1 -> draw b2 ->
  random_bits a1 <> random_bits b1 -> random_bits a2 <> random_bits b2 ->
  exists d d' u w u' w',
    build_profile a1 a2 ssid proxy_ip = dumps d /\
    build_profile b1 b2 ssid proxy_ip = dumps d' /\
    uuid_fields d = Some (u, w) /\ uuid_fields d' = Some (u', w') /\
    u <> u' /\ w <> w' /\
    without_uuids d = without_uuids d' /\
    (forallb xml_char ssid = true -> forallb xml_char proxy_ip = true ->
     exists b b' r r',
       build_profile a1 a2 ssid proxy_ip = Ok b /\
       build_profile b1 b2 ssid proxy_ip = Ok b' /\
       loads b = Some r /\ loads b' = Some r' /\
       uuid_fields r = Some (u, w) /\ uuid_fields r' = Some (u', w') /\
       without_uuids r = without_uuids r').
Proof.
  intros Ha1 Ha2 Hb1 Hb2 H1 H2.
  exists (profile_payload (uuid_str (uuid4 a1)) (uuid_str (uuid4 a2)) ssid proxy_ip),
         (profile_payload (uuid_str (uuid4 b1)) (uuid_str (uuid4 b2)) ssid proxy_ip),
         (uuid_str (uuid4 a1)), (uuid_str (uuid4 a2)),
         (uuid_str (uuid4 b1)), (uuid_str (uuid4 b2)).
  split; [reflexivity|]. split; [reflexivity|].
  split; [reflexivity|]. split; [reflexivity|].
  split; [now apply fresh_uuid|]. split; [now apply fresh_uuid|].
  split; [apply without_uuids_payload|].
  intros Hs Hi.
  destruct (build_profile_read_back a1 a2 ssid proxy_ip Hs Hi) as (b & Hb & Hl).
  destruct (build_profile_read_back b1 b2 ssid proxy_ip Hs Hi) as (b' & Hb' & Hl').
  exists b, b'. do 2 eexists.
  split; [exact Hb|]. split; [exact Hb'|].
  split; [exact Hl|]. split; [exact Hl'|].
  split; [|split; [|apply without_uuids_read_back]].
  - rewrite uuid_fields_read_back.
    now rewrite !unix_newlines_fixed by apply uuid_str_cr_free.
  - rewrite uuid_fields_read_back.
    now rewrite !unix_newlines_fixed by apply uuid_str_cr_free.
Qed.

Lemma fresh_identifiers_witness :
  exists d d' u w u' w',
    build_profile 0 2 (lit "Office 5G") (lit "192.168.1.20") = dumps d /\
    build_profile 1 3 (lit "Office 5G") (lit "192.168.1.20") = dumps d' /\
    uuid_fields d = Some (u, w) /\ uuid_fields d' = Some (u', w') /\
    u <> u' /\ w <> w' /\ without_uuids d = without_uuids d'.
Proof.
  assert (D : forall n, 0 <= n < 4 -> draw n) by (unfold draw; lia).
  assert (R1 : random_bits 0 <> random_bits 1) by (vm_compute; discriminate).
  assert (R2 : random_bits 2 <> random_bits 3) by (vm_compute; discriminate).
  destruct (fresh_identifiers 0 2 1 3 (lit "Office 5G") (lit "192.168.1.20")
              (D 0 ltac:(lia)) (D 2 ltac:(lia)) (D 1 ltac:(lia))
              (D 3 ltac:(lia)) R1 R2)
    as (d & d' & u & w & u' & w' & H1 & H2 & H3 & H4 & H5 & H6 & H7 & _).
  exists d, d', u, w, u', w'. repeat split; assumption.
Defined.

(** * More on identifier sanitization *)

Lemma char_eqb_eq (x c : Z) : char_eqb x c = true -> x = c.
Proof. apply Z.eqb_eq. Qed.

Lemma lstrip_split (c : Z) (s : str) :
  exists pre, s = pre ++ lstrip c s /\ forallb (fun x => x =? c) pre = true.
Proof.
  induction s as [|x s (pre & E & H)]; [now exists []|].
  cbn [lstrip]. destruct (char_eqb x c) eqn:Hx.
  - exists (x :: pre). cbn [app forallb]. split; [now f_equal|].
    apply char_eqb_eq in Hx. subst x. now rewrite Z.eqb_refl.
  - now exists [].
Qed.

Lemma rstrip_split (c : Z) (s : str) :
  exists post, s = rstrip c s ++ post /\ forallb (fun x => x =? c) post = true.
Proof.
  induction s as [|x s (post & E & H)]; [now exists []|].
  cbn [rstrip]. destruct (rstrip c s) as [|y t].
  - destruct (char_eqb x c) eqn:Hx.
    + exists (x :: post). cbn [app forallb] in *. split; [now f_equal|].
      apply char_eqb_eq in Hx. subst x. now rewrite Z.eqb_refl.
    + exists post. cbn [app] in *. split; [now f_equal|assumption].
  - exists post. split; [|assumption]. cbn [app] in *. now f_equal.
Qed.

Lemma rstrip_fixed (c : Z) (s : str) :
  last_char s <> Some c -> rstrip c s = s.
Proof.
  induction s as [|x s IH]; [reflexivity|].
  destruct s as [|y t].
  - cbn. intros H. unfold char_eqb. destruct (Z.eqb_spec x c) as [->|_];
      [now elim H|reflexivity].
  - intros H. change (last_char (x :: y :: t)) with (last_char (y :: t)) in H.
    cbn [rstrip] in *. now rewrite (IH H).
Qed.


Lemma sanitize_split (value : str) :
  exists pre post,
    filter keep_char value = pre ++ _sanitize_identifier value ++ post /\
    forallb (fun c => c =? dot) pre = true /\
    forallb (fun c => c =? dot) post = true.
Proof.
  unfold _sanitize_identifier, strip.
  destruct (lstrip_split dot (filter keep_char value)) as (pre & E1 & H1).
  destruct (rstrip_split dot (lstrip dot (filter keep_char value)))
    as (post & E2 & H2).
  exists pre, post. split; [|now split].
  rewrite <- E2. exact E1.
Qed.

(** X1.  Sanitizing only deletes: the characters that pass the filter
    are the identifier with dots before it and dots after it, so the
    identifier keeps the order and the interior of what passed. *)
Theorem sanitize_strips_dots_only (value : str) :
  exists pre post,
    filter keep_char value = pre ++ _sanitize_identifier value ++ post /\
    all_dots pre = true /\ all_dots post = true.
Proof. exact (sanitize_split value). Qed.

(** X2.  The strings the sanitizer leaves unchanged are exactly those
    made of alphanumeric characters, hyphens and dots that neither start
    nor end with a dot. *)
Theorem sanitize_fixed_points (s : str) :
  _sanitize_identifier s = s <->
  forallb keep_char s = true /\ edge_dot_free s.
Proof.
  split.
  - intros E. rewrite <- E. split; [apply sanitize_chars|apply strip_edges].
  - intros [Hk [Hh Hl]]. unfold _sanitize_identifier, strip.
    rewrite (filter_fixed _ _ Hk), (lstrip_fixed dot s Hh).
    now apply rstrip_fixed.
Qed.



Lemma forallb_and (P Q : Z -> bool) (s : str) :
  forallb P s = true -> forallb Q s = true ->
  forallb (fun c => P c && Q c) s = true.
Proof.
  induction s as [|x s IH]; [trivial|]. cbn [forallb].
  intros HP HQ. apply andb_true_iff in HP as [-> HP].
  apply andb_true_iff in HQ as [-> HQ]. now rewrite IH.
Qed.

Lemma sanitized_kinds (s : str) :
  forallb (fun c => ascii_ident_char c || unicode_alnum c)
          (sanitized_ssid s) = true.
Proof.
  unfold sanitized_ssid, str_or.
  destruct (_sanitize_identifier s) eqn:E; [reflexivity|]. rewrite <- E.
  apply forallb_impl with (P := keep_char);
    [apply keep_char_kinds|apply sanitize_chars].
Qed.

Lemma sanitized_edges (s : str) : edge_dot_free (sanitized_ssid s).
Proof.
  unfold sanitized_ssid, str_or.
  destruct (_sanitize_identifier s) eqn:E.
  - split; discriminate.
  - rewrite <- E. apply strip_edges.
Qed.

Lemma sanitized_nonempty (s : str) : sanitized_ssid s <> [].
Proof.
  unfold sanitized_ssid, str_or.
  destruct (_sanitize_identifier s); discriminate.
Qed.

(** X4.  For a name of ASCII characters the identifier of
    [build_profile] is non-empty, made of characters of
    [[A-Za-z0-9.-]] only, and has neither a leading nor a trailing dot. *)
Theorem ascii_name_identifier (ssid : str) :
  forallb is_ascii ssid = true -> ascii_identifier (sanitized_ssid ssid).
Proof.
  intros H. split; [apply sanitized_nonempty|]. split; [|apply sanitized_edges].
  pose proof (sanitized_forallb is_ascii ssid eq_refl H) as Ha.
  pose proof (forallb_and _ _ _ (sanitized_kinds ssid) Ha) as Hb.
  revert Hb. apply forallb_impl. intros c Hc.
  apply andb_true_iff in Hc as [Hk Hlt].
  apply orb_true_iff in Hk as [Hk|Hk]; [exact Hk|].
  unfold unicode_alnum, is_ascii in *. bool_lia.
Qed.

Lemma ascii_name_identifier_witness :
  forallb is_ascii (lit "Office 5G/..") = true /\
  ascii_identifier (sanitized_ssid (lit "Office 5G/..")).
Proof.
  split; [reflexivity|].
  apply (ascii_name_identifier (lit "Office 5G/..")). reflexivity.
Defined.

(** * More on random identifiers *)

Lemma hex_fixed_app (a b : nat) (n : Z) :
  hex_fixed (a + b) n = hex_fixed a (n / 16 ^ Z.of_nat b) ++ hex_fixed b n.
Proof.
  revert n. induction b as [|b IH]; intros n.
  - rewrite Nat.add_0_r. cbn [hex_fixed Z.of_nat]. rewrite Z.pow_0_r, Z.div_1_r.
    now rewrite app_nil_r.
  - rewrite Nat.add_succ_r. cbn [hex_fixed]. rewrite IH, app_assoc.
    rewrite Nat2Z.inj_succ, Z.pow_succ_r by lia.
    rewrite Z.div_div by lia. reflexivity.
Qed.

Lemma hex_char_digit (d : Z) : 0 <= d < 16 -> hex_digit (hex_char d) = true.
Proof.
  intros H. unfold hex_digit, hex_char.
  destruct (Z.ltb_spec d 10); bool_lia.
Qed.

Lemma hex_fixed_digits (k : nat) (n : Z) :
  forallb hex_digit (hex_fixed k n) = true.
Proof.
  revert n. induction k as [|k IH]; intros n; [reflexivity|].
  cbn [hex_fixed]. rewrite forallb_app, IH. cbn [forallb].
  rewrite hex_char_digit by (apply Z.mod_pos_bound; lia). reflexivity.
Qed.

Lemma hex_fixed_head (k : nat) (n : Z) :
  hex_fixed (S k) n
  = hex_char ((n / 16 ^ Z.of_nat k) mod 16) :: hex_fixed k n.
Proof.
  change (S k) with (1 + k)%nat. rewrite hex_fixed_app. reflexivity.
Qed.

(** The four version bits of a new identifier hold 4. *)
Lemma uuid4_version (rand : Z) : (uuid4 rand / 2 ^ 76) mod 16 = 4.
Proof.
  rewrite <- Z.shiftr_div_pow2 by lia.
  change 16 with (2 ^ 4). rewrite <- Z.land_ones by lia.
  apply Z.bits_inj'. intros n Hn.
  rewrite Z.land_spec, Z.shiftr_spec by assumption.
  destruct (Z.ltb_spec n 4) as [Hlt|Hge].
  - rewrite Z.ones_spec_low by lia. rewrite andb_true_r.
    unfold uuid4.
    repeat rewrite ?Z.land_spec, ?Z.lor_spec, ?Z.lnot_spec by lia.
    assert (Hc : n = 0 \/ n = 1 \/ n = 2 \/ n = 3) by lia.
    destruct Hc as [ -> | [ -> | [ -> | -> ] ] ];
      cbn [Z.add]; destruct (Z.testbit rand _); reflexivity.
  - rewrite Z.ones_spec_high by lia. rewrite andb_false_r.
    change 4 with (2 ^ 2). symmetry. apply Z.pow2_bits_false. lia.
Qed.

(** The two variant bits of a new identifier hold binary 10. *)
Lemma uuid4_variant (rand : Z) : (uuid4 rand / 2 ^ 62) mod 4 = 2.
Proof.
  rewrite <- Z.shiftr_div_pow2 by lia.
  change 4 with (2 ^ 2). rewrite <- Z.land_ones by lia.
  apply Z.bits_inj'. intros n Hn.
  rewrite Z.land_spec, Z.shiftr_spec by assumption.
  destruct (Z.ltb_spec n 2) as [Hlt|Hge].
  - rewrite Z.ones_spec_low by lia. rewrite andb_true_r.
    unfold uuid4.
    repeat rewrite ?Z.land_spec, ?Z.lor_spec, ?Z.lnot_spec by lia.
    assert (Hc : n = 0 \/ n = 1) by lia.
    destruct Hc as [ -> | -> ];
      cbn [Z.add]; destruct (Z.testbit rand _); reflexivity.
  - rewrite Z.ones_spec_high by lia. rewrite andb_false_r.
    change 2 with (2 ^ 1). symmetry. apply Z.pow2_bits_false. lia.
Qed.

Ltac explicit l :=
  repeat (destruct l as [|? l]; [discriminate|]);
  destruct l; [|discriminate].

Lemma uuid_str_parts (n : Z) (a b c d e : str) :
  hex_fixed 32 n = a ++ b ++ c ++ d ++ e ->
  List.length a = 8%nat -> List.length b = 4%nat ->
  List.length c = 4%nat -> List.length d = 4%nat ->
  uuid_str n = a ++ [hyphen] ++ b ++ [hyphen] ++ c ++ [hyphen] ++ d
               ++ [hyphen] ++ e.
Proof.
  intros E Ha Hb Hc Hd. unfold uuid_str. rewrite E. clear E.
  explicit a. explicit b. explicit c. explicit d. reflexivity.
Qed.

Lemma variant_digit (u : Z) :
  (u / 2 ^ 62) mod 4 = 2 ->
  let y := hex_char ((u / 2 ^ 60) mod 16) in
  y = 56 \/ y = 57 \/ y = 97 \/ y = 98.
Proof.
  intros H.
  assert (Hy : 8 <= (u / 2 ^ 60) mod 16 <= 11).
  { replace (u / 2 ^ 62) with (u / 2 ^ 60 / 4) in H
      by (rewrite Z.div_div by lia; reflexivity).
    Z.div_mod_to_equations. lia. }
  cbv zeta. unfold hex_char.
  destruct (Z.ltb_spec ((u / 2 ^ 60) mod 16) 10); lia.
Qed.

(** X5.  Whatever the draw, the text of a new identifier is a canonical
    version-4 identifier: thirty-two lower-case hexadecimal digits in
    groups of 8, 4, 4, 4 and 12 joined by hyphens, the third group
    starting with [4] and the fourth with [8], [9], [a] or [b]. *)
Theorem uuid4_canonical (rand : Z) : uuid4_text (uuid_str (uuid4 rand)).
Proof.
  set (u := uuid4 rand).
  pose proof (hex_fixed_digits 32 u) as Hd.
  assert (E : hex_fixed 32 u
              = hex_fixed 8 (u / 16 ^ 24) ++ hex_fixed 4 (u / 16 ^ 20) ++
                (hex_char ((u / 2 ^ 76) mod 16) :: hex_fixed 3 (u / 16 ^ 16)) ++
                (hex_char ((u / 2 ^ 60) mod 16) :: hex_fixed 3 (u / 16 ^ 12)) ++
                hex_fixed 12 u).
  { change 32%nat with (8 + 24)%nat. rewrite hex_fixed_app. f_equal.
    change 24%nat with (4 + 20)%nat. rewrite hex_fixed_app. f_equal.
    change 20%nat with (4 + 16)%nat. rewrite hex_fixed_app. f_equal.
    { rewrite hex_fixed_head. do 2 f_equal.
      change (Z.of_nat 16) with 16. change (Z.of_nat 3) with 3.
      rewrite Z.div_div by lia. reflexivity. }
    change 16%nat with (4 + 12)%nat. rewrite hex_fixed_app. f_equal.
    rewrite hex_fixed_head. do 2 f_equal.
    change (Z.of_nat 12) with 12. change (Z.of_nat 3) with 3.
    rewrite Z.div_div by lia. reflexivity. }
  rewrite E in Hd.
  rewrite (uuid_str_parts u _ _ _ _ _ E)
    by (cbn [List.length]; now rewrite ?hex_fixed_length).
  unfold u in *. rewrite uuid4_version in *.
  change (hex_char 4) with 52 in *.
  unfold uuid4_text.
  exists (hex_fixed 8 (uuid4 rand / 16 ^ 24)),
         (hex_fixed 4 (uuid4 rand / 16 ^ 20)),
         (hex_fixed 3 (uuid4 rand / 16 ^ 16)),
         (hex_char ((uuid4 rand / 2 ^ 60) mod 16)),
         (hex_fixed 3 (uuid4 rand / 16 ^ 12)),
         (hex_fixed 12 (uuid4 rand)).
  rewrite !hex_fixed_length.
  split; [cbn [app]; reflexivity|].
  do 5 (split; [reflexivity|]).
  split; [|apply variant_digit, uuid4_variant].
  rewrite !forallb_app in *. cbn [forallb] in Hd.
  rewrite !andb_true_iff in *. tauto.
Qed.

Lemma uuid4_from_bits (rand : Z) :
  uuid4 rand
  = Z.lor (random_bits rand) (Z.lor (Z.shiftl 0x8000 48) (Z.shiftl 4 76)).
Proof.
  unfold uuid4, random_bits.
  replace (Z.shiftl 0x8000 48)
    with (Z.land (Z.shiftl 0x8000 48) (Z.lnot (Z.shiftl 0xf000 64)))
    by reflexivity.
  apply Z.bits_inj'. intros n Hn.
  repeat rewrite ?Z.land_spec, ?Z.lor_spec, ?Z.lnot_spec by assumption.
  destruct (Z.testbit rand n),
    (Z.testbit (Z.shiftl 49152 48) n), (Z.testbit (Z.shiftl 32768 48) n),
    (Z.testbit (Z.shiftl 61440 64) n), (Z.testbit (Z.shiftl 4 76) n);
    reflexivity.
Qed.

(** X6.  Two draws give the same identifier exactly when they agree on
    the bits [uuid4] keeps: the two variant bits and the four version
    bits of a draw have no influence. *)
Theorem uuid4_collision_iff (a b : Z) :
  uuid4 a = uuid4 b <-> random_bits a = random_bits b.
Proof.
  split; intros H.
  - now rewrite <- (uuid4_random_bits a), H, uuid4_random_bits.
  - now rewrite (uuid4_from_bits a), (uuid4_from_bits b), H.
Qed.

(** X7.  Within one call the identifier of the profile and the one of
    its payload differ as soon as the two draws differ in a bit [uuid4]
    keeps: the two [PayloadUUID] of the dictionary that [build_profile]
    serializes are the texts of the two identifiers drawn, and so are
    those of the document it returns as read back, for a name and a host
    made of XML characters. *)
Theorem profile_and_payload_uuid_differ (rand1 rand2 : Z) (ssid proxy_ip : str) :
  draw rand1 -> draw rand2 -> random_bits rand1 <> random_bits rand2 ->
  uuid_str (uuid4 rand1) <> uuid_str (uuid4 rand2) /\
  uuid_fields (profile_payload (uuid_str (uuid4 rand1)) (uuid_str (uuid4 rand2))
                               ssid proxy_ip)
    = Some (uuid_str (uuid4 rand1), uuid_str (uuid4 rand2)) /\
  build_profile rand1 rand2 ssid proxy_ip
    = dumps (profile_payload (uuid_str (uuid4 rand1)) (uuid_str (uuid4 rand2))
                             ssid proxy_ip) /\
  (forallb xml_char ssid = true -> forallb xml_char proxy_ip = true ->
   exists b d,
     build_profile rand1 rand2 ssid proxy_ip = Ok b /\
     loads b = Some d /\
     uuid_fields d = Some (uuid_str (uuid4 rand1), uuid_str (uuid4 rand2))).
Proof.
  intros H1 H2 Hne.
  split; [now apply fresh_uuid|]. split; [reflexivity|].
  split; [reflexivity|].
  intros Hs Hi.
  destruct (build_profile_read_back rand1 rand2 ssid proxy_ip Hs Hi)
    as (b & Hb & Hl).
  exists b. eexists. split; [exact Hb|]. split; [exact Hl|].
  rewrite uuid_fields_read_back.
  now rewrite !unix_newlines_fixed by apply uuid_str_cr_free.
Qed.

Lemma profile_and_payload_uuid_differ_witness :
  uuid_str (uuid4 7) <> uuid_str (uuid4 11) /\
  exists b d,
    build_profile 7 11 (lit "Office 5G") (lit "192.168.1.20") = Ok b /\
    loads b = Some d /\
    uuid_fields d = Some (uuid_str (uuid4 7), uuid_str (uuid4 11)).
Proof.
  assert (D : forall n, 0 <= n < 16 -> draw n) by (unfold draw; lia).
  assert (R : random_bits 7 <> random_bits 11) by (vm_compute; discriminate).
  destruct (profile_and_payload_uuid_differ 7 11 (lit "Office 5G")
              (lit "192.168.1.20") (D 7 ltac:(lia)) (D 11 ltac:(lia)) R)
    as (Hne & _ & _ & Hd).
  split; [exact Hne|]. exact (Hd eq_refl eq_refl).
Defined.

(** * The outcome of the writer, exceptions included *)

Lemma encode_utf8_fail (s : str) :
  forallb encodable s = false -> encode_utf8 s = Raise UnicodeEncodeError.
Proof.
  induction s as [|c s IH]; [discriminate|]. cbn [forallb encode_utf8].
  unfold encodable at 1. destruct (utf8_char c); [|reflexivity].
  cbn [andb]. intros H. now rewrite (IH H).
Qed.

Lemma replace_crlf_step (x d : Z) (t : str) :
  replace_crlf (x :: d :: t)
  = if (x =? CR) && (d =? LF) then LF :: replace_crlf t
    else x :: replace_crlf (d :: t).
Proof. reflexivity. Qed.

Section PreservedBothWays.
Variable P : Z -> bool.

Lemma replace1_forallb_eq (old : Z) (new s : str) :
  P old = true -> forallb P new = true ->
  forallb P (replace1 old new s) = forallb P s.
Proof.
  intros Ho Hn. unfold replace1.
  induction s as [|x s IH]; [reflexivity|]. cbn [flat_map forallb].
  rewrite forallb_app, IH. f_equal.
  destruct (Z.eqb_spec x old) as [->|_]; [now rewrite Hn, Ho|].
  cbn [forallb]. apply andb_true_r.
Qed.

Lemma replace_crlf_forallb_eq (s : str) :
  P CR = true -> P LF = true ->
  forallb P (replace_crlf s) = forallb P s.
Proof.
  intros Hcr Hlf.
  enough (H : forall x, forallb P (replace_crlf s) = forallb P s /\
                        forallb P (replace_crlf (x :: s)) = forallb P (x :: s))
    by apply (H 0).
  induction s as [|d t IH]; intros x; [split; reflexivity|].
  destruct (IH d) as [IH1 IH2]. split; [exact IH2|].
  rewrite replace_crlf_step.
  destruct (Z.eqb_spec x CR) as [->|_]; cbn [andb].
  - destruct (Z.eqb_spec d LF) as [->|_].
    + cbn [forallb]. now rewrite IH1, Hcr, Hlf.
    + change (forallb P (CR :: replace_crlf (d :: t)))
        with (P CR && forallb P (replace_crlf (d :: t))).
      now rewrite IH2.
  - change (forallb P (x :: replace_crlf (d :: t)))
      with (P x && forallb P (replace_crlf (d :: t))).
    now rewrite IH2.
Qed.

Hypothesis basic :
  forallb P (lit "<>&amp;&lt;&gt;") = true /\ P LF = true /\ P CR = true.

Lemma escape_text_forallb_eq (s : str) :
  forallb P (escape_text s) = forallb P s.
Proof.
  destruct basic as (Hb & Hlf & Hcr). unfold escape_text.
  assert (Hc : forall c, In c (lit "<>&amp;&lt;&gt;") -> P c = true)
    by (apply forallb_forall; exact Hb).
  rewrite !replace1_forallb_eq;
    try (apply Hc; cbn; tauto);
    try (apply forallb_forall; intros c Hin; apply Hc; cbn in *; tauto);
    try assumption.
  - now apply replace_crlf_forallb_eq.
  - cbn [forallb]. now rewrite Hlf.
Qed.
End PreservedBothWays.

Lemma first_error_app (a b : list (nat * line)) :
  first_error (a ++ b)
  = match first_error a with Some e => Some e | None => first_error b end.
Proof.
  induction a as [|l a IH]; [reflexivity|]. cbn [app first_error].
  destruct (line_error l); [reflexivity|exact IH].
Qed.

Lemma written_app (a b : list (nat * line)) :
  written (a ++ b) = (x <- written a ;; y <- written b ;; Ok (x ++ y)).
Proof.
  unfold written. rewrite first_error_app, flat_map_app.
  destruct (first_error a); [reflexivity|]. cbn [bind].
  destruct (first_error b); reflexivity.
Qed.

Lemma written_cons (l : nat * line) (ls : list (nat * line)) :
  written (l :: ls) = (x <- written [l] ;; y <- written ls ;; Ok (x ++ y)).
Proof. exact (written_app [l] ls). Qed.

Lemma line_text_encodable (t : tag) (v : str) :
  forallb encodable (line_text (Simple t v)) = forallb encodable v.
Proof.
  cbn [line_text]. rewrite !forallb_app, tag_str_encodable.
  rewrite (escape_text_forallb_eq encodable) by (repeat split; reflexivity).
  change (forallb encodable (lit "<")) with true.
  change (forallb encodable (lit ">")) with true.
  change (forallb encodable (lit "</")) with true.
  cbn [andb]. now rewrite andb_true_r.
Qed.

Lemma simple_element_written (level : nat) (t : tag) (v : str) :
  simple_element level (tag_str t) (Some v) = written [(level, Simple t v)].
Proof.
  unfold written. cbn [first_error]. unfold line_error. cbn [snd].
  unfold string_error, simple_element, _escape.
  destruct (existsb control_char v); [reflexivity|]. cbn [bind].
  pose proof (line_text_encodable t v) as He. cbn [line_text] in He.
  change (lit "<" ++ tag_str t ++ lit ">" ++ escape_text v ++
          lit "</" ++ tag_str t ++ lit ">")
    with (60 :: (tag_str t ++ lit ">" ++ escape_text v ++
                 lit "</" ++ tag_str t ++ lit ">")) in *.
  destruct (forallb encodable v).
  - rewrite writeln_ok by exact He. cbn [flat_map]. now rewrite app_nil_r.
  - unfold writeln. now rewrite encode_utf8_fail by exact He.
Qed.

Lemma written_plain (l : nat * line) :
  line_error l = None -> written [l] = Ok (line_bytes l).
Proof.
  intros H. unfold written. cbn [first_error flat_map]. rewrite H.
  now rewrite app_nil_r.
Qed.

Lemma insert_item_related {A B} (R : str * A -> str * B -> Prop) w l ws ls :
  (forall x y, R x y -> fst x = fst y) ->
  R w l -> Forall2 R ws ls ->
  Forall2 R (insert_item w ws) (insert_item l ls).
Proof.
  intros Hk Hwl H. induction H as [|w' l' ws ls Hh Ht IH]; simpl.
  - constructor; [assumption|constructor].
  - rewrite <- (Hk _ _ Hwl), <- (Hk _ _ Hh).
    destruct (str_ltb (fst w') (fst w)).
    + constructor; [exact Hh|exact IH].
    + constructor; [exact Hwl|]. constructor; assumption.
Qed.

Lemma sorted_items_related {A B} (R : str * A -> str * B -> Prop) ws ls :
  (forall x y, R x y -> fst x = fst y) ->
  Forall2 R ws ls -> Forall2 R (sorted_items ws) (sorted_items ls).
Proof.
  intros Hk. induction 1 as [|w l ws ls Hh Ht IH]; simpl; [constructor|].
  now apply insert_item_related.
Qed.

Lemma write_items_written (level : nat) ws ls :
  Forall2 agree_written ws ls ->
  write_items level ws = written (item_lines level ls).
Proof.
  induction 1 as [|[k w] [k' l] ws ls (Hk & Hv) Ht IH];
    cbn [write_items]; [reflexivity|].
  cbn [fst snd] in Hk, Hv. subst k'.
  change (lit "key") with (tag_str TKey).
  rewrite simple_element_written, Hv, IH.
  unfold item_lines. cbn [flat_map fst snd].
  fold (item_lines level ls).
  change (((level, Simple TKey k) :: l level) ++ item_lines level ls)
    with ([(level, Simple TKey k)] ++ l level ++ item_lines level ls).
  rewrite (written_app [(level, Simple TKey k)] (l level ++ item_lines level ls)).
  rewrite (written_app (l level) (item_lines level ls)).
  destruct (written [(level, Simple TKey k)]); [|reflexivity]. cbn [bind].
  destruct (written (l level)); [|reflexivity]. cbn [bind].
  destruct (written (item_lines level ls)); reflexivity.
Qed.

Lemma write_each_written (level : nat) (ws : list pending) (ls : list lines_of) :
  Forall2 (fun w l => forall lv, w lv = written (l lv)) ws ls ->
  write_each level ws = written (flat_map (fun f => f level) ls).
Proof.
  induction 1 as [|w l ws ls Hh Ht IH]; cbn [write_each flat_map];
    [reflexivity|].
  rewrite Hh, IH, written_app. reflexivity.
Qed.

(** The writer, on any value with integers in range, gives what writing
    its lines in turn gives: the bytes, or the exception of the first
    line that has one. *)
Lemma write_value_written (v : plist) :
  ints_fit v = true ->
  forall level, write_value v level = written (xml_lines v level).
Proof.
  induction v as [s|b|n|a IH|d IH] using plist_nested_ind; intros Hf level.
  - apply (simple_element_written level TString).
  - cbn [write_value xml_lines].
    destruct b; [change (lit "true") with (tag_str TTrue)
                |change (lit "false") with (tag_str TFalse)];
      rewrite simple_element_empty; now rewrite written_plain.
  - cbn [write_value xml_lines]. cbn [ints_fit] in Hf. rewrite Hf.
    apply (simple_element_written level TInteger).
  - cbn [write_value xml_lines]. cbn [ints_fit] in Hf.
    assert (H2 : Forall2 (fun w l => forall lv, w lv = written (l lv))
                         (map write_value a) (map xml_lines a)).
    { induction IH as [|x a Hx Ha IHa]; cbn [map]; [constructor|].
      cbn [forallb] in Hf. apply andb_true_iff in Hf as [Hfx Hfa].
      constructor; [now apply Hx|now apply IHa]. }
    destruct a as [|x a].
    + cbn [map write_array array_lines].
      change (lit "array") with (tag_str TArray).
      rewrite simple_element_empty. now rewrite written_plain.
    + unfold write_array, array_lines. cbn [map] in H2 |- *.
      change (lit "array") with (tag_str TArray).
      rewrite (begin_element_ok level TArray), (end_element_ok level TArray).
      rewrite (write_each_written (S level) _ _ H2). cbn [bind].
      rewrite written_cons, written_app.
      rewrite (written_plain (level, Open TArray)) by reflexivity.
      rewrite (written_plain (level, Close TArray)) by reflexivity.
      cbn [bind map flat_map].
      destruct (written _); reflexivity.
  - cbn [write_value xml_lines]. cbn [ints_fit] in Hf.
    assert (H2 : Forall2 agree_written
                   (map (fun kv => (fst kv, write_value (snd kv))) d)
                   (map (fun kv => (fst kv, xml_lines (snd kv))) d)).
    { induction IH as [|x d Hx Hd IHd]; cbn [map]; [constructor|].
      cbn [forallb] in Hf. apply andb_true_iff in Hf as [Hfx Hfd].
      constructor; [|now apply IHd]. split; [reflexivity|]. now apply Hx. }
    destruct d as [|x d].
    + cbn [map write_dict dict_lines].
      change (lit "dict") with (tag_str TDict).
      rewrite simple_element_empty. now rewrite written_plain.
    + unfold write_dict, dict_lines. cbn [map] in H2 |- *.
      change (lit "dict") with (tag_str TDict).
      rewrite (begin_element_ok level TDict), (end_element_ok level TDict).
      rewrite (write_items_written (S level) _ _
                 (sorted_items_related _ _ _ (fun x y H => proj1 H) H2)).
      cbn [bind].
      rewrite written_cons, written_app.
      rewrite (written_plain (level, Open TDict)) by reflexivity.
      rewrite (written_plain (level, Close TDict)) by reflexivity.
      cbn [bind].
      destruct (written _); reflexivity.
Qed.

Lemma dumps_written (v : plist) :
  ints_fit v = true ->
  dumps v = match first_error (xml_lines v 0) with
            | Some e => Raise e
            | None => Ok (utf8_bytes (document (xml_lines v 0)))
            end.
Proof.
  intros H. unfold dumps. rewrite (write_value_written v H).
  change (writeln 0 (lit "<plist version=" ++ [quote] ++ lit "1.0" ++ [quote]
                     ++ lit ">"))
    with (Ok (utf8_bytes (plist_open ++ [LF]))).
  change (writeln 0 (lit "</plist>")) with (Ok (utf8_bytes (lit "</plist>" ++ [LF]))).
  cbn [bind]. unfold written.
  destruct (first_error (xml_lines v 0)); [reflexivity|]. cbn [bind].
  unfold document. rewrite !utf8_bytes_app, utf8_bytes_lines.
  change (utf8_bytes PLISTHEADER) with PLISTHEADER.
  now rewrite <- !app_assoc.
Qed.

(** The strings of the profile that are not literals, in the order in
    which the writer meets them. *)
Lemma payload_first_error (u1 u2 ssid ip : str) :
  first_error (xml_lines (profile_payload u1 u2 ssid ip) 0)
  = first_some [ string_error (ssid ++ lit " Wi-Fi");
                 string_error (lit "com.example.wifi." ++ sanitized_ssid ssid);
                 string_error u2;
                 string_error ip;
                 string_error ssid;
                 string_error (lit "com.example.burp-proxy."
                               ++ sanitized_ssid ssid);
                 string_error u1 ].
Proof.
  unfold profile_payload. generalize (sanitized_ssid ssid). intros sid.
  reflexivity.
Qed.

Lemma string_error_none (s : str) :
  writable s = true -> string_error s = None.
Proof.
  intros H. unfold string_error.
  now rewrite (writable_no_control s H), (writable_encodable s H).
Qed.

Lemma string_error_clean_r (a b : str) :
  writable b = true -> string_error (a ++ b) = string_error a.
Proof.
  intros H. unfold string_error.
  rewrite existsb_app, forallb_app.
  rewrite (writable_no_control b H), (writable_encodable b H).
  now rewrite orb_false_r, andb_true_r.
Qed.

Lemma alnum_ranges_xml : forallb range_xml alnum_ranges = true.
Proof. vm_compute. reflexivity. Qed.

Lemma isalnum_xml (c : Z) : isalnum c = true -> xml_char c = true.
Proof.
  unfold isalnum. intros H. apply existsb_exists in H as [r [Hin Hr]].
  pose proof alnum_ranges_xml as Ht.
  rewrite forallb_forall in Ht. specialize (Ht r Hin).
  unfold range_xml, in_range, xml_char, TAB, LF, CR in *.
  destruct r as [lo hi]; cbn [fst snd] in *.
  revert Hr Ht. bool_lia.
Qed.

Lemma keep_char_xml (c : Z) : keep_char c = true -> xml_char c = true.
Proof.
  unfold keep_char, char_eqb. intros H.
  apply orb_true_iff in H as [H|H]; [now apply isalnum_xml|].
  unfold xml_char, hyphen, dot, TAB, LF, CR in *. revert H. bool_lia.
Qed.

(** The identifier is always made of XML characters. *)
Lemma sanitized_xml (ssid : str) : forallb xml_char (sanitized_ssid ssid) = true.
Proof.
  unfold sanitized_ssid, str_or.
  destruct (_sanitize_identifier ssid) eqn:E; [reflexivity|]. rewrite <- E.
  apply forallb_impl with (P := keep_char);
    [apply keep_char_xml|apply sanitize_chars].
Qed.

Lemma ints_fit_payload (u1 u2 ssid ip : str) :
  ints_fit (profile_payload u1 u2 ssid ip) = true.
Proof. reflexivity. Qed.

Lemma build_profile_cases (rand1 rand2 : Z) (ssid proxy_ip : str) :
  build_profile rand1 rand2 ssid proxy_ip
  = match string_error ssid with
    | Some e => Raise e
    | None =>
        match string_error proxy_ip with
        | Some e => Raise e
        | None => Ok (profile_bytes (uuid_str (uuid4 rand1))
                                    (uuid_str (uuid4 rand2)) ssid proxy_ip)
        end
    end.
Proof.
  unfold build_profile, profile_bytes.
  rewrite dumps_written by apply ints_fit_payload.
  rewrite payload_first_error.
  rewrite (string_error_clean_r ssid (lit " Wi-Fi")) by reflexivity.
  assert (Hid : forall prefix,
             writable prefix = true ->
             string_error (prefix ++ sanitized_ssid ssid) = None).
  { intros prefix Hp. apply string_error_none. unfold writable in *.
    rewrite forallb_app, Hp. apply xml_writable, sanitized_xml. }
  rewrite !Hid by reflexivity.
  rewrite !(string_error_none (uuid_str _)) by apply xml_writable, uuid_str_xml.
  cbn [first_some].
  destruct (string_error ssid); [reflexivity|].
  destruct (string_error proxy_ip); reflexivity.
Qed.

(** X8.  [build_profile] raises exactly on a name or a host that holds
    a control character other than tab, line feed and carriage return
    ([ValueError]) or a surrogate ([UnicodeEncodeError]).  The name is
    examined before the host, and in each string the control characters
    before the encoding; otherwise the document is returned. *)
Theorem build_profile_outcome (rand1 rand2 : Z) (ssid proxy_ip : str) :
  build_profile rand1 rand2 ssid proxy_ip
  = match string_error ssid with
    | Some e => Raise e
    | None =>
        match string_error proxy_ip with
        | Some e => Raise e
        | None => Ok (profile_bytes (uuid_str (uuid4 rand1))
                                    (uuid_str (uuid4 rand2)) ssid proxy_ip)
        end
    end.
Proof. exact (build_profile_cases rand1 rand2 ssid proxy_ip). Qed.

(** X9.  For a name and a host made of XML characters the document
    reads back with the name and the host as given except for their
    line ends: every CR LF and every remaining CR is a line feed, in
    [SSID_STR], in [PayloadDisplayName] and in [ProxyServer]; the
    payload identifier is not affected. *)
Theorem payload_line_ends (rand1 rand2 : Z) (ssid proxy_ip : str) :
  forallb xml_char ssid = true -> forallb xml_char proxy_ip = true ->
  exists b d wifi,
    build_profile rand1 rand2 ssid proxy_ip = Ok b /\
    loads b = Some (PDict d) /\
    dict_get (lit "PayloadContent") d = Some (PList [PDict wifi]) /\
    dict_get (lit "SSID_STR") wifi = Some (PStr (unix_newlines ssid)) /\
    dict_get (lit "PayloadDisplayName") wifi
      = Some (PStr (unix_newlines (ssid ++ lit " Wi-Fi"))) /\
    dict_get (lit "ProxyServer") wifi = Some (PStr (unix_newlines proxy_ip)) /\
    dict_get (lit "PayloadIdentifier") wifi
      = Some (PStr (lit "com.example.wifi." ++ sanitized_ssid ssid)).
Proof.
  intros Hs Hi.
  destruct (build_profile_read_back rand1 rand2 ssid proxy_ip Hs Hi)
    as (b & Hb & Hl).
  exists b. unfold read_back in Hl.
  rewrite (identifier_newlines (lit "com.example.wifi.")) in Hl by reflexivity.
  do 2 eexists. split; [exact Hb|]. split; [exact Hl|].
  repeat split.
Qed.

Lemma payload_line_ends_witness :
  exists b d wifi,
    build_profile 7 11 [97; 13; 10; 98; 13; 99] (lit "10.0.0.5") = Ok b /\
    loads b = Some (PDict d) /\
    dict_get (lit "PayloadContent") d = Some (PList [PDict wifi]) /\
    dict_get (lit "SSID_STR") wifi = Some (PStr [97; 10; 98; 10; 99]).
Proof.
  destruct (payload_line_ends 7 11 [97; 13; 10; 98; 13; 99] (lit "10.0.0.5")
              eq_refl eq_refl)
    as (b & d & wifi & Hb & Hl & Hc & Hs & _).
  exists b, d, wifi. repeat split; assumption.
Defined.

(** * The profile server *)

Lemma str_eqb_eq (a b : str) : str_eqb a b = true <-> a = b.
Proof.
  revert b. induction a as [|x a IH]; intros [|y b]; cbn [str_eqb];
    try (split; [discriminate|discriminate]); [tauto|].
  unfold char_eqb. rewrite andb_true_iff, Z.eqb_eq, IH.
  split; [intros [-> ->]; reflexivity|intros [= -> ->]; now split].
Qed.


Lemma str_eqb_neq (a b : str) : a <> b -> str_eqb a b = false.
Proof.
  intros H. destruct (str_eqb a b) eqn:E; [|reflexivity].
  now apply str_eqb_eq in E.
Qed.


Lemma latin1_app (a b : str) : latin1 (a ++ b) = latin1 a && latin1 b.
Proof. apply forallb_app. Qed.

Lemma latin1_lit (s : string) : latin1 (lit s) = true.
Proof.
  unfold latin1, lit. induction s as [|a s IH]; [reflexivity|].
  cbn [list_ascii_of_string map forallb]. rewrite IH, andb_true_r.
  pose proof (N_ascii_bounded a). bool_lia.
Qed.

(** ** The steps of a reply that nothing interrupts *)

Lemma send_header_ok (request_version keyword value : str) (r : response) :
  latin1 keyword = true -> latin1 value = true ->
  send_header request_version keyword value r
  = Ok (if str_eqb request_version (lit "HTTP/0.9") then r
        else mkResponse (status r) (headers r ++ [(keyword, value)]) (body r)
                        (writes r) (logged r)).
Proof.
  intros Hk Hv. unfold send_header, encode_latin1.
  destruct (str_eqb request_version (lit "HTTP/0.9")); [reflexivity|].
  cbn [negb]. rewrite !latin1_app, Hk, Hv. reflexivity.
Qed.

Lemma send_response_ok (w : world) (request_version : str) (code : Z)
  (message : option str) (r : response) :
  stderr_write w (logged r) = Ok tt ->
  latin1 match message with
         | Some m => m
         | None =>
             match responses code with Some (short, _) => short | None => [] end
         end = true ->
  send_response w request_version code message r
  = Ok (if str_eqb request_version (lit "HTTP/0.9")
        then mkResponse (status r) (headers r) (body r) (writes r)
                        (S (logged r))
        else mkResponse
               (Some (code,
                      match message with
                      | Some m => m
                      | None =>
                          match responses code with
                          | Some (short, _) => short
                          | None => []
                          end
                      end))
               (headers r ++ [(lit "Server", lit (version_string w));
                              (lit "Date", lit (date_time_string w))])
               (body r) (writes r) (S (logged r))).
Proof.
  intros Hl Hp.
  unfold send_response, log_message, send_response_only, encode_latin1.
  rewrite Hl. cbn [bind].
  destruct (str_eqb request_version (lit "HTTP/0.9")) eqn:Hv; cbn [negb bind].
  - rewrite send_header_ok by apply latin1_lit. rewrite Hv. cbn [bind].
    rewrite send_header_ok by apply latin1_lit. rewrite Hv. reflexivity.
  - unfold int_str. rewrite !latin1_app, !latin1_lit, Hp.
    change (latin1 [CR; LF]) with true.
    cbn [andb bind status headers body writes logged].
    rewrite send_header_ok by apply latin1_lit. rewrite Hv. cbn [bind].
    rewrite send_header_ok by apply latin1_lit. rewrite Hv.
    cbn [status headers body writes logged].
    rewrite <- app_assoc. reflexivity.
Qed.

Lemma end_headers_ok (w : world) (request_version : str) (r : response) :
  sendall w (writes r) = Ok tt ->
  end_headers w request_version r
  = Ok (if str_eqb request_version (lit "HTTP/0.9") then r
        else mkResponse (status r) (headers r) (body r) (S (writes r))
                        (logged r)).
Proof.
  intros H. unfold end_headers. rewrite H.
  now destruct (str_eqb request_version (lit "HTTP/0.9")).
Qed.

Lemma wfile_write_ok (w : world) (b : bytes) (r : response) :
  sendall w (writes r) = Ok tt ->
  wfile_write w b r
  = Ok (mkResponse (status r) (headers r) (body r ++ b) (S (writes r))
                   (logged r)).
Proof. intros H. unfold wfile_write. now rewrite H. Qed.

(** ** The replies *)

(** The page of an error reply. *)
Lemma error_page_cons (code : Z) (message explain : str) :
  exists c rest,
    encode_utf8_replace (error_message_format code message explain) = c :: rest.
Proof.
  do 2 eexists. unfold error_message_format, encode_utf8_replace.
  change (lit "<!DOCTYPE HTML>") with (60 :: lit "!DOCTYPE HTML>").
  cbn [app flat_map]. change (utf8_char 60) with (Some [60]).
  cbn [app]. reflexivity.
Qed.


Lemma download_reply_present (w : world) (profile_path : Path)
  (request_version : str) (content : bytes) :
  delivers w -> latin1 (name profile_path) = true ->
  path_exists w profile_path = Ok true ->
  read_bytes w profile_path = Ok content ->
  do_GET w profile_path request_version (lit "/download")
  = Ok (profile_sent w profile_path request_version content).
Proof.
  intros [Hs Hl] Hn He Hr. unfold do_GET, profile_sent.
  change (str_eqb (lit "/download") (lit "/") || str_eqb (lit "/download") [])
    with false.
  change (str_eqb (lit "/download") (lit "/download")) with true.
  cbv iota. rewrite He. cbn [bind negb].
  rewrite send_response_ok by (apply Hl || reflexivity). cbn [bind].
  destruct (str_eqb request_version (lit "HTTP/0.9")) eqn:Hv;
    rewrite send_header_ok by reflexivity; rewrite Hv; cbn [bind];
    (rewrite send_header_ok
       by (reflexivity || (rewrite latin1_app, latin1_lit; exact Hn)));
    rewrite Hv; cbn [bind];
    rewrite end_headers_ok by apply Hs; rewrite Hv; cbn [bind];
    rewrite Hr; cbn [bind];
    rewrite wfile_write_ok by apply Hs; reflexivity.
Qed.

Lemma error_reply (w : world) (request_version message : str) :
  delivers w -> latin1 message = true ->
  send_error w request_version 404 message no_response
  = Ok (error_sent w request_version message).
Proof.
  intros [Hs Hl] Hm. unfold send_error, log_message, error_sent, error_page.
  change (responses 404)
    with (Some (lit "Not Found", lit "Nothing matches the given URI")).
  cbv iota beta zeta.
  destruct (error_page_cons 404 (html_escape message)
              (html_escape (lit "Nothing matches the given URI")))
    as (c & rest & Hp).
  change ((200 <=? 404) && negb ((404 =? 204) || (404 =? 205) || (404 =? 304)))
    with true.
  rewrite Hp. clear Hp. cbv iota.
  rewrite Hl. cbn [bind].
  rewrite send_response_ok by (apply Hl || exact Hm). cbn [bind].
  destruct (str_eqb request_version (lit "HTTP/0.9")) eqn:Hv;
    rewrite send_header_ok by apply latin1_lit; rewrite Hv; cbn [bind];
    rewrite send_header_ok by apply latin1_lit; rewrite Hv; cbn [bind];
    rewrite send_header_ok by apply latin1_lit; rewrite Hv; cbn [bind];
    rewrite end_headers_ok by apply Hs; rewrite Hv; cbn [bind];
    rewrite wfile_write_ok by apply Hs; reflexivity.
Qed.

(** C7 fails as stated.  A request line of two words, [GET /download],
    is an HTTP/0.9 request: with the file in place the handler writes
    the bytes of the file and neither a status line nor a header.  And a
    file that exists but cannot be read makes the handler raise, whatever
    the version of the request. *)
Lemma download_reply_fails :
  ~ download_reply
      (mkWorld (fun _ => Ok true) (fun _ => Ok [1; 2; 3])
               "SimpleHTTP/0.6 Python/3.11.2" "Tue, 03 Nov 2026 10:00:00 GMT"
               (fun _ => Ok tt) (fun _ => Ok tt))
      (served_path (lit "/home/user")) (lit "HTTP/0.9") /\
  ~ download_reply
      (mkWorld (fun _ => Ok true) (fun _ => Raise OSError)
               "SimpleHTTP/0.6 Python/3.11.2" "Tue, 03 Nov 2026 10:00:00 GMT"
               (fun _ => Ok tt) (fun _ => Ok tt))
      (served_path (lit "/home/user")) (lit "HTTP/1.1").
Proof.
  split; intros [H _]; destruct (H eq_refl) as (r & Hr & Hs & _).
  - vm_compute in Hr.
    apply (f_equal (fun x => match x with Ok y => status y | Raise _ => None end))
      in Hr.
    cbv beta iota in Hr. cbn [status] in Hr. rewrite Hs in Hr. discriminate Hr.
  - vm_compute in Hr. discriminate Hr.
Qed.

(** C7, as amended.  A [GET] whose request line names an HTTP version
    and whose path is [/download], answered to a peer that takes the
    reply, gets status 200, the profile content type, the attachment
    header naming the fixed file and the bytes of the file when the file
    exists and can be read; it gets status 404 and a page that carries
    the reason when the file does not exist.  In both cases the handler
    returns and raises nothing. *)
Theorem download_route (w : world) (cwd request_version target : str) :
  delivers w ->
  request_version <> lit "HTTP/0.9" ->
  request_path target = lit "/download" ->
  (forall content,
      path_exists w (served_path cwd) = Ok true ->
      read_bytes w (served_path cwd) = Ok content ->
      exists r,
        do_GET w (served_path cwd) request_version (request_path target)
          = Ok r /\
        status r = Some (200, lit "OK") /\
        header (lit "Content-Type") r
          = Some (lit "application/x-apple-aspen-config") /\
        header (lit "Content-Disposition") r
          = Some (lit "attachment; filename=burp-wifi-proxy.mobileconfig") /\
        body r = content) /\
  (path_exists w (served_path cwd) = Ok false ->
   exists r,
     do_GET w (served_path cwd) request_version (request_path target)
       = Ok r /\
     status r = Some (404, lit "Profile not found") /\
     contains (lit "Message: Profile not found.") (body r) = true).
Proof.
  intros Hd Hv Ht. rewrite Ht. apply str_eqb_neq in Hv. split.
  - intros content He Hr.
    rewrite (download_reply_present w (served_path cwd) request_version content
               Hd eq_refl He Hr).
    unfold profile_sent. rewrite Hv.
    eexists. split; [reflexivity|]. repeat split.
  - intros He. unfold do_GET.
    change (str_eqb (lit "/download") (lit "/") || str_eqb (lit "/download") [])
      with false.
    change (str_eqb (lit "/download") (lit "/download")) with true.
    cbv iota. rewrite He. cbn [bind negb].
    rewrite error_reply by (assumption || reflexivity).
    unfold error_sent. rewrite Hv.
    eexists. split; [reflexivity|]. split; [reflexivity|].
    vm_compute. reflexivity.
Qed.

(** A world in which the profile holds three octets, and one without
    the profile; the request line is [GET /download HTTP/1.1]. *)
Lemma download_route_witness :
  (exists r,
      do_GET (mkWorld (fun _ => Ok true) (fun _ => Ok [1; 2; 3])
                      "SimpleHTTP/0.6 Python/3.11.2"
                      "Tue, 03 Nov 2026 10:00:00 GMT"
                      (fun _ => Ok tt) (fun _ => Ok tt))
             (served_path (lit "/home/user")) (lit "HTTP/1.1")
             (request_path (lit "/download")) = Ok r /\
      status r = Some (200, lit "OK") /\ body r = [1; 2; 3]) /\
  (exists r,
      do_GET (mkWorld (fun _ => Ok false) (fun _ => Raise OSError)
                      "SimpleHTTP/0.6 Python/3.11.2"
                      "Tue, 03 Nov 2026 10:00:00 GMT"
                      (fun _ => Ok tt) (fun _ => Ok tt))
             (served_path (lit "/home/user")) (lit "HTTP/1.1")
             (request_path (lit "/download")) = Ok r /\
      status r = Some (404, lit "Profile not found")).
Proof.
  assert (Hv : lit "HTTP/1.1" <> lit "HTTP/0.9") by (vm_compute; discriminate).
  split.
  - destruct (proj1 (download_route
                       (mkWorld (fun _ => Ok true) (fun _ => Ok [1; 2; 3])
                                "SimpleHTTP/0.6 Python/3.11.2"
                                "Tue, 03 Nov 2026 10:00:00 GMT"
                                (fun _ => Ok tt) (fun _ => Ok tt))
                       (lit "/home/user") (lit "HTTP/1.1") (lit "/download")
                       (conj (fun _ => eq_refl) (fun _ => eq_refl)) Hv eq_refl)
                    [1; 2; 3] eq_refl eq_refl)
      as (r & Hr & Hs & _ & _ & Hb).
    exists r. repeat split; assumption.
  - destruct (proj2 (download_route
                       (mkWorld (fun _ => Ok false) (fun _ => Raise OSError)
                                "SimpleHTTP/0.6 Python/3.11.2"
                                "Tue, 03 Nov 2026 10:00:00 GMT"
                                (fun _ => Ok tt) (fun _ => Ok tt))
                       (lit "/home/user") (lit "HTTP/1.1") (lit "/download")
                       (conj (fun _ => eq_refl) (fun _ => eq_refl)) Hv eq_refl)
                    eq_refl)
      as (r & Hr & Hs & _).
    exists r. split; assumption.
Defined.

(** * More on the profile server *)





(** ** What a completed reply looks like *)











(** * More on address discovery *)

(** X14.  When the socket is created and associated and reports its
    name, [get_local_ip] returns the host of that name, also when
    closing the socket then fails. *)
Theorem get_local_ip_reads_host (net : network) (host : str) (port : Z) :
  (exists u, socket_socket net = Returns u) ->
  (exists u, sock_connect net = Returns u) ->
  sock_getsockname net = Returns (host, port) ->
  get_local_ip net = host.
Proof.
  intros [u1 H1] [u2 H2] H3. unfold get_local_ip.
  rewrite H1, H2, H3. cbn [fst]. now destruct (sock_close net).
Qed.

Lemma get_local_ip_reads_host_witness :
  get_local_ip (mkNetwork (Returns tt) (Returns tt)
                          (Returns (lit "192.168.1.20", 54321)) (Fails 9))
  = lit "192.168.1.20".
Proof.
  apply (get_local_ip_reads_host
           (mkNetwork (Returns tt) (Returns tt)
                      (Returns (lit "192.168.1.20", 54321)) (Fails 9))
           (lit "192.168.1.20") 54321);
    [exists tt; reflexivity|exists tt; reflexivity|reflexivity].
Defined.

(** * From the start of the program to a download *)





Section Startup.
Variable print_qr : str -> list str.


(** X16.  A name that the XML writer refuses ends [main] with the
    writer's exception before anything is written: the file system is
    left as it was, whatever the network and the directory. *)
Theorem main_refuses_name (ssid : str) (e : exn) (net : network)
  (rand1 rand2 : Z) (cwd : str) (fs : filesystem) :
  string_error ssid = Some e ->
  main print_qr ssid net rand1 rand2 cwd fs = (fs, Raise e).
Proof.
  intros H. unfold main. rewrite build_profile_cases, H. reflexivity.
Qed.

End Startup.


Lemma main_refuses_name_witness :
  main (fun _ => []) [97; 7; 98]
       (mkNetwork (Returns tt) (Returns tt)
                  (Returns (lit "192.168.1.20", 54321)) (Returns tt))
       7 11 (lit "/home/user")
       (mkFilesystem (fun _ => None) (fun _ _ => false) (fun _ => true)
                     (fun _ => None))
  = (mkFilesystem (fun _ => None) (fun _ _ => false) (fun _ => true)
                  (fun _ => None), Raise ValueError).
Proof.
  apply (main_refuses_name (fun _ => []) [97; 7; 98] ValueError). reflexivity.
Defined.

